(** * JARVIS: candle window, EMA indicator, feed latency and analysis scheduler

    A shallow embedding of the TypeScript sources
    - [types.ts]            ([CandleData], [MarketAnalysis], [SystemState]),
    - [geminiService.ts]    ([cleanJsonString], [analyzeMarketStrategy],
                             [fetchMarketHotspots], [chatWithJarvis]),
    - [App.tsx]             ([calculateEMA], [updateCandles],
                             [aggregateCandleLocally], the two WebSocket
                             [onmessage] handlers, [runAnalysis], the
                             start-up effect and [handleSendMessage]),
    followed by the properties of the specification that the code decides.

    Conventions of the embedding.
    - A JavaScript [number] that holds a price, a volume or an indicator is an
      IEEE-754 binary64 value: Rocq's primitive [float], whose [+], [*] and [/]
      are the operations the JavaScript engine performs.
    - A JavaScript [number] that holds a time stamp in milliseconds, an array
      length or a period is an integer: [Z] (or [nat] for a length).  These stay
      far below 2^53, where binary64 arithmetic on integers is exact.
    - A JavaScript string is a [string] holding its UTF-8 bytes; [utf16Length]
      recovers what [.length] counts.
    - [undefined] in an optional field is [None].
    - A call that can raise is a [completion]: [Return v] or [Throw e]. *)

From Stdlib Require Import String Ascii ZArith Bool Lia Floats Sorted List.
Import ListNotations.

Set Implicit Arguments.

(* ===================================================================== *)
(** ** The JavaScript run time the sources rely on *)
(* ===================================================================== *)

Inductive JsError : Type :=
| RangeError
| TypeError
| SyntaxError
| NetworkError.

Inductive completion (A : Type) : Type :=
| Return (a : A)
| Throw (e : JsError).

Arguments Return {A} a.
Arguments Throw {A} e.

Definition bind {A B : Type} (m : completion A) (k : A -> completion B)
  : completion B :=
  match m with
  | Return a => k a
  | Throw e => Throw e
  end.

(** [try { m } catch (e) { h e }] *)
Definition tryCatch {A : Type} (m : completion A) (h : JsError -> completion A)
  : completion A :=
  match m with
  | Return a => Return a
  | Throw e => h e
  end.

Declare Scope js_scope.
Delimit Scope js_scope with js.
Notation "x <- m ;; k" := (bind m (fun x => k))
  (at level 61, m at next level, right associativity) : js_scope.

(** The number an integer literal or an integer-valued variable denotes
    (exact below 2^53 in magnitude, as in JavaScript). *)
Definition num (z : Z) : float :=
  if (z <? 0)%Z
  then PrimFloat.opp (PrimFloat.of_uint63 (Uint63.of_Z (- z)))
  else PrimFloat.of_uint63 (Uint63.of_Z z).

(** [Math.max(x, y)] and [Math.min(x, y)] of ECMA-262: NaN is contagious and
    [+0] is larger than [-0]. *)
Definition Math_max (x y : float) : float :=
  if PrimFloat.is_nan x || PrimFloat.is_nan y then PrimFloat.nan
  else if PrimFloat.ltb x y then y
  else if PrimFloat.ltb y x then x
  else if PrimFloat.get_sign x then y else x.

Definition Math_min (x y : float) : float :=
  if PrimFloat.is_nan x || PrimFloat.is_nan y then PrimFloat.nan
  else if PrimFloat.ltb x y then x
  else if PrimFloat.ltb y x then y
  else if PrimFloat.get_sign x then x else y.

(** [Array(n).fill(v)].  The constructor raises [RangeError] on a negative
    length.  (It also does so from 2^32 on, a length no array argument of the
    callers below can reach.) *)
Definition Array_fill {A : Type} (n : Z) (v : A) : completion (list A) :=
  if (n <? 0)%Z then Throw RangeError else Return (repeat v (Z.to_nat n)).

(** [a[a.length - 1]]: [undefined] on the empty array. *)
Definition lastOf {A : Type} (a : list A) : option A :=
  nth_error a (length a - 1).

(** [a[a.length - 1] = v] on a non-empty array. *)
Definition setLast {A : Type} (a : list A) (v : A) : list A :=
  removelast a ++ [v].

(** [a.slice(start)] for [0 <= start]. *)
Definition sliceFrom {A : Type} (start : nat) (a : list A) : list A :=
  skipn start a.

(** [a.slice(-n)]: the last [n] elements (all of them when there are fewer). *)
Definition sliceLast {A : Type} (n : nat) (a : list A) : list A :=
  skipn (length a - n) a.

(** [a.map((c, i) => f c i)] *)
Fixpoint mapFrom {A B : Type} (f : A -> nat -> B) (i : nat) (a : list A)
  : list B :=
  match a with
  | [] => []
  | c :: rest => f c i :: mapFrom f (S i) rest
  end.

Definition mapIndexed {A B : Type} (f : A -> nat -> B) (a : list A) : list B :=
  mapFrom f 0 a.

(** [a[i]] where the element type is itself optional: out of range reads
    [undefined]. *)
Definition at_ {A : Type} (a : list (option A)) (i : nat) : option A :=
  nth i a None.

(* ===================================================================== *)
(** ** types.ts *)
(* ===================================================================== *)

Inductive AiSignal : Type := bullish | bearish.

Record CandleData : Type := mkCandle {
  time : Z;
  open : float;
  high : float;
  low : float;
  close : float;
  volume : float;
  ema7 : option float;
  ema25 : option float;
  ema99 : option float;
  aiSignal : option AiSignal
}.

Inductive SystemState : Type :=
| IDLE | ANALYZING | PROCESSING | SCANNING | CONNECTING | ERROR.

Record MarketAnalysis : Type := mkAnalysis {
  sentiment : string;
  entryPoint : string;
  exitPoint : string;
  reasoning : string;
  learningNode : string;
  timestamp : Z
}.

(* ===================================================================== *)
(** ** App.tsx: the indicator *)
(* ===================================================================== *)

Definition MAX_CANDLES : nat := 120.
Definition ANALYSIS_INTERVAL_MS : Z := 60000 * 5.

(** [for (let i = 0; i < period; i++) sum += data[i].close], entered only
    when [data] has at least [period] elements. *)
Definition sumCloses (data : list CandleData) (period : Z) : float :=
  fold_left (fun sum c => PrimFloat.add sum (close c))
            (firstn (Z.to_nat period) data) (num 0).

(** [for (let i = period; i < data.length; i++)
       { ema = data[i].close * k + ema * (1 - k); result.push(ema); }]
    over the elements [data[period], data[period + 1], ...]. *)
Fixpoint emaLoop (k : float) (rest : list CandleData) (ema : float)
         (result : list (option float)) : list (option float) :=
  match rest with
  | [] => result
  | c :: rest' =>
      let ema' :=
        PrimFloat.add (PrimFloat.mul (close c) k)
                      (PrimFloat.mul ema (PrimFloat.sub (num 1) k)) in
      emaLoop k rest' ema' (result ++ [Some ema'])
  end.

Definition calculateEMA (data : list CandleData) (period : Z)
  : completion (list (option float)) :=
  if (Z.of_nat (length data) <? period)%Z
  then Return (repeat None (length data))
  else
    let k := PrimFloat.div (num 2) (num (period + 1)) in
    let sum := sumCloses data period in
    let ema := PrimFloat.div sum (num period) in
    (result <- Array_fill (period - 1) None ;;
     let result := result ++ [Some ema] in
     Return (emaLoop k (skipn (Z.to_nat period) data) ema result))%js.

(* ===================================================================== *)
(** ** App.tsx: the candle window *)
(* ===================================================================== *)

(** [{ ...c, aiSignal: s }] *)
Definition withSignal (c : CandleData) (s : option AiSignal) : CandleData :=
  mkCandle (time c) (open c) (high c) (low c) (close c) (volume c)
           (ema7 c) (ema25 c) (ema99 c) s.

(** [{ ...c, ema7: e7, ema25: e25, ema99: e99 }] *)
Definition withIndicators (c : CandleData) (e7 e25 e99 : option float)
  : CandleData :=
  mkCandle (time c) (open c) (high c) (low c) (close c) (volume c)
           e7 e25 e99 (aiSignal c).

(** [if (updated.length > MAX_CANDLES)
       updated = updated.slice(updated.length - MAX_CANDLES);] *)
Definition enforceMaxCandles (updated : list CandleData) : list CandleData :=
  if MAX_CANDLES <? length updated
  then sliceFrom (length updated - MAX_CANDLES) updated
  else updated.

(** The three [calculateEMA] calls and the [updated.map((c, i) => ...)] that
    close both [updateCandles] and [aggregateCandleLocally]. *)
Definition recalculateEMAs (updated : list CandleData)
  : completion (list CandleData) :=
  (e7 <- calculateEMA updated 7 ;;
   e25 <- calculateEMA updated 25 ;;
   e99 <- calculateEMA updated 99 ;;
   Return (mapIndexed
             (fun c i => withIndicators c (at_ e7 i) (at_ e25 i) (at_ e99 i))
             updated))%js.

(** The state updater that [updateCandles(newCandle)] hands to
    [setCandleData]: from the previous window to the next one. *)
Definition updateCandles (newCandle : CandleData) (prev : list CandleData)
  : completion (list CandleData) :=
  let updated := prev in
  let updated :=
    match lastOf updated with
    | Some lastCandle =>
        if (time lastCandle =? time newCandle)%Z
        then setLast updated (withSignal newCandle (aiSignal lastCandle))
        else updated ++ [newCandle]
    | None => updated ++ [newCandle]
    end in
  recalculateEMAs (enforceMaxCandles updated).

(** [Math.floor(time / 60000) * 60000] on an integer time stamp. *)
Definition candleTimeOf (time : Z) : Z := (time / 60000 * 60000)%Z.

(** The state updater of [aggregateCandleLocally(price, time, vol)].  [time]
    is the epoch time of the ticker; a ticker whose [time] is not a date
    (NaN) is outside this model. *)
Definition aggregateCandleLocally (price : float) (time_ : Z) (vol : float)
           (prev : list CandleData) : completion (list CandleData) :=
  let candleTime := candleTimeOf time_ in
  let updated := prev in
  let fresh :=
    mkCandle candleTime price price price price
             (PrimFloat.div vol (num 60)) None None None None in
  let updated :=
    match lastOf updated with
    | Some lastCandle =>
        if (time lastCandle =? candleTime)%Z
        then setLast updated
               (mkCandle (time lastCandle) (open lastCandle)
                         (Math_max (high lastCandle) price)
                         (Math_min (low lastCandle) price)
                         price
                         (PrimFloat.add (volume lastCandle)
                                        (PrimFloat.div vol (num 60)))
                         (ema7 lastCandle) (ema25 lastCandle)
                         (ema99 lastCandle) (aiSignal lastCandle))
        else updated ++ [fresh]
    | None => updated ++ [fresh]
    end in
  recalculateEMAs (enforceMaxCandles updated).

(** What the active connection delivers to the window: a pre-built candle
    (Binance kline) or a raw tick (Coinbase ticker). *)
Inductive FeedEvent : Type :=
| Kline (candle : CandleData)
| Tick (price : float) (eventTimeMs : Z) (vol : float).

Definition applyEvent (ev : FeedEvent) (window : list CandleData)
  : completion (list CandleData) :=
  match ev with
  | Kline candle => updateCandles candle window
  | Tick price t vol => aggregateCandleLocally price t vol window
  end.

Fixpoint applyEvents (evs : list FeedEvent) (window : list CandleData)
  : completion (list CandleData) :=
  match evs with
  | [] => Return window
  | ev :: rest => (w <- applyEvent ev window ;; applyEvents rest w)%js
  end.

(** The key under which an event lands in the window. *)
Definition keyOf (ev : FeedEvent) : Z :=
  match ev with
  | Kline candle => time candle
  | Tick _ t _ => candleTimeOf t
  end.

(* ===================================================================== *)
(** ** App.tsx: the latency gauge of the two [onmessage] handlers *)
(* ===================================================================== *)

(** The gauge is a JavaScript number: an integer count of milliseconds, or
    NaN when a date could not be read. *)
Inductive Gauge : Type :=
| Millis (ms : Z)
| NaNGauge.

(** Binance: [if (data.E) { setLatency(now - data.E); }].  [data.E] is the
    event time of the message, absent ([None]) or an integer; 0 is falsy. *)
Definition binanceLatency (now : Z) (E : option Z) (latency : Gauge) : Gauge :=
  match E with
  | Some e => if (e =? 0)%Z then latency else Millis (now - e)
  | None => latency
  end.

(** [data.time] of a Coinbase ticker: absent (or empty), a string that is
    not a date, or a date with its epoch milliseconds. *)
Inductive TickerTime : Type :=
| NoTime
| InvalidDate
| DateAt (ms : Z).

(** [new Date(data.time).getTime()]: the epoch milliseconds of a date, NaN
    ([None]) when [data.time] is absent or is not a date. *)
Definition getTime (t : TickerTime) : option Z :=
  match t with
  | DateAt ms => Some ms
  | NoTime | InvalidDate => None
  end.

(** Coinbase: [if (data.time) { const serverTime = new Date(data.time).getTime();
                               setLatency(Math.max(0, now - serverTime)); }] *)
Definition coinbaseLatency (now : Z) (t : TickerTime) (latency : Gauge)
  : Gauge :=
  match t with
  | NoTime => latency
  | InvalidDate => NaNGauge
  | DateAt serverTime => Millis (Z.max 0 (now - serverTime))
  end.

(** The call [aggregateCandleLocally(price, time, vol)] of the Coinbase
    handler, with [time = new Date(data.time).getTime()], as a feed event.
    When [data.time] is absent or is not a date that time is NaN, and the
    call has no image among the events, whose times are integers. *)
Definition coinbaseTick (price : float) (t : TickerTime) (vol : float)
  : option FeedEvent :=
  match getTime t with
  | Some ms => Some (Tick price ms vol)
  | None => None
  end.

(* ===================================================================== *)
(** ** JavaScript strings over UTF-8 bytes *)
(* ===================================================================== *)

(** UTF-16 code units of the character a UTF-8 byte starts: none for a
    continuation byte, two (a surrogate pair) for the lead byte of a
    four-byte sequence, one otherwise. *)
Definition utf16Units (c : ascii) : nat :=
  let n := nat_of_ascii c in
  if n <? 128 then 1
  else if n <? 192 then 0
  else if n <? 240 then 1
  else 2.

(** [s.length] *)
Fixpoint utf16Length (s : string) : nat :=
  match s with
  | EmptyString => 0
  | String c rest => utf16Units c + utf16Length rest
  end.

(** [s.includes(pat)].  A byte-wise match of well-formed UTF-8 is a match of
    the characters. *)
Definition includes (s pat : string) : bool :=
  match String.index 0 pat s with
  | Some _ => true
  | None => false
  end.

(** [s.replace(/pat/g, '')] for a literal, non-empty [pat]: the matches are
    taken left to right and do not overlap.  [skip] counts the bytes of the
    current match still to be dropped. *)
Fixpoint removeAllFrom (pat s : string) (skip : nat) : string :=
  match s with
  | EmptyString => EmptyString
  | String c rest =>
      match skip with
      | S n => removeAllFrom pat rest n
      | O =>
          if String.prefix pat s
          then removeAllFrom pat rest (String.length pat - 1)
          else String c (removeAllFrom pat rest 0)
      end
  end.

Definition removeAll (pat s : string) : string := removeAllFrom pat s 0.

Definition bytes (l : list nat) : list ascii := map ascii_of_nat l.

(** WhiteSpace and LineTerminator of ECMA-262, as UTF-8 byte sequences:
    TAB LF VT FF CR SP, U+00A0, U+1680, U+2000..U+200A, U+2028, U+2029,
    U+202F, U+205F, U+3000, U+FEFF. *)
Definition whiteSpace : list (list ascii) :=
  map bytes
      ([[9]; [10]; [11]; [12]; [13]; [32]; [194; 160]; [225; 154; 128]]
       ++ map (fun b => [226; 128; b]) (seq 128 11)
       ++ [[226; 128; 168]; [226; 128; 169]; [226; 128; 175];
           [226; 129; 159]; [227; 128; 128]; [239; 187; 191]]).

Fixpoint stripPrefix (p l : list ascii) : option (list ascii) :=
  match p, l with
  | [], _ => Some l
  | a :: p', b :: l' => if Ascii.eqb a b then stripPrefix p' l' else None
  | _ :: _, [] => None
  end.

Fixpoint stripOne (ws : list (list ascii)) (l : list ascii)
  : option (list ascii) :=
  match ws with
  | [] => None
  | w :: ws' =>
      match stripPrefix w l with
      | Some l' => Some l'
      | None => stripOne ws' l
      end
  end.

Fixpoint stripAll (fuel : nat) (ws : list (list ascii)) (l : list ascii)
  : list ascii :=
  match fuel with
  | O => l
  | S n =>
      match stripOne ws l with
      | Some l' => stripAll n ws l'
      | None => l
      end
  end.

(** [s.trim()]: white space is taken off the front, then off the back (on
    the reversed bytes, with the reversed byte sequences). *)
Definition trim (s : string) : string :=
  let l := list_ascii_of_string s in
  let l := stripAll (length l) whiteSpace l in
  let r := stripAll (length l) (map (@rev ascii) whiteSpace) (rev l) in
  string_of_list_ascii (rev r).

(** [s.indexOf(c)] and [s.lastIndexOf(c)] for a one-byte [c]; [None] is -1. *)
Fixpoint indexOfFrom (c : ascii) (s : string) (i : nat) : option nat :=
  match s with
  | EmptyString => None
  | String d rest => if Ascii.eqb c d then Some i else indexOfFrom c rest (S i)
  end.

Definition indexOf (c : ascii) (s : string) : option nat := indexOfFrom c s 0.

Fixpoint lastIndexOfFrom (c : ascii) (s : string) (i : nat) (found : option nat)
  : option nat :=
  match s with
  | EmptyString => found
  | String d rest =>
      lastIndexOfFrom c rest (S i) (if Ascii.eqb c d then Some i else found)
  end.

Definition lastIndexOf (c : ascii) (s : string) : option nat :=
  lastIndexOfFrom c s 0 None.

(** [s.substring(start, end)]: the arguments are swapped when
    [start > end]. *)
Definition substring_ (start end_ : nat) (s : string) : string :=
  let lo := Nat.min start end_ in
  let hi := Nat.max start end_ in
  String.substring lo (hi - lo) s.

(** [parts.join(sep)] *)
Fixpoint join (sep : string) (parts : list string) : string :=
  match parts with
  | [] => EmptyString
  | [p] => p
  | p :: rest => (p ++ sep ++ join sep rest)%string
  end.

(** [v || d] for an optional string: [undefined] and [''] are falsy. *)
Definition orElse (v : option string) (d : string) : string :=
  match v with
  | Some EmptyString => d
  | Some s => s
  | None => d
  end.

(* ===================================================================== *)
(** ** geminiService.ts *)
(* ===================================================================== *)

Definition cleanJsonString (str : string) : string :=
  let cleaned := trim (removeAll "```" (removeAll "```json" str)) in
  let firstBrace := indexOf "{"%char cleaned in
  let lastBrace := lastIndexOf "}"%char cleaned in
  match firstBrace, lastBrace with
  | Some f, Some l => substring_ f (l + 1) cleaned
  | _, _ => cleaned
  end.

(** What [JSON.parse] hands back, as far as [analyzeMarketStrategy] looks at
    it: [null], on which a property read raises [TypeError]; an object, read
    through its string-valued properties (the shape the prompt asks for); or
    any other value (number, boolean, string, array), on which the five
    properties read [undefined]. *)
Inductive JsonValue : Type :=
| JsonNull
| JsonObject (props : string -> option string)
| JsonOther.

Definition getProp (v : JsonValue) (name : string) : completion (option string) :=
  match v with
  | JsonNull => Throw TypeError
  | JsonObject props => Return (props name)
  | JsonOther => Return None
  end.

(** The settled [ai.models.generateContent(...)] promise: rejected, or
    fulfilled with a response whose [text] may be [undefined]. *)
Inductive GenerateOutcome : Type :=
| Rejected (e : JsError)
| Fulfilled (text : option string).

(** The request: the numbers and texts interpolated into the prompt. *)
Record Prompt : Type := mkPrompt {
  promptPrice : float;
  promptTrend : string;
  promptMemory : string
}.

(** [memoryStream.length > 0 ? `...${memoryStream.slice(-3).join('; ')}` : "..."] *)
Definition memoryContext (memoryStream : list string) : string :=
  if 0 <? length memoryStream
  then ("[你的历史思维快照]: " ++ join "; " (sliceLast 3 memoryStream))%string
  else "[系统初始化]: 暂无历史数据，正在建立基准模型。"%string.

Definition parseFallback (now : Z) : MarketAnalysis :=
  mkAnalysis "中性 (NEUTRAL)" "计算中..." "计算中..."
             "神经网络正在重新校准数据..." "保持观望" now.

Definition connectionFallback (now : Z) : MarketAnalysis :=
  mkAnalysis "信号干扰" "---" "---"
             "无法连接至神经网络核心，正在重试链路。" "连接中断" now.

Section GeminiService.

(** The two externals of the module: the JSON parser of the run time
    ([SyntaxError] on text that is not JSON) and the model endpoint. *)
Variable JSON_parse : string -> completion JsonValue.
Variable generateContent : Prompt -> GenerateOutcome.

(** [await ai.models.generateContent(...)] *)
Definition awaitGenerate (p : Prompt) : completion (option string) :=
  match generateContent p with
  | Rejected e => Throw e
  | Fulfilled text => Return text
  end.

(** [now] is what [Date.now()] reads when the result is built. *)
Definition analyzeMarketStrategy (now : Z) (currentPrice : float)
           (recentTrend : string) (memoryStream : list string)
  : completion MarketAnalysis :=
  tryCatch
    (let prompt :=
       mkPrompt currentPrice recentTrend (memoryContext memoryStream) in
     text <- awaitGenerate prompt ;;
     let rawText := orElse text "{}" in
     let cleanedText := cleanJsonString rawText in
     match JSON_parse cleanedText with
     | Throw _ => Return (parseFallback now)
     | Return result =>
         s <- getProp result "sentiment" ;;
         en <- getProp result "entryPoint" ;;
         ex <- getProp result "exitPoint" ;;
         r <- getProp result "reasoning" ;;
         l <- getProp result "learningNode" ;;
         Return (mkAnalysis (orElse s "中性 (NEUTRAL)")
                            (orElse en "观察")
                            (orElse ex "观察")
                            (orElse r "市场波动异常，建议保持观望。")
                            (orElse l "数据积累中...")
                            now)
     end)%js
    (fun _ => Return (connectionFallback now)).

End GeminiService.

(** *** [analyzeMarketStrategy] on an answer of any shape

    [MarketAnalysis] types the five fields of the result as strings, and the
    embedding above follows it.  [JSON.parse] promises no such thing: a
    property of the answer can hold a number, a boolean, [null], an array or
    an object, and [result.x || d] keeps whatever is truthy.  The embedding
    below keeps the values as they are. *)

(** A JavaScript value as [JSON.parse] returns it: [null], a boolean, a
    number, a string, or an object (an array is one) with its properties;
    [VUndefined] is what reading a property that is not there gives. *)
Inductive JsValue : Type :=
| VUndefined
| VNull
| VBoolean (b : bool)
| VNumber (x : float)
| VString (s : string)
| VObject (props : string -> JsValue).

(** ToBoolean of ECMA-262: [undefined], [null], [false], [+0], [-0], [NaN]
    and [''] are falsy, everything else is truthy. *)
Definition truthy (v : JsValue) : bool :=
  match v with
  | VUndefined | VNull => false
  | VBoolean b => b
  | VNumber x => negb (PrimFloat.eqb x (num 0) || PrimFloat.is_nan x)
  | VString s => negb (String.eqb s "")
  | VObject _ => true
  end.

(** [result.name] for one of the five names read below.  On [null] the read
    raises [TypeError]; an object gives the value it holds, [undefined] when
    it holds none; a boolean, a number or a string has no property of any of
    these names. *)
Definition readProp (v : JsValue) (name : string) : completion JsValue :=
  match v with
  | VUndefined | VNull => Throw TypeError
  | VObject props => Return (props name)
  | VBoolean _ | VNumber _ | VString _ => Return VUndefined
  end.

(** [v || d] *)
Definition orDefault (v : JsValue) (d : string) : JsValue :=
  if truthy v then v else VString d.

(** The object [analyzeMarketStrategy] returns, field by field. *)
Record AnalysisObject : Type := mkAnalysisObject {
  sentimentValue : JsValue;
  entryPointValue : JsValue;
  exitPointValue : JsValue;
  reasoningValue : JsValue;
  learningNodeValue : JsValue;
  timestampValue : Z
}.

(** A result whose five fields are strings, as an object. *)
Definition objectOf (r : MarketAnalysis) : AnalysisObject :=
  mkAnalysisObject (VString (sentiment r)) (VString (entryPoint r))
                   (VString (exitPoint r)) (VString (reasoning r))
                   (VString (learningNode r)) (timestamp r).

(** [analyzeMarketStrategy], lines 27-108, with the parsed answer and the
    result as JavaScript values. *)
Definition analyzeMarketStrategyJs
           (JSON_parse : string -> completion JsValue)
           (generateContent : Prompt -> GenerateOutcome)
           (now : Z) (currentPrice : float)
           (recentTrend : string) (memoryStream : list string)
  : completion AnalysisObject :=
  tryCatch
    (let prompt :=
       mkPrompt currentPrice recentTrend (memoryContext memoryStream) in
     text <- awaitGenerate generateContent prompt ;;
     let rawText := orElse text "{}" in
     let cleanedText := cleanJsonString rawText in
     match JSON_parse cleanedText with
     | Throw _ => Return (objectOf (parseFallback now))
     | Return result =>
         s <- readProp result "sentiment" ;;
         en <- readProp result "entryPoint" ;;
         ex <- readProp result "exitPoint" ;;
         r <- readProp result "reasoning" ;;
         l <- readProp result "learningNode" ;;
         Return (mkAnalysisObject (orDefault s "中性 (NEUTRAL)")
                                  (orDefault en "观察")
                                  (orDefault ex "观察")
                                  (orDefault r "市场波动异常，建议保持观望。")
                                  (orDefault l "数据积累中...")
                                  now)
     end)%js
    (fun _ => Return (objectOf (connectionFallback now))).

(** The string a value is, when it is one. *)
Definition stringOf (v : JsValue) : option string :=
  match v with
  | VString s => Some s
  | _ => None
  end.

(** A parsed value as the typed embedding sees it. *)
Definition typedJson (v : JsValue) : JsonValue :=
  match v with
  | VUndefined | VNull => JsonNull
  | VObject props => JsonObject (fun name => stringOf (props name))
  | VBoolean _ | VNumber _ | VString _ => JsonOther
  end.

(** The five properties that are read. *)
Definition analysisFields : list string :=
  ["sentiment"; "entryPoint"; "exitPoint"; "reasoning"; "learningNode"]%string.

(** An answer in the shape the prompt asks for: each of the five properties
    is a string, or is falsy (absent, [null], [false], [0]). *)
Definition stringFields (v : JsValue) : Prop :=
  match v with
  | VObject props =>
      forall name, In name analysisFields ->
                   truthy (props name) = true ->
                   exists s, props name = VString s
  | _ => True
  end.

(** [f] applied to the value a call returns. *)
Definition mapReturn {A B : Type} (f : A -> B) (m : completion A)
  : completion B :=
  match m with
  | Return a => Return (f a)
  | Throw e => Throw e
  end.

(* ===================================================================== *)
(** ** App.tsx: component state, [runAnalysis] and the effects *)
(* ===================================================================== *)

Inductive MessageRole : Type := USER | MODEL | SYSTEM.

(** A chat line; its [id] and [timestamp] (both read from the clock) are
    left out. *)
Record ChatMessage : Type := mkMessage {
  role : MessageRole;
  text : string
}.

Record NewsItem : Type := mkNews {
  title : string;
  url : string;
  source : string
}.

Record Hotspots : Type := mkHotspots {
  summary : string;
  news : list NewsItem
}.

(** A [runAnalysis] invocation suspended at one of its two [await]s. *)
Inductive Await : Type :=
| AwaitAnalysis
| AwaitHotspots.

(** The [useState] cells and [useRef] boxes of [App] that the scheduler and
    the feed touch, and the suspended [runAnalysis] invocations. *)
Record AppState : Type := mkApp {
  candleData : list CandleData;
  currentPrice : float;
  systemState : SystemState;
  analysis : option MarketAnalysis;
  hotspots : Hotspots;
  messages : list ChatMessage;
  memoryStream : list string;
  isLearning : bool;
  candleDataRef : list CandleData;
  currentPriceRef : float;
  analysisInProgressRef : bool;
  inFlight : list Await
}.

Definition setCandleData (v : list CandleData) (st : AppState) : AppState :=
  mkApp v (currentPrice st) (systemState st) (analysis st) (hotspots st)
        (messages st) (memoryStream st) (isLearning st) (candleDataRef st)
        (currentPriceRef st) (analysisInProgressRef st) (inFlight st).

Definition setCurrentPrice (v : float) (st : AppState) : AppState :=
  mkApp (candleData st) v (systemState st) (analysis st) (hotspots st)
        (messages st) (memoryStream st) (isLearning st) (candleDataRef st)
        (currentPriceRef st) (analysisInProgressRef st) (inFlight st).

Definition setSystemState (v : SystemState) (st : AppState) : AppState :=
  mkApp (candleData st) (currentPrice st) v (analysis st) (hotspots st)
        (messages st) (memoryStream st) (isLearning st) (candleDataRef st)
        (currentPriceRef st) (analysisInProgressRef st) (inFlight st).

Definition setAnalysis (v : option MarketAnalysis) (st : AppState) : AppState :=
  mkApp (candleData st) (currentPrice st) (systemState st) v (hotspots st)
        (messages st) (memoryStream st) (isLearning st) (candleDataRef st)
        (currentPriceRef st) (analysisInProgressRef st) (inFlight st).

Definition setHotspots (v : Hotspots) (st : AppState) : AppState :=
  mkApp (candleData st) (currentPrice st) (systemState st) (analysis st) v
        (messages st) (memoryStream st) (isLearning st) (candleDataRef st)
        (currentPriceRef st) (analysisInProgressRef st) (inFlight st).

Definition setMessages (v : list ChatMessage) (st : AppState) : AppState :=
  mkApp (candleData st) (currentPrice st) (systemState st) (analysis st)
        (hotspots st) v (memoryStream st) (isLearning st) (candleDataRef st)
        (currentPriceRef st) (analysisInProgressRef st) (inFlight st).

Definition setMemoryStream (v : list string) (st : AppState) : AppState :=
  mkApp (candleData st) (currentPrice st) (systemState st) (analysis st)
        (hotspots st) (messages st) v (isLearning st) (candleDataRef st)
        (currentPriceRef st) (analysisInProgressRef st) (inFlight st).

Definition setIsLearning (v : bool) (st : AppState) : AppState :=
  mkApp (candleData st) (currentPrice st) (systemState st) (analysis st)
        (hotspots st) (messages st) (memoryStream st) v (candleDataRef st)
        (currentPriceRef st) (analysisInProgressRef st) (inFlight st).

(** [candleDataRef.current = candleData; currentPriceRef.current = currentPrice] *)
Definition syncRefs (st : AppState) : AppState :=
  mkApp (candleData st) (currentPrice st) (systemState st) (analysis st)
        (hotspots st) (messages st) (memoryStream st) (isLearning st)
        (candleData st) (currentPrice st) (analysisInProgressRef st)
        (inFlight st).

Definition setAnalysisInProgress (v : bool) (st : AppState) : AppState :=
  mkApp (candleData st) (currentPrice st) (systemState st) (analysis st)
        (hotspots st) (messages st) (memoryStream st) (isLearning st)
        (candleDataRef st) (currentPriceRef st) v (inFlight st).

Definition setInFlight (v : list Await) (st : AppState) : AppState :=
  mkApp (candleData st) (currentPrice st) (systemState st) (analysis st)
        (hotspots st) (messages st) (memoryStream st) (isLearning st)
        (candleDataRef st) (currentPriceRef st) (analysisInProgressRef st) v.

(** The state of the first render; [memory] is what the mount effect loads
    from [localStorage] (nothing on a first start). *)
Definition initialState (memory : list string) : AppState :=
  mkApp [] (num 0) CONNECTING None (mkHotspots "" [])
        [mkMessage SYSTEM "JARVIS 核心系统初始化完成。加密链路已激活。"]
        memory false [] (num 0) false [].

(** The calls that leave the component, in the order they are made. *)
Inductive Call : Type :=
| StartupCallsRunAnalysis
| CallAnalyzeMarketStrategy (current : float) (candles : list CandleData)
                            (memory : list string)
| CallFetchMarketHotspots.

(** [runAnalysis()] up to its first [await]: either it returns at the guard,
    or it takes the guard and suspends on [analyzeMarketStrategy].  The
    digest [trendDesc] is built from [candles]; the call carries them. *)
Definition runAnalysis (st : AppState) : AppState * list Call :=
  if analysisInProgressRef st || (length (candleDataRef st) <? 10)
  then (st, [])
  else
    let st := setAnalysisInProgress true st in
    let st := setSystemState ANALYZING st in
    let st := setIsLearning true st in
    let current := currentPriceRef st in
    let candles := sliceLast 15 (candleDataRef st) in
    (setInFlight (inFlight st ++ [AwaitAnalysis]) st,
     [CallAnalyzeMarketStrategy current candles (memoryStream st)]).

(** The [finally] block. *)
Definition finallyBlock (st : AppState) : AppState :=
  setAnalysisInProgress false (setIsLearning false (setSystemState IDLE st)).

(** The signal the sentiment text is classified into. *)
Definition classify (sentiment_ : string) : option AiSignal :=
  if includes sentiment_ "看涨" || includes sentiment_ "BULLISH"
  then Some bullish
  else if includes sentiment_ "看跌" || includes sentiment_ "BEARISH"
       then Some bearish
       else None.

(** The updater of the "Stamp Signal" [setCandleData]. *)
Definition stampSignal (result : MarketAnalysis) (prev : list CandleData)
  : list CandleData :=
  let updated := prev in
  match lastOf updated with
  | Some lastCandle =>
      match classify (sentiment result) with
      | Some signal => setLast updated (withSignal lastCandle (Some signal))
      | None => updated
      end
  | None => updated
  end.

(** [result.learningNode && result.learningNode.length > 5] *)
Definition worthArchiving (result : MarketAnalysis) : bool :=
  negb (String.eqb (learningNode result) "")
  && (5 <? utf16Length (learningNode result)).

Definition quote : string := String (ascii_of_nat 34) EmptyString.

(** The "Autonomous Learning Log" block. *)
Definition archiveLesson (result : MarketAnalysis) (st : AppState) : AppState :=
  if worthArchiving result
  then
    let st :=
      setMemoryStream
        (sliceLast 20 (memoryStream st ++ [learningNode result])) st in
    setMessages
      (messages st
       ++ [mkMessage SYSTEM
             ("[自我进化] 意识节点已归档: " ++ quote ++ learningNode result
              ++ quote)%string])
      st
  else st.

Fixpoint removeFirst (a : Await) (l : list Await) : list Await :=
  match l with
  | [] => []
  | b :: rest =>
      match a, b with
      | AwaitAnalysis, AwaitAnalysis => rest
      | AwaitHotspots, AwaitHotspots => rest
      | _, _ => b :: removeFirst a rest
      end
  end.

Definition awaiting (a : Await) (l : list Await) : bool :=
  existsb (fun b => match a, b with
                    | AwaitAnalysis, AwaitAnalysis => true
                    | AwaitHotspots, AwaitHotspots => true
                    | _, _ => false
                    end) l.

(** [runAnalysis] from the first [await] to the second: the awaited
    [analyzeMarketStrategy] has settled with [outcome]. *)
Definition resumeAfterAnalysis (outcome : completion MarketAnalysis)
           (st : AppState) : AppState * list Call :=
  let st := setInFlight (removeFirst AwaitAnalysis (inFlight st)) st in
  match outcome with
  | Return result =>
      let st := setAnalysis (Some result) st in
      let st := setCandleData (stampSignal result (candleData st)) st in
      let st := archiveLesson result st in
      let st := setSystemState SCANNING st in
      (setInFlight (inFlight st ++ [AwaitHotspots]) st,
       [CallFetchMarketHotspots])
  | Throw _ => (finallyBlock st, [])
  end.

(** [runAnalysis] from the second [await] to its end. *)
Definition resumeAfterHotspots (outcome : completion Hotspots) (st : AppState)
  : AppState :=
  let st := setInFlight (removeFirst AwaitHotspots (inFlight st)) st in
  match outcome with
  | Return newsResult => finallyBlock (setHotspots newsResult st)
  | Throw _ => finallyBlock st
  end.

(** The body of the start-up effect asks for [runAnalysis]:
    [!analysis && candleData.length > 10]. *)
Definition startupCondition (st : AppState) : bool :=
  match analysis st with
  | None => 10 <? length (candleData st)
  | Some _ => false
  end.

(** The effects that run after a render: the refs are synchronised, then the
    start-up effect runs when [candleData.length] differs from its value
    [prevLength] at the previous render. *)
Definition commit (prevLength : nat) (st : AppState) : AppState * list Call :=
  let st := syncRefs st in
  if negb (prevLength =? length (candleData st)) && startupCondition st
  then let (st', calls) := runAnalysis st in
       (st', StartupCallsRunAnalysis :: calls)
  else (st, []).

(** What can happen to the mounted component. *)
Inductive Event : Type :=
| OnFeed (ev : FeedEvent)
| OnTimer
| OnClick
| OnAnalysisSettled (outcome : completion MarketAnalysis)
| OnHotspotsSettled (outcome : completion Hotspots).

(** The price a feed message publishes through [updateCurrentPrice]. *)
Definition priceOf (ev : FeedEvent) : float :=
  match ev with
  | Kline candle => close candle
  | Tick price _ _ => price
  end.

Definition step (e : Event) (st : AppState)
  : completion (AppState * list Call) :=
  match e with
  | OnFeed ev =>
      (w <- applyEvent ev (candleData st) ;;
       let prevLength := length (candleData st) in
       Return (commit prevLength
                      (setCandleData w (setCurrentPrice (priceOf ev) st))))%js
  | OnTimer | OnClick => Return (runAnalysis st)
  | OnAnalysisSettled outcome =>
      if awaiting AwaitAnalysis (inFlight st)
      then
        let prevLength := length (candleData st) in
        let (st1, calls1) := resumeAfterAnalysis outcome st in
        let (st2, calls2) := commit prevLength st1 in
        Return (st2, calls1 ++ calls2)
      else Return (st, [])
  | OnHotspotsSettled outcome =>
      if awaiting AwaitHotspots (inFlight st)
      then Return (resumeAfterHotspots outcome st, [])
      else Return (st, [])
  end.

Fixpoint run (es : list Event) (st : AppState)
  : completion (AppState * list Call) :=
  match es with
  | [] => Return (st, [])
  | e :: rest =>
      (r1 <- step e st ;;
       r2 <- run rest (fst r1) ;;
       Return (fst r2, snd r1 ++ snd r2))%js
  end.

(* ===================================================================== *)
(** ** geminiService.ts: the hot-spot scan and the chat *)
(* ===================================================================== *)

(** [chunk.web] of a grounding chunk: its [uri] and [title], each of which
    may be missing. *)
Record GroundingWeb : Type := mkWeb {
  uri : option string;
  webTitle : option string
}.

Record GroundingChunk : Type := mkChunk {
  web : option GroundingWeb
}.

(** The settled search request: rejected, or fulfilled with a response
    whose [text] and whose
    [candidates?.[0]?.groundingMetadata?.groundingChunks] may be
    [undefined]. *)
Inductive SearchOutcome : Type :=
| SearchRejected (e : JsError)
| SearchFulfilled (text_ : option string)
                  (groundingChunks : option (list GroundingChunk)).

(** The body of [chunks.forEach]: the item is pushed when both
    [chunk.web?.uri] and [chunk.web?.title] are truthy. *)
Definition pushChunk (news_ : list NewsItem) (chunk : GroundingChunk)
  : list NewsItem :=
  match web chunk with
  | Some (mkWeb (Some (String a u)) (Some (String b t))) =>
      news_ ++ [mkNews (String b t) (String a u) "JARVIS NET"]
  | _ => news_
  end.

Definition fetchMarketHotspots (outcome : SearchOutcome) : completion Hotspots :=
  tryCatch
    (match outcome with
     | SearchRejected e => Throw e
     | SearchFulfilled text_ chunks =>
         let news_ :=
           match chunks with
           | Some cs => fold_left pushChunk cs []
           | None => []
           end in
         Return (mkHotspots (orElse text_ "全球数据链路扫描完成。")
                            (firstn 3 news_))
     end)
    (fun _ => Return (mkHotspots "外部数据链路受限。" [])).

(** [chatWithJarvis]: [outcome] is the settled [chat.sendMessage]. *)
Definition chatWithJarvis (outcome : GenerateOutcome) : completion string :=
  tryCatch
    (match outcome with
     | Rejected e => Throw e
     | Fulfilled text_ => Return (orElse text_ "语音模块校准中...")
     end)
    (fun _ => Return "抱歉先生，处理该请求时遇到了一些干扰。"%string).

(* ===================================================================== *)
(** ** App.tsx: [handleSendMessage] *)
(* ===================================================================== *)

(** What the chat request is built from: the message and the three values
    interpolated into its context. *)
Record ChatRequest : Type := mkChatRequest {
  chatMessage : string;
  chatPrice : float;
  chatAnalysis : option MarketAnalysis
}.

(** [handleSendMessage()] up to its [await]: the new component state, the
    new content of the input box, and the request when one is made. *)
Definition handleSendMessage (inputMessage : string) (st : AppState)
  : AppState * string * option ChatRequest :=
  if String.eqb (trim inputMessage) ""
  then (st, inputMessage, None)
  else
    let st1 := setMessages (messages st ++ [mkMessage USER inputMessage]) st in
    let st2 := setSystemState PROCESSING st1 in
    (st2, ""%string,
     Some (mkChatRequest inputMessage (currentPrice st) (analysis st))).

(** [handleSendMessage()] after its [await]: [responseText] is what
    [chatWithJarvis] returned. *)
Definition resumeSendMessage (responseText : string) (st : AppState)
  : AppState :=
  setSystemState IDLE
    (setMessages (messages st ++ [mkMessage MODEL responseText]) st).

(* ===================================================================== *)
(** * Vocabulary of the properties *)
(* ===================================================================== *)

(** ** The indicator *)

(** The smoothing factor [k = 2 / (period + 1)]. *)
Definition smoothing (period : Z) : float :=
  PrimFloat.div (num 2) (num (period + 1)).

(** The arithmetic mean of a list of numbers, as binary64 computes it: the
    left-to-right sum, divided by the count. *)
Definition arithmeticMean (xs : list float) : float :=
  PrimFloat.div (fold_left PrimFloat.add xs (num 0))
                (num (Z.of_nat (length xs))).

(** One smoothing step: [close * k + ema * (1 - k)]. *)
Definition smooth (k : float) (c : CandleData) (ema : float) : float :=
  PrimFloat.add (PrimFloat.mul (close c) k)
                (PrimFloat.mul ema (PrimFloat.sub (num 1) k)).

(** The values [emaLoop] pushes, as a list of their own. *)
Fixpoint emaTail (k : float) (rest : list CandleData) (ema : float)
  : list (option float) :=
  match rest with
  | [] => []
  | c :: rest' => Some (smooth k c ema) :: emaTail k rest' (smooth k c ema)
  end.

(** ** The candle window *)

(** A candle without its indicator fields: what the feed and the scheduler
    put into it. *)
Definition core (c : CandleData) : CandleData :=
  withIndicators c None None None.

(** The keys of a window, oldest first, and the key of its last candle. *)
Definition keys (w : list CandleData) : list Z := map time w.

Definition lastKey (w : list CandleData) : option Z :=
  option_map time (lastOf w).

(** How many candles of a window sit at key [k]. *)
Definition countKey (k : Z) (w : list CandleData) : nat :=
  count_occ Z.eq_dec (keys w) k.

(** Strictly increasing keys: each one is below its successor. *)
Fixpoint increasing (ks : list Z) : Prop :=
  match ks with
  | a :: rest =>
      match rest with
      | b :: _ => (a < b)%Z /\ increasing rest
      | [] => True
      end
  | [] => True
  end.

(** A feed delivered in order: no event lands before the key of the last
    candle, [last] when there is one. *)
Fixpoint inOrder (last : option Z) (evs : list FeedEvent) : Prop :=
  match evs with
  | [] => True
  | ev :: rest =>
      match last with
      | Some k => (k <= keyOf ev)%Z
      | None => True
      end
      /\ inOrder (Some (keyOf ev)) rest
  end.

(** The candle an event appends when it opens a new key. *)
Definition freshOf (ev : FeedEvent) : CandleData :=
  match ev with
  | Kline candle => candle
  | Tick price t vol =>
      mkCandle (candleTimeOf t) price price price price
               (PrimFloat.div vol (num 60)) None None None None
  end.

(** The candle an event leaves in place of the last candle [l] when it
    lands on the key of [l]. *)
Definition mergeInto (ev : FeedEvent) (l : CandleData) : CandleData :=
  match ev with
  | Kline candle => withSignal candle (aiSignal l)
  | Tick price _ vol =>
      mkCandle (time l) (open l) (Math_max (high l) price)
               (Math_min (low l) price) price
               (PrimFloat.add (volume l) (PrimFloat.div vol (num 60)))
               (ema7 l) (ema25 l) (ema99 l) (aiSignal l)
  end.

(** The merge-or-append decision that both entry points take, before the
    bound and the indicators. *)
Definition place (ev : FeedEvent) (w : list CandleData) : list CandleData :=
  match lastOf w with
  | Some l =>
      if (time l =? keyOf ev)%Z then setLast w (mergeInto ev l)
      else w ++ [freshOf ev]
  | None => w ++ [freshOf ev]
  end.

(** ** Sample data *)

(** A candle whose four prices are [p], with volume 1 and nothing derived. *)
Definition flatCandle (t : Z) (p : float) : CandleData :=
  mkCandle t p p p p (num 1) None None None None.

(** [n] consecutive one-minute candles at price [p], the first at time 0. *)
Definition minuteCandles (n : nat) (p : float) : list CandleData :=
  map (fun i => flatCandle (Z.of_nat i * 60000) p) (seq 0 n).

(** Three one-minute candles at price 100, the last one tagged bullish. *)
Definition taggedWindow : list CandleData :=
  setLast (minuteCandles 3 (num 100))
          (withSignal (flatCandle 120000 (num 100)) (Some bullish)).

(** The binary64 number nearest to 50000.1. *)
Definition price_50000_1 : float := 0x1.86a0333333333p+15%float.

(** [n] klines, one per minute, delivered to the mounted component. *)
Definition klineFeed (n : nat) : list Event :=
  map (fun c => OnFeed (Kline c)) (minuteCandles n (num 100)).

(** A parser that knows the two shortest JSON texts of interest. *)
Definition parseBraces (s : string) : completion JsonValue :=
  if String.eqb s "{}" then Return (JsonObject (fun _ => None))
  else if String.eqb s "null" then Return JsonNull
  else Throw SyntaxError.

(** An endpoint that cannot be reached, one that answers in prose, and one
    that answers with an empty object. *)
Definition unreachable (_ : Prompt) : GenerateOutcome := Rejected NetworkError.

Definition answersProse (_ : Prompt) : GenerateOutcome :=
  Fulfilled (Some "BTC looks strong today."%string).

Definition answersEmptyObject (_ : Prompt) : GenerateOutcome :=
  Fulfilled (Some "```json{}```"%string).

(** A mounted component whose window holds ten candles and whose refs are
    in step with it. *)
Definition tenCandleState : AppState :=
  syncRefs (setCandleData (minuteCandles 10 (num 100)) (initialState [])).

(** The same component once [runAnalysis] has taken the guard. *)
Definition pendingState : AppState := fst (runAnalysis tenCandleState).

(** ** The scheduler *)

(** The single-flight discipline: the guard is taken exactly when one
    [runAnalysis] invocation is suspended, and never more than one is. *)
Definition singleFlight (st : AppState) : Prop :=
  (analysisInProgressRef st = false /\ inFlight st = [])
  \/ (analysisInProgressRef st = true /\ exists a, inFlight st = [a]).

(** The events that settle an awaited promise, as opposed to triggers and
    feed messages. *)
Definition isSettlement (e : Event) : bool :=
  match e with
  | OnAnalysisSettled _ | OnHotspotsSettled _ => true
  | _ => false
  end.

(** The two triggers that call [runAnalysis] directly: the interval timer
    and the button. *)
Definition isTrigger (e : Event) : bool :=
  match e with
  | OnTimer | OnClick => true
  | _ => false
  end.

(** The calls that reach a collaborator. *)
Definition isCollaboratorCall (c : Call) : bool :=
  match c with
  | StartupCallsRunAnalysis => false
  | _ => true
  end.

(** A settled analysis whose lesson goes to the memory stream. *)
Definition archives (e : Event) : bool :=
  match e with
  | OnAnalysisSettled (Return result) => worthArchiving result
  | _ => false
  end.

(** ** The indicator fields of a window *)

(** The three indicator fields of every candle are what [calculateEMA]
    yields on the window as it stands. *)
Definition indicatorsCurrent (w : list CandleData) : Prop :=
  recalculateEMAs w = Return w.

(** ** The scheduler along a run *)

(** The [learningNode] property of a parsed answer, when it has one. *)
Definition lessonOf (v : JsonValue) : option string :=
  match v with
  | JsonObject props => props "learningNode"%string
  | _ => None
  end.

(** The call is the one the start-up effect makes. *)
Definition isStartupCall (c : Call) : bool :=
  match c with
  | StartupCallsRunAnalysis => true
  | _ => false
  end.

(** An analysis request carries between 10 and 15 candles. *)
Definition digestInRange (c : Call) : Prop :=
  match c with
  | CallAnalyzeMarketStrategy _ candles _ =>
      10 <= length candles <= 15
  | _ => True
  end.

(** ** Strings *)

(** The byte [c] occurs in [s]. *)
Fixpoint occurs (c : ascii) (s : string) : bool :=
  match s with
  | EmptyString => false
  | String d rest => Ascii.eqb c d || occurs c rest
  end.

(** ** The price in the header *)

(** The price the header shows is the close of the last candle. *)
Definition priceShown (st : AppState) : Prop :=
  match lastOf (candleData st) with
  | Some l => close l = currentPrice st
  | None => True
  end.

(** ** The order of binary64 numbers *)

(** A candle is ordered when its low is at most its open and its close,
    and these are at most its high.  (The comparisons are those of
    JavaScript's [<=]; they fail on NaN.) *)
Definition ordered (c : CandleData) : bool :=
  PrimFloat.leb (low c) (open c) && PrimFloat.leb (open c) (high c)
  && PrimFloat.leb (low c) (close c) && PrimFloat.leb (close c) (high c).

(** The place of a number (not NaN) in the order: its class, from minus
    infinity (-2) to plus infinity (2), then exponent and mantissa, negated
    for a negative number. *)
Definition rank (f : spec_float) : Z * Z * Z :=
  match f with
  | S754_zero _ => (0, 0, 0)%Z
  | S754_infinity true => (-2, 0, 0)%Z
  | S754_infinity false => (2, 0, 0)%Z
  | S754_nan => (0, 0, 0)%Z
  | S754_finite true m e => (-1, - e, - Zpos m)%Z
  | S754_finite false m e => (1, e, Zpos m)%Z
  end.

(** Lexicographic comparison of two ranks. *)
Definition lex (r1 r2 : Z * Z * Z) : comparison :=
  match r1, r2 with
  | (c1, e1, m1), (c2, e2, m2) =>
      match (c1 ?= c2)%Z with
      | Eq => match (e1 ?= e2)%Z with
              | Eq => (m1 ?= m2)%Z
              | r => r
              end
      | r => r
      end
  end.

(** An event that carries sound prices: a kline whose candle is ordered,
    a tick whose price is a number. *)
Definition soundEvent (ev : FeedEvent) : bool :=
  match ev with
  | Kline candle => ordered candle
  | Tick price _ _ => negb (PrimFloat.is_nan price)
  end.

(** A window of ordered candles. *)
Definition allOrdered (w : list CandleData) : bool := forallb ordered w.

(** ** Tactics *)

(** Two binary64 literals differ: their comparison evaluates to [false]. *)
Ltac float_differs :=
  match goal with
  | |- ?a <> ?b =>
      let H := fresh "H" in
      intro H; apply (f_equal (PrimFloat.eqb b)) in H;
      vm_compute in H; discriminate H
  end.

(* ===================================================================== *)
(** * Properties *)
(* ===================================================================== *)

Unset Implicit Arguments.

(* ===================================================================== *)
(** ** The indicator: [calculateEMA] *)
(* ===================================================================== *)

Lemma emaLoop_pushes k rest : forall ema result,
  emaLoop k rest ema result = result ++ emaTail k rest ema.
Proof.
  induction rest as [| c rest IH]; intros ema result; simpl.
  - now rewrite app_nil_r.
  - rewrite IH, <- app_assoc. reflexivity.
Qed.

Lemma emaTail_length k rest : forall ema,
  length (emaTail k rest ema) = length rest.
Proof.
  induction rest as [| c rest IH]; intros ema; simpl; [reflexivity |].
  now rewrite IH.
Qed.

(** Consecutive entries of [seed :: emaTail] are linked by one smoothing
    step over the matching candle. *)
Lemma emaTail_recurrence k rest : forall seed j c,
  nth_error rest j = Some c ->
  exists prev,
    nth_error (Some seed :: emaTail k rest seed) j = Some (Some prev)
    /\ nth_error (Some seed :: emaTail k rest seed) (S j)
       = Some (Some (smooth k c prev)).
Proof.
  induction rest as [| d rest IH]; intros seed j c Hj.
  - destruct j; discriminate.
  - destruct j as [| j].
    + injection Hj as ->. exists seed. split; reflexivity.
    + simpl in Hj. destruct (IH (smooth k d seed) j c Hj) as [prev [H1 H2]].
      exists prev. split; [exact H1 | exact H2].
Qed.

Lemma fold_left_close (l : list CandleData) : forall a,
  fold_left (fun sum c => PrimFloat.add sum (close c)) l a
  = fold_left PrimFloat.add (map close l) a.
Proof.
  induction l as [| c l IH]; intros a; simpl; [reflexivity | apply IH].
Qed.

Lemma nth_error_repeat_lt {A : Type} (v : A) n i :
  i < n -> nth_error (repeat v n) i = Some v.
Proof.
  revert i. induction n as [| n IH]; intros i Hi; [lia |].
  destruct i as [| i]; simpl; [reflexivity | apply IH; lia].
Qed.

(** The closed form of the result for a period of at least one candle that
    the data covers. *)
Lemma calculateEMA_long (data : list CandleData) (period : Z) :
  (1 <= period)%Z ->
  (period <= Z.of_nat (length data))%Z ->
  calculateEMA data period
  = Return (repeat None (Z.to_nat (period - 1))
            ++ Some (arithmeticMean (map close (firstn (Z.to_nat period) data)))
               :: emaTail (smoothing period) (skipn (Z.to_nat period) data)
                    (arithmeticMean
                       (map close (firstn (Z.to_nat period) data)))).
Proof.
  intros Hp Hlen. unfold calculateEMA.
  destruct (Z.ltb_spec (Z.of_nat (length data)) period) as [Hlt | _]; [lia |].
  unfold Array_fill.
  destruct (Z.ltb_spec (period - 1) 0) as [Hneg | _]; [lia |].
  cbn [bind]. rewrite emaLoop_pushes, <- app_assoc. cbn [app].
  unfold sumCloses, arithmeticMean, smoothing.
  rewrite fold_left_close, length_map, length_firstn.
  replace (Z.of_nat (Nat.min (Z.to_nat period) (length data))) with period
    by lia.
  reflexivity.
Qed.

Lemma calculateEMA_short (data : list CandleData) (period : Z) :
  (Z.of_nat (length data) < period)%Z ->
  calculateEMA data period = Return (repeat None (length data)).
Proof.
  intros Hlt. unfold calculateEMA.
  destruct (Z.ltb_spec (Z.of_nat (length data)) period); [reflexivity | lia].
Qed.

(** With a period of at least one, [calculateEMA] returns, and its result is
    as long as its input. *)
Lemma calculateEMA_returns (data : list CandleData) (period : Z) :
  (1 <= period)%Z ->
  exists out, calculateEMA data period = Return out
              /\ length out = length data.
Proof.
  intros Hp.
  destruct (Z.ltb_spec (Z.of_nat (length data)) period) as [Hlt | Hge].
  - exists (repeat None (length data)). split.
    + now apply calculateEMA_short.
    + apply repeat_length.
  - eexists. split; [now apply calculateEMA_long |].
    rewrite length_app, repeat_length. cbn [length].
    rewrite emaTail_length, length_skipn. lia.
Qed.

(** C2, as the code has it.  For every candle sequence and every integer
    period of at least 1, [calculateEMA] returns a sequence as long as its
    input.  When the input is shorter than the period, every element is
    undefined.  Otherwise the elements before index [period - 1] are undefined,
    the element at [period - 1] is the arithmetic mean of the first [period]
    closes (the binary64 left-to-right sum divided by the count), and every
    element at an index [i >= period] is
    [close[i] * k + ema[i-1] * (1 - k)] with [k = 2 / (period + 1)]. *)
Theorem calculateEMA_spec (data : list CandleData) (period : Z) :
  (1 <= period)%Z ->
  exists out,
    calculateEMA data period = Return out
    /\ length out = length data
    /\ ((Z.of_nat (length data) < period)%Z ->
        forall i, i < length data -> nth_error out i = Some None)
    /\ ((period <= Z.of_nat (length data))%Z ->
        (forall i, (Z.of_nat i < period - 1)%Z -> nth_error out i = Some None)
        /\ nth_error out (Z.to_nat (period - 1))
           = Some (Some (arithmeticMean
                           (map close (firstn (Z.to_nat period) data))))
        /\ (forall i c,
              (period <= Z.of_nat i)%Z ->
              nth_error data i = Some c ->
              exists prev,
                nth_error out (i - 1) = Some (Some prev)
                /\ nth_error out i
                   = Some (Some (PrimFloat.add
                                   (PrimFloat.mul (close c) (smoothing period))
                                   (PrimFloat.mul prev
                                      (PrimFloat.sub (num 1)
                                                     (smoothing period))))))).
Proof.
  intros Hp.
  destruct (calculateEMA_returns data period Hp) as [out [Hout Hlen]].
  exists out. split; [exact Hout |]. split; [exact Hlen |]. split.
  - intros Hlt i Hi. rewrite (calculateEMA_short data period Hlt) in Hout.
    injection Hout as <-. now apply nth_error_repeat_lt.
  - intros Hge. rewrite (calculateEMA_long data period Hp Hge) in Hout.
    injection Hout as <-. clear Hlen.
    set (n := Z.to_nat (period - 1)).
    set (seed := arithmeticMean (map close (firstn (Z.to_nat period) data))).
    set (rest := skipn (Z.to_nat period) data).
    assert (Hn : length (repeat (@None float) n) = n) by apply repeat_length.
    split; [| split].
    + intros i Hi. rewrite nth_error_app1 by (rewrite Hn; lia).
      apply nth_error_repeat_lt. lia.
    + rewrite nth_error_app2 by (rewrite Hn; lia).
      rewrite Hn, Nat.sub_diag. reflexivity.
    + intros i c Hi Hc.
      assert (Hrest : nth_error rest (i - Z.to_nat period) = Some c).
      { unfold rest. rewrite nth_error_skipn.
        replace (Z.to_nat period + (i - Z.to_nat period)) with i by lia.
        exact Hc. }
      destruct (emaTail_recurrence (smoothing period) rest seed _ c Hrest)
        as [prev [H1 H2]].
      exists prev. split.
      * rewrite nth_error_app2 by (rewrite Hn; lia).
        rewrite Hn. replace (i - 1 - n) with (i - Z.to_nat period) by lia.
        exact H1.
      * rewrite nth_error_app2 by (rewrite Hn; lia).
        rewrite Hn. replace (i - n) with (S (i - Z.to_nat period)) by lia.
        exact H2.
Qed.

(* ===================================================================== *)
(** ** Arrays: last element, slices, indexed map *)
(* ===================================================================== *)

Lemma snoc_cases {A : Type} (l : list A) :
  l = [] \/ exists b x, l = b ++ [x].
Proof.
  destruct l as [| a l] using rev_ind; [now left | right].
  now exists l, a.
Qed.

Lemma lastOf_nil {A : Type} : lastOf (@nil A) = None.
Proof. reflexivity. Qed.

Lemma lastOf_snoc {A : Type} (b : list A) (x : A) : lastOf (b ++ [x]) = Some x.
Proof.
  unfold lastOf. rewrite length_app. cbn [length].
  rewrite nth_error_app2 by lia.
  replace (length b + 1 - 1 - length b) with 0 by lia. reflexivity.
Qed.

Lemma setLast_snoc {A : Type} (b : list A) (x v : A) :
  setLast (b ++ [x]) v = b ++ [v].
Proof. unfold setLast. now rewrite removelast_last. Qed.

Lemma skipn_snoc {A : Type} (n : nat) (b : list A) (x : A) :
  n <= length b -> skipn n (b ++ [x]) = skipn n b ++ [x].
Proof.
  intros Hn. rewrite skipn_app.
  replace (n - length b) with 0 by lia. reflexivity.
Qed.

Lemma mapFrom_length {A B : Type} (f : A -> nat -> B) (a : list A) :
  forall i, length (mapFrom f i a) = length a.
Proof.
  induction a as [| c a IH]; intros i; simpl; [reflexivity | now rewrite IH].
Qed.

(* ===================================================================== *)
(** ** The window: bound, indicators, merge or append *)
(* ===================================================================== *)

Lemma enforceMaxCandles_skipn (u : list CandleData) :
  enforceMaxCandles u = skipn (length u - MAX_CANDLES) u.
Proof.
  unfold enforceMaxCandles, sliceFrom.
  destruct (Nat.ltb_spec MAX_CANDLES (length u)) as [Hlt | Hge];
    [reflexivity |].
  replace (length u - MAX_CANDLES) with 0 by lia. reflexivity.
Qed.

Lemma enforceMaxCandles_length (u : list CandleData) :
  length (enforceMaxCandles u) = Nat.min (length u) MAX_CANDLES.
Proof. rewrite enforceMaxCandles_skipn, length_skipn. lia. Qed.

Lemma core_decorated (f7 f25 f99 : nat -> option float) (u : list CandleData) :
  forall i,
    map core (mapFrom (fun c j => withIndicators c (f7 j) (f25 j) (f99 j)) i u)
    = map core u.
Proof.
  induction u as [| c u IH]; intros i; simpl; [reflexivity |].
  now rewrite IH.
Qed.

(** The indicator pass always returns, and touches nothing but the three
    indicator fields. *)
Lemma recalculateEMAs_core (u : list CandleData) :
  exists w, recalculateEMAs u = Return w /\ map core w = map core u.
Proof.
  unfold recalculateEMAs.
  destruct (calculateEMA_returns u 7) as [e7 [-> _]]; [lia |].
  destruct (calculateEMA_returns u 25) as [e25 [-> _]]; [lia |].
  destruct (calculateEMA_returns u 99) as [e99 [-> _]]; [lia |].
  cbn [bind]. eexists. split; [reflexivity |].
  unfold mapIndexed. apply core_decorated.
Qed.

(** Both entry points are [place], then the bound, then the indicators. *)
Lemma applyEvent_place (ev : FeedEvent) (w : list CandleData) :
  applyEvent ev w = recalculateEMAs (enforceMaxCandles (place ev w)).
Proof.
  destruct ev as [candle | price t vol];
    unfold applyEvent, updateCandles, aggregateCandleLocally, place;
    cbn [keyOf freshOf mergeInto];
    destruct (lastOf w) as [l |]; reflexivity.
Qed.

Lemma applyEvent_core (ev : FeedEvent) (w : list CandleData) :
  exists w', applyEvent ev w = Return w'
             /\ map core w' = map core (enforceMaxCandles (place ev w)).
Proof. rewrite applyEvent_place. apply recalculateEMAs_core. Qed.

(** What [core] keeps. *)
Lemma core_fields (a b : CandleData) :
  core a = core b ->
  time a = time b /\ open a = open b /\ high a = high b /\ low a = low b
  /\ close a = close b /\ volume a = volume b /\ aiSignal a = aiSignal b.
Proof.
  intros H.
  repeat split;
    [ apply (f_equal time) in H | apply (f_equal open) in H
    | apply (f_equal high) in H | apply (f_equal low) in H
    | apply (f_equal close) in H | apply (f_equal volume) in H
    | apply (f_equal aiSignal) in H ]; exact H.
Qed.

Lemma core_keys (a b : list CandleData) :
  map core a = map core b -> keys a = keys b.
Proof.
  intros H. unfold keys.
  assert (Ht : forall l, map time l = map time (map core l)).
  { intros l. rewrite map_map. reflexivity. }
  now rewrite (Ht a), (Ht b), H.
Qed.

Lemma core_length (a b : list CandleData) :
  map core a = map core b -> length a = length b.
Proof.
  intros H. apply (f_equal (@length _)) in H. now rewrite !length_map in H.
Qed.

Lemma core_snoc (w b : list CandleData) (x : CandleData) :
  map core w = map core (b ++ [x]) ->
  exists b' x', w = b' ++ [x'] /\ map core b' = map core b /\ core x' = core x.
Proof.
  rewrite map_app. intros H.
  apply map_eq_app in H. destruct H as [b' [t [-> [Hb Ht]]]].
  destruct t as [| x' [| y t]]; try discriminate.
  assert (Hx : core x' = core x) by (cbn [map] in Ht; congruence).
  now exists b', x'.
Qed.

(** The keys and the length after [place]. *)
Lemma place_same (ev : FeedEvent) (b : list CandleData) (l : CandleData) :
  time l = keyOf ev -> place ev (b ++ [l]) = b ++ [mergeInto ev l].
Proof.
  intros H. unfold place. rewrite lastOf_snoc, H, Z.eqb_refl.
  apply setLast_snoc.
Qed.

Lemma place_new (ev : FeedEvent) (b : list CandleData) (l : CandleData) :
  time l <> keyOf ev -> place ev (b ++ [l]) = (b ++ [l]) ++ [freshOf ev].
Proof.
  intros H. unfold place. rewrite lastOf_snoc.
  destruct (Z.eqb_spec (time l) (keyOf ev)); [contradiction | reflexivity].
Qed.

Lemma place_nil (ev : FeedEvent) : place ev [] = [freshOf ev].
Proof. reflexivity. Qed.

Lemma time_mergeInto (ev : FeedEvent) (l : CandleData) :
  time l = keyOf ev -> time (mergeInto ev l) = keyOf ev.
Proof. destruct ev; cbn; intros H; [reflexivity | exact H]. Qed.

Lemma time_freshOf (ev : FeedEvent) : time (freshOf ev) = keyOf ev.
Proof. destruct ev; reflexivity. Qed.

(** [place] always leaves a window that ends in a candle at the event's key. *)
Lemma place_ends (ev : FeedEvent) (w : list CandleData) :
  exists b x, place ev w = b ++ [x] /\ time x = keyOf ev
              /\ (b = w \/ exists l, w = b ++ [l] /\ time l = keyOf ev).
Proof.
  destruct (snoc_cases w) as [-> | [b [l ->]]].
  - exists [], (freshOf ev). rewrite place_nil.
    repeat split; [apply time_freshOf | now left].
  - destruct (Z.eq_dec (time l) (keyOf ev)) as [Heq | Hne].
    + exists b, (mergeInto ev l). rewrite place_same by exact Heq.
      repeat split; [now apply time_mergeInto | right; now exists l].
    + exists (b ++ [l]), (freshOf ev). rewrite place_new by exact Hne.
      repeat split; [apply time_freshOf | now left].
Qed.

(** The window after one event, from what [place] leaves: the candles [b]
    before the last one, cut to the bound, then the last candle [x]; only
    indicator fields differ. *)
Lemma applyEvent_after_place (ev : FeedEvent) (w b : list CandleData)
      (x : CandleData) :
  place ev w = b ++ [x] ->
  exists b' x',
    applyEvent ev w = Return (b' ++ [x'])
    /\ core x' = core x
    /\ map core b' = map core (skipn (length b + 1 - MAX_CANDLES) b).
Proof.
  intros Hp.
  destruct (applyEvent_core ev w) as [w' [Hw' Hcore]].
  rewrite Hp, enforceMaxCandles_skipn, length_app in Hcore.
  cbn [length] in Hcore.
  rewrite skipn_snoc in Hcore by (unfold MAX_CANDLES; lia).
  destruct (core_snoc _ _ _ Hcore) as [b' [x' [-> [Hb' Hx']]]].
  now exists b', x'.
Qed.

Lemma applyEvent_shape (ev : FeedEvent) (w : list CandleData) :
  exists b x b' x',
    place ev w = b ++ [x]
    /\ applyEvent ev w = Return (b' ++ [x'])
    /\ core x' = core x
    /\ map core b' = map core (skipn (length b + 1 - MAX_CANDLES) b)
    /\ time x = keyOf ev
    /\ (b = w \/ exists l, w = b ++ [l] /\ time l = keyOf ev).
Proof.
  destruct (place_ends ev w) as [b [x [Hp [Hx Hb]]]].
  destruct (applyEvent_after_place ev w b x Hp) as [b' [x' [Hev [Hx' Hb']]]].
  exists b, x, b', x'. repeat split; assumption.
Qed.

Lemma applyEvent_length (ev : FeedEvent) (w : list CandleData) :
  exists w', applyEvent ev w = Return w' /\ length w' <= MAX_CANDLES.
Proof.
  destruct (applyEvent_core ev w) as [w' [Hw' Hcore]].
  exists w'. split; [exact Hw' |].
  rewrite (core_length _ _ Hcore), enforceMaxCandles_length. lia.
Qed.

Lemma applyEvents_snoc (evs : list FeedEvent) (ev : FeedEvent) :
  forall w,
    applyEvents (evs ++ [ev]) w
    = (w1 <- applyEvents evs w ;; applyEvent ev w1)%js.
Proof.
  induction evs as [| e evs IH]; intros w; cbn [applyEvents app bind].
  - destruct (applyEvent ev w); reflexivity.
  - destruct (applyEvent e w) as [w1 | err]; cbn [bind]; [apply IH | reflexivity].
Qed.

(** No feed makes the window updaters raise. *)
Lemma applyEvents_returns (evs : list FeedEvent) :
  forall w, exists w', applyEvents evs w = Return w'.
Proof.
  induction evs as [| e evs IH]; intros w; cbn [applyEvents].
  - now exists w.
  - destruct (applyEvent_length e w) as [w1 [-> _]]. cbn [bind]. apply IH.
Qed.

(** C3.  Whatever the window and the feed, after the last call of any
    non-empty sequence of [updateCandles] and [aggregateCandleLocally] calls
    the window holds at most [MAX_CANDLES] = 120 candles; and when a window of
    120 candles receives an event at a key other than that of its last
    candle, the result is the old window without its oldest candle, followed
    by the new candle (indicators recomputed). *)
Theorem window_bounded_fifo
        (w : list CandleData) (evs : list FeedEvent) (ev : FeedEvent) :
  (exists w', applyEvents (evs ++ [ev]) w = Return w'
              /\ length w' <= MAX_CANDLES)
  /\ (length w = MAX_CANDLES ->
      lastKey w <> Some (keyOf ev) ->
      exists w', applyEvent ev w = Return w'
                 /\ length w' = MAX_CANDLES
                 /\ map core w' = map core (tl w ++ [freshOf ev])).
Proof.
  split.
  - rewrite applyEvents_snoc.
    destruct (applyEvents_returns evs w) as [w1 ->]. cbn [bind].
    apply applyEvent_length.
  - intros Hlen Hkey.
    destruct (applyEvent_core ev w) as [w' [Hw' Hcore]].
    assert (Hplace : place ev w = w ++ [freshOf ev]).
    { destruct (snoc_cases w) as [-> | [b [l ->]]]; [reflexivity |].
      apply place_new. intros Heq. apply Hkey.
      unfold lastKey. rewrite lastOf_snoc. cbn. now rewrite Heq. }
    rewrite Hplace, enforceMaxCandles_skipn, length_app, Hlen in Hcore.
    cbn [length] in Hcore.
    replace (MAX_CANDLES + 1 - MAX_CANDLES) with 1 in Hcore by lia.
    destruct w as [| c0 w0]; [discriminate Hlen |].
    cbn [skipn app tl] in *.
    exists w'. split; [exact Hw' |]. split; [| exact Hcore].
    rewrite (core_length _ _ Hcore), length_app. cbn [length] in *. lia.
Qed.

Lemma window_bounded_fifo_witness :
  length (minuteCandles 120 (num 100)) = MAX_CANDLES
  /\ lastKey (minuteCandles 120 (num 100))
     <> Some (keyOf (Kline (flatCandle 7200000 (num 101))))
  /\ exists w',
      applyEvent (Kline (flatCandle 7200000 (num 101)))
                 (minuteCandles 120 (num 100)) = Return w'
      /\ length w' = MAX_CANDLES
      /\ map core w'
         = map core (tl (minuteCandles 120 (num 100))
                     ++ [flatCandle 7200000 (num 101)]).
Proof.
  assert (H1 : length (minuteCandles 120 (num 100)) = MAX_CANDLES)
    by reflexivity.
  assert (H2 : lastKey (minuteCandles 120 (num 100))
               <> Some (keyOf (Kline (flatCandle 7200000 (num 101)))))
    by (vm_compute; discriminate).
  split; [exact H1 |]. split; [exact H2 |].
  exact (proj2 (window_bounded_fifo
                  (minuteCandles 120 (num 100)) []
                  (Kline (flatCandle 7200000 (num 101)))) H1 H2).
Defined.

(* ===================================================================== *)
(** ** The order of the keys *)
(* ===================================================================== *)

Lemma lastOf_map {A B : Type} (f : A -> B) (l : list A) :
  lastOf (map f l) = option_map f (lastOf l).
Proof.
  destruct (snoc_cases l) as [-> | [b [x ->]]]; [reflexivity |].
  rewrite map_app. cbn [map]. now rewrite !lastOf_snoc.
Qed.

Lemma increasing_tail (a : Z) (ks : list Z) :
  increasing (a :: ks) -> increasing ks.
Proof. destruct ks; cbn; [trivial | tauto]. Qed.

Lemma increasing_skipn (n : nat) : forall ks,
  increasing ks -> increasing (skipn n ks).
Proof.
  induction n as [| n IH]; intros ks H; [exact H |].
  destruct ks as [| a ks]; [exact H |].
  cbn [skipn]. apply IH. now apply increasing_tail in H.
Qed.

Lemma increasing_snoc (k : Z) : forall ks,
  increasing ks ->
  (forall l, lastOf ks = Some l -> (l < k)%Z) ->
  increasing (ks ++ [k]).
Proof.
  induction ks as [| a ks IH]; intros Hinc Hlast; [exact I |].
  destruct ks as [| b ks].
  - cbn. split; [now apply Hlast | exact I].
  - destruct Hinc as [Hab Hinc]. cbn [app increasing]. split; [exact Hab |].
    apply IH; [exact Hinc |].
    intros l Hl. apply Hlast.
    unfold lastOf in *. cbn [length] in *.
    replace (S (S (length ks)) - 1) with (S (S (length ks) - 1)) by lia.
    exact Hl.
Qed.

(** One event that does not land before the last key keeps the keys strictly
    increasing and becomes the last key. *)
Lemma applyEvent_increasing (ev : FeedEvent) (w : list CandleData) :
  increasing (keys w) ->
  match lastKey w with
  | Some k => (k <= keyOf ev)%Z
  | None => True
  end ->
  exists w', applyEvent ev w = Return w'
             /\ increasing (keys w')
             /\ lastKey w' = Some (keyOf ev).
Proof.
  intros Hinc Hord.
  destruct (applyEvent_shape ev w)
    as [b [x [b' [x' [Hp [Hev [Hx' [Hb' [Hx Hb]]]]]]]]].
  exists (b' ++ [x']). split; [exact Hev |].
  destruct (core_fields _ _ Hx') as [Htx' _].
  split.
  - unfold keys. rewrite map_app. cbn [map]. fold (keys b').
    rewrite (core_keys _ _ Hb'), Htx', Hx.
    unfold keys. rewrite <- skipn_map.
    rewrite <- (skipn_snoc _ (map time b) (keyOf ev))
      by (rewrite length_map; unfold MAX_CANDLES; lia).
    apply increasing_skipn.
    destruct Hb as [-> | [l [-> Hl]]].
    + apply increasing_snoc; [exact Hinc |].
      intros l Hl. fold (keys w) in Hl. unfold keys in Hl.
      rewrite lastOf_map in Hl.
      unfold lastKey in Hord. destruct (lastOf w) as [c |] eqn:Hc;
        [| discriminate].
      cbn in Hl, Hord. injection Hl as <-.
      assert (Hne : time c <> keyOf ev).
      { intros Heq.
        destruct (snoc_cases w) as [-> | [b0 [l0 ->]]]; [discriminate |].
        rewrite lastOf_snoc in Hc. injection Hc as ->.
        rewrite place_same in Hp by exact Heq.
        apply (f_equal (@length _)) in Hp. rewrite !length_app in Hp.
        cbn in Hp. lia. }
      lia.
    + unfold keys in Hinc. rewrite map_app in Hinc. cbn [map] in Hinc.
      now rewrite Hl in Hinc.
  - unfold lastKey. rewrite lastOf_snoc. cbn. now rewrite Htx', Hx.
Qed.

Lemma inOrder_prefix (pre post : list FeedEvent) : forall last,
  inOrder last (pre ++ post) -> inOrder last pre.
Proof.
  induction pre as [| ev pre IH]; intros last H; [exact I |].
  destruct H as [H1 H2]. split; [exact H1 | now apply IH].
Qed.

Lemma applyEvents_increasing (evs : list FeedEvent) : forall w,
  increasing (keys w) ->
  inOrder (lastKey w) evs ->
  exists w', applyEvents evs w = Return w' /\ increasing (keys w').
Proof.
  induction evs as [| ev evs IH]; intros w Hinc Hord.
  - now exists w.
  - destruct Hord as [Hfirst Hrest].
    destruct (applyEvent_increasing ev w Hinc Hfirst) as [w1 [Hw1 [Hinc1 Hk1]]].
    cbn [applyEvents]. rewrite Hw1. cbn [bind].
    apply IH; [exact Hinc1 | now rewrite Hk1].
Qed.

(** C9, as the code has it.  When the keys of the window are strictly
    increasing and the feed is delivered in order (no event lands before the
    key of the last candle), the keys are strictly increasing after every
    call: after each prefix [pre] of the sequence of [updateCandles] and
    [aggregateCandleLocally] calls. *)
Theorem keys_increasing_in_order
        (w : list CandleData) (pre post : list FeedEvent) :
  increasing (keys w) ->
  inOrder (lastKey w) (pre ++ post) ->
  exists w', applyEvents pre w = Return w' /\ increasing (keys w').
Proof.
  intros Hinc Hord. apply applyEvents_increasing; [exact Hinc |].
  now apply inOrder_prefix with (post := post).
Qed.

Lemma keys_increasing_in_order_witness :
  increasing (keys (minuteCandles 3 (num 100)))
  /\ inOrder (lastKey (minuteCandles 3 (num 100)))
             ([Kline (flatCandle 120000 (num 101));
               Tick (num 102) 185000 (num 60)]
              ++ [Kline (flatCandle 240000 (num 103))])
  /\ exists w',
      applyEvents [Kline (flatCandle 120000 (num 101));
                   Tick (num 102) 185000 (num 60)]
                  (minuteCandles 3 (num 100)) = Return w'
      /\ increasing (keys w').
Proof.
  assert (H1 : increasing (keys (minuteCandles 3 (num 100))))
    by (cbn; lia).
  assert (H2 : inOrder (lastKey (minuteCandles 3 (num 100)))
                       ([Kline (flatCandle 120000 (num 101));
                         Tick (num 102) 185000 (num 60)]
                        ++ [Kline (flatCandle 240000 (num 103))]))
    by (vm_compute; intuition discriminate).
  split; [exact H1 |]. split; [exact H2 |].
  exact (keys_increasing_in_order _ _ _ H1 H2).
Defined.

(** C9 as stated fails: nothing in the updaters compares a new key with the
    last one except for equality.  A kline for the minute starting at 120000,
    followed by a tick stamped 119000 (a second source whose clock is one
    second behind), leaves the keys 120000, 60000. *)
Lemma keys_not_increasing_out_of_order :
  exists w',
    applyEvents [Kline (flatCandle 120000 (num 100));
                 Tick (num 100) 119000 (num 60)] [] = Return w'
    /\ keys w' = [120000; 60000]%Z
    /\ ~ increasing (keys w').
Proof.
  eexists. split; [vm_compute; reflexivity |].
  split; [reflexivity |]. cbn. lia.
Qed.

(* ===================================================================== *)
(** ** Two pre-built candles at one key *)
(* ===================================================================== *)

Lemma In_skipn {A : Type} (x : A) (n : nat) (l : list A) :
  In x (skipn n l) -> In x l.
Proof.
  intros H. rewrite <- (firstn_skipn n l). apply in_or_app. now right.
Qed.

(** A window that ends in a candle at key [k], with no other candle there,
    holds exactly one candle at [k]. *)
Lemma countKey_snoc (k : Z) (b : list CandleData) (x : CandleData) :
  time x = k -> ~ In k (keys b) -> countKey k (b ++ [x]) = 1.
Proof.
  intros Hx Hb. unfold countKey, keys. rewrite map_app, count_occ_app.
  cbn [map count_occ]. rewrite Hx.
  destruct (Z.eq_dec k k) as [_ | Hne]; [| contradiction].
  apply (count_occ_not_In Z.eq_dec) in Hb. unfold keys in Hb. lia.
Qed.

(** The first call: where the candle lands, and what signal it carries. *)
Lemma updateCandles_first (w : list CandleData) (c1 : CandleData) :
  ~ In (time c1) (keys (removelast w)) ->
  exists b x,
    place (Kline c1) w = b ++ [x]
    /\ time x = time c1
    /\ open x = open c1 /\ high x = high c1 /\ low x = low c1
    /\ close x = close c1 /\ volume x = volume c1
    /\ ~ In (time c1) (keys b)
    /\ aiSignal x = match lastOf w with
                    | Some l0 => if (time l0 =? time c1)%Z
                                 then aiSignal l0 else aiSignal c1
                    | None => aiSignal c1
                    end.
Proof.
  intros Hnot.
  destruct (snoc_cases w) as [-> | [b0 [l0 ->]]].
  - exists [], c1. rewrite place_nil. cbn. tauto.
  - rewrite removelast_last in Hnot. rewrite lastOf_snoc.
    destruct (Z.eqb_spec (time l0) (time c1)) as [Heq | Hne].
    + exists b0, (withSignal c1 (aiSignal l0)).
      rewrite place_same by exact Heq. cbn. tauto.
    + exists (b0 ++ [l0]), c1. rewrite place_new by exact Hne. cbn.
      repeat split; try reflexivity.
      unfold keys. rewrite map_app. intros Hin.
      apply in_app_or in Hin. destruct Hin as [Hin | [Hin | []]];
        [now apply Hnot | now apply Hne].
Qed.

(** C1, as the code has it.  Take a window in which no candle other than the
    last sits at the incoming [openTime] (every window with strictly
    increasing keys that is fed in order is one).  Two [updateCandles] calls
    in sequence with that same [openTime] leave exactly one candle at that
    key: the last one; the second call adds no candle.  Its open, high, low,
    close and volume are those of the second call's candle, verbatim.  Its
    signal is the one the window's last candle carried after the first call:
    the signal of the candle that already sat at that key, or else that of
    the first call's candle. *)
Theorem updateCandles_twice_same_key
        (w : list CandleData) (c1 c2 : CandleData) :
  time c2 = time c1 ->
  ~ In (time c1) (keys (removelast w)) ->
  exists w1 w2 l1 l2,
    updateCandles c1 w = Return w1
    /\ updateCandles c2 w1 = Return w2
    /\ countKey (time c1) w2 = 1
    /\ length w2 = length w1
    /\ lastOf w1 = Some l1
    /\ lastOf w2 = Some l2
    /\ time l2 = time c1
    /\ open l2 = open c2 /\ high l2 = high c2 /\ low l2 = low c2
    /\ close l2 = close c2 /\ volume l2 = volume c2
    /\ aiSignal l2 = aiSignal l1
    /\ aiSignal l1 = match lastOf w with
                     | Some l0 => if (time l0 =? time c1)%Z
                                  then aiSignal l0 else aiSignal c1
                     | None => aiSignal c1
                     end.
Proof.
  intros Hkey Hnot.
  destruct (updateCandles_first w c1 Hnot)
    as [b [x [Hp [Htx [_ [_ [_ [_ [_ [Hb Hsig]]]]]]]]]].
  destruct (applyEvent_after_place (Kline c1) w b x Hp)
    as [b1 [x1 [Hw1 [Hx1 Hb1]]]].
  destruct (core_fields _ _ Hx1) as [Ht1 [_ [_ [_ [_ [_ Hs1]]]]]].
  assert (Hp2 : place (Kline c2) (b1 ++ [x1])
                = b1 ++ [withSignal c2 (aiSignal x1)]).
  { apply (place_same (Kline c2)). cbn. congruence. }
  destruct (applyEvent_after_place (Kline c2) (b1 ++ [x1]) b1 _ Hp2)
    as [b2 [x2 [Hw2 [Hx2 Hb2]]]].
  destruct (core_fields _ _ Hx2) as [Ht2 [Ho [Hh [Hl [Hc [Hv Hs2]]]]]].
  cbn in Ht2, Ho, Hh, Hl, Hc, Hv, Hs2.
  assert (Hlen1 : length b1 + 1 <= MAX_CANDLES).
  { rewrite (core_length _ _ Hb1), length_skipn. unfold MAX_CANDLES. lia. }
  replace (length b1 + 1 - MAX_CANDLES) with 0 in Hb2 by lia.
  cbn [skipn] in Hb2.
  exists (b1 ++ [x1]), (b2 ++ [x2]), x1, x2.
  split; [exact Hw1 |]. split; [exact Hw2 |]. split.
  - apply countKey_snoc; [congruence |].
    rewrite (core_keys _ _ Hb2), (core_keys _ _ Hb1).
    unfold keys. rewrite <- skipn_map. intros Hin.
    apply In_skipn in Hin. now apply Hb.
  - split; [rewrite !length_app, (core_length _ _ Hb2); reflexivity |].
    rewrite !lastOf_snoc.
    repeat split; try assumption; congruence.
Qed.

Lemma updateCandles_twice_same_key_witness :
  time (flatCandle 120000 (num 102)) = time (flatCandle 120000 (num 101))
  /\ ~ In (time (flatCandle 120000 (num 101)))
          (keys (removelast taggedWindow))
  /\ exists w1 w2 l1 l2,
      updateCandles (flatCandle 120000 (num 101)) taggedWindow = Return w1
      /\ updateCandles (flatCandle 120000 (num 102)) w1 = Return w2
      /\ countKey 120000 w2 = 1
      /\ length w2 = length w1
      /\ lastOf w1 = Some l1
      /\ lastOf w2 = Some l2
      /\ time l2 = 120000%Z
      /\ open l2 = num 102 /\ high l2 = num 102 /\ low l2 = num 102
      /\ close l2 = num 102 /\ volume l2 = num 1
      /\ aiSignal l2 = aiSignal l1
      /\ aiSignal l1 = Some bullish.
Proof.
  assert (H1 : time (flatCandle 120000 (num 102))
               = time (flatCandle 120000 (num 101))) by reflexivity.
  assert (H2 : ~ In (time (flatCandle 120000 (num 101)))
                    (keys (removelast taggedWindow)))
    by (vm_compute; intuition discriminate).
  split; [exact H1 |]. split; [exact H2 |].
  exact (updateCandles_twice_same_key
           taggedWindow (flatCandle 120000 (num 101))
           (flatCandle 120000 (num 102)) H1 H2).
Defined.

(** C1 as stated fails on a window that holds the key before its last
    candle: the first call appends a second candle at that key, and the
    second call replaces only that one. *)
Lemma updateCandles_twice_counterexample :
  exists w1 w2,
    updateCandles (flatCandle 0 (num 101)) (minuteCandles 2 (num 100))
    = Return w1
    /\ updateCandles (flatCandle 0 (num 102)) w1 = Return w2
    /\ keys w2 = [0; 60000; 0]%Z
    /\ countKey 0 w2 = 2.
Proof.
  eexists. eexists.
  split; [vm_compute; reflexivity |].
  split; [vm_compute; reflexivity |].
  split; reflexivity.
Qed.

(* ===================================================================== *)
(** ** Ticks aggregated locally *)
(* ===================================================================== *)

(** C4, as the code has it.  When the last candle [l] of the window sits at
    the bucket [floor(t1 / 60000) * 60000] of a tick and a second tick falls
    into the same bucket, the two [aggregateCandleLocally] calls add no
    candle and leave a last candle with the time and open of [l], the high
    [max(max(l.high, p1), p2)], the low [min(min(l.low, p1), p2)], the close
    [p2] and the volume [l.volume + v1 / 60 + v2 / 60].  A tick into a bucket
    other than that of the last candle (or into an empty window) appends,
    under the bound, a candle at the bucket with open = high = low = close =
    price and volume [v / 60]. *)
Theorem aggregateCandleLocally_buckets
        (w : list CandleData) (l : CandleData)
        (p1 p2 v1 v2 : float) (t1 t2 : Z) :
  (lastOf w = Some l ->
   time l = candleTimeOf t1 ->
   candleTimeOf t2 = candleTimeOf t1 ->
   exists w1 w2 l2,
     aggregateCandleLocally p1 t1 v1 w = Return w1
     /\ aggregateCandleLocally p2 t2 v2 w1 = Return w2
     /\ length w2 = length w1
     /\ length w1 = Nat.min (length w) MAX_CANDLES
     /\ lastOf w2 = Some l2
     /\ time l2 = time l
     /\ open l2 = open l
     /\ high l2 = Math_max (Math_max (high l) p1) p2
     /\ low l2 = Math_min (Math_min (low l) p1) p2
     /\ close l2 = p2
     /\ volume l2
        = PrimFloat.add
            (PrimFloat.add (volume l) (PrimFloat.div v1 (num 60)))
            (PrimFloat.div v2 (num 60)))
  /\ (lastKey w <> Some (candleTimeOf t1) ->
      exists w1 l1,
        aggregateCandleLocally p1 t1 v1 w = Return w1
        /\ map core w1
           = map core (enforceMaxCandles (w ++ [freshOf (Tick p1 t1 v1)]))
        /\ lastOf w1 = Some l1
        /\ time l1 = candleTimeOf t1
        /\ open l1 = p1 /\ high l1 = p1 /\ low l1 = p1 /\ close l1 = p1
        /\ volume l1 = PrimFloat.div v1 (num 60)).
Proof.
  split.
  - intros Hlast Hl Ht.
    destruct (snoc_cases w) as [-> | [b [l0 ->]]]; [discriminate |].
    rewrite lastOf_snoc in Hlast. injection Hlast as ->.
    pose proof (place_same (Tick p1 t1 v1) b l Hl) as Hp1.
    destruct (applyEvent_after_place _ _ _ _ Hp1) as [b1 [x1 [Hw1 [Hx1 Hb1]]]].
    destruct (core_fields _ _ Hx1) as [Ht1 [Ho1 [Hh1 [Hl1 [Hc1 [Hv1 _]]]]]].
    cbn in Ht1, Ho1, Hh1, Hl1, Hc1, Hv1.
    assert (Hk2 : time x1 = keyOf (Tick p2 t2 v2)) by (cbn; congruence).
    pose proof (place_same (Tick p2 t2 v2) b1 x1 Hk2) as Hp2.
    destruct (applyEvent_after_place _ _ _ _ Hp2) as [b2 [x2 [Hw2 [Hx2 Hb2]]]].
    destruct (core_fields _ _ Hx2) as [Ht2 [Ho2 [Hh2 [Hl2 [Hc2 [Hv2 _]]]]]].
    cbn in Ht2, Ho2, Hh2, Hl2, Hc2, Hv2.
    assert (Hlen1 : length b1 = length b - (length b + 1 - MAX_CANDLES))
      by now rewrite (core_length _ _ Hb1), length_skipn.
    replace (length b1 + 1 - MAX_CANDLES) with 0 in Hb2
      by (unfold MAX_CANDLES in *; lia).
    cbn [skipn] in Hb2.
    exists (b1 ++ [x1]), (b2 ++ [x2]), x2.
    split; [exact Hw1 |]. split; [exact Hw2 |].
    split; [rewrite !length_app, (core_length _ _ Hb2); reflexivity |].
    split; [rewrite !length_app; cbn [length];
            unfold MAX_CANDLES in *; lia |].
    rewrite lastOf_snoc.
    repeat split; try congruence.
    rewrite Hv2, Hv1. reflexivity.
  - intros Hkey.
    assert (Hp : place (Tick p1 t1 v1) w = w ++ [freshOf (Tick p1 t1 v1)]).
    { destruct (snoc_cases w) as [-> | [b [l0 ->]]]; [reflexivity |].
      apply place_new. intros Heq. apply Hkey.
      unfold lastKey. rewrite lastOf_snoc. cbn in *. now rewrite Heq. }
    destruct (applyEvent_core (Tick p1 t1 v1) w) as [w1 [Hw1 Hcore]].
    destruct (applyEvent_after_place _ _ _ _ Hp) as [b1 [x1 [Hw1' [Hx1 _]]]].
    cbn [applyEvent] in Hw1, Hw1'.
    assert (Heq : w1 = b1 ++ [x1]) by congruence. subst w1.
    rewrite Hp in Hcore.
    destruct (core_fields _ _ Hx1) as [Ht1 [Ho1 [Hh1 [Hl1 [Hc1 [Hv1 _]]]]]].
    cbn in Ht1, Ho1, Hh1, Hl1, Hc1, Hv1.
    exists (b1 ++ [x1]), x1. rewrite lastOf_snoc.
    repeat split; assumption.
Qed.

Lemma aggregateCandleLocally_buckets_witness :
  (lastOf (minuteCandles 1 (num 100)) = Some (flatCandle 0 (num 100))
   /\ time (flatCandle 0 (num 100)) = candleTimeOf 1000
   /\ candleTimeOf 2000 = candleTimeOf 1000
   /\ exists w1 w2 l2,
       aggregateCandleLocally (num 101) 1000 (num 60)
                              (minuteCandles 1 (num 100)) = Return w1
       /\ aggregateCandleLocally (num 99) 2000 (num 120) w1 = Return w2
       /\ length w2 = length w1
       /\ length w1 = Nat.min (length (minuteCandles 1 (num 100))) MAX_CANDLES
       /\ lastOf w2 = Some l2
       /\ time l2 = time (flatCandle 0 (num 100))
       /\ open l2 = open (flatCandle 0 (num 100))
       /\ high l2
          = Math_max (Math_max (high (flatCandle 0 (num 100))) (num 101))
                     (num 99)
       /\ low l2
          = Math_min (Math_min (low (flatCandle 0 (num 100))) (num 101))
                     (num 99)
       /\ close l2 = num 99
       /\ volume l2
          = PrimFloat.add
              (PrimFloat.add (volume (flatCandle 0 (num 100)))
                             (PrimFloat.div (num 60) (num 60)))
              (PrimFloat.div (num 120) (num 60)))
  /\ (lastKey (minuteCandles 1 (num 100)) <> Some (candleTimeOf 61000)
      /\ exists w1 l1,
          aggregateCandleLocally (num 101) 61000 (num 60)
                                 (minuteCandles 1 (num 100)) = Return w1
          /\ map core w1
             = map core (enforceMaxCandles
                           (minuteCandles 1 (num 100)
                            ++ [freshOf (Tick (num 101) 61000 (num 60))]))
          /\ lastOf w1 = Some l1
          /\ time l1 = candleTimeOf 61000
          /\ open l1 = num 101 /\ high l1 = num 101 /\ low l1 = num 101
          /\ close l1 = num 101
          /\ volume l1 = PrimFloat.div (num 60) (num 60)).
Proof.
  assert (H1 : lastOf (minuteCandles 1 (num 100))
               = Some (flatCandle 0 (num 100))) by reflexivity.
  assert (H2 : time (flatCandle 0 (num 100)) = candleTimeOf 1000)
    by reflexivity.
  assert (H3 : candleTimeOf 2000 = candleTimeOf 1000) by reflexivity.
  assert (H4 : lastKey (minuteCandles 1 (num 100))
               <> Some (candleTimeOf 61000))
    by (vm_compute; discriminate).
  split.
  - split; [exact H1 |]. split; [exact H2 |]. split; [exact H3 |].
    exact (proj1 (aggregateCandleLocally_buckets
                    (minuteCandles 1 (num 100)) (flatCandle 0 (num 100))
                    (num 101) (num 99) (num 60) (num 120) 1000 2000)
                 H1 H2 H3).
  - split; [exact H4 |].
    exact (proj2 (aggregateCandleLocally_buckets
                    (minuteCandles 1 (num 100)) (flatCandle 0 (num 100))
                    (num 101) (num 99) (num 60) (num 120) 61000 2000)
                 H4).
Defined.

(** C4 as stated fails on the volume: each tick adds its volume hint
    divided by 60.  Two ticks with hints 60 and 120 into the bucket of a
    candle of volume 0 leave the volume 3, not 180; a tick with hint 60 into
    an empty window opens a candle of volume 1, not 60. *)
Lemma aggregateCandleLocally_volume_counterexample :
  (exists w1 w2 l2,
      aggregateCandleLocally
        (num 101) 1000 (num 60)
        [mkCandle 0 (num 100) (num 100) (num 100) (num 100) (num 0)
                  None None None None] = Return w1
      /\ aggregateCandleLocally (num 99) 2000 (num 120) w1 = Return w2
      /\ lastOf w2 = Some l2
      /\ volume l2 = num 3
      /\ volume l2 <> PrimFloat.add (num 60) (num 120))
  /\ (exists w1 l1,
         aggregateCandleLocally (num 100) 61000 (num 60) [] = Return w1
         /\ lastOf w1 = Some l1
         /\ volume l1 = num 1
         /\ volume l1 <> num 60).
Proof.
  split.
  - eexists. eexists. eexists.
    split; [vm_compute; reflexivity |].
    split; [vm_compute; reflexivity |].
    split; [vm_compute; reflexivity |].
    split; [reflexivity | cbn [volume]; float_differs].
  - eexists. eexists.
    split; [vm_compute; reflexivity |].
    split; [vm_compute; reflexivity |].
    split; [reflexivity | cbn [volume]; float_differs].
Qed.

(* ===================================================================== *)
(** ** The indicator on concrete data *)
(* ===================================================================== *)

Lemma calculateEMA_spec_witness :
  (1 <= 3)%Z
  /\ exists out,
      calculateEMA (minuteCandles 5 (num 100)) 3 = Return out
      /\ length out = length (minuteCandles 5 (num 100))
      /\ ((Z.of_nat (length (minuteCandles 5 (num 100))) < 3)%Z ->
          forall i, i < length (minuteCandles 5 (num 100)) ->
                    nth_error out i = Some None)
      /\ ((3 <= Z.of_nat (length (minuteCandles 5 (num 100))))%Z ->
          (forall i, (Z.of_nat i < 3 - 1)%Z -> nth_error out i = Some None)
          /\ nth_error out (Z.to_nat (3 - 1))
             = Some (Some (arithmeticMean
                             (map close
                                  (firstn (Z.to_nat 3)
                                          (minuteCandles 5 (num 100))))))
          /\ (forall i c,
                (3 <= Z.of_nat i)%Z ->
                nth_error (minuteCandles 5 (num 100)) i = Some c ->
                exists prev,
                  nth_error out (i - 1) = Some (Some prev)
                  /\ nth_error out i
                     = Some (Some (PrimFloat.add
                                     (PrimFloat.mul (close c) (smoothing 3))
                                     (PrimFloat.mul prev
                                        (PrimFloat.sub (num 1)
                                                       (smoothing 3))))))).
Proof.
  assert (H : (1 <= 3)%Z) by lia.
  split; [exact H |].
  exact (calculateEMA_spec (minuteCandles 5 (num 100)) 3 H).
Defined.

(** On 99 candles that all close at 50000, the seed at index 98 is that
    close: the sum and the quotient are exact. *)
Lemma calculateEMA_seed_exact :
  exists out,
    calculateEMA (minuteCandles 99 (num 50000)) 99 = Return out
    /\ nth_error out 98 = Some (Some (num 50000)).
Proof.
  eexists. split; [vm_compute; reflexivity | reflexivity].
Qed.

(** C2 as stated fails twice.  A period of 0 makes [Array(period - 1)]
    raise, so nothing is returned.  And on 99 candles that all close at
    50000.1 (the nearest binary64 number), the seed at index 98, their
    arithmetic mean as binary64 computes it, is not that common close: the
    99 additions round. *)
Lemma calculateEMA_counterexample :
  calculateEMA [] 0 = Throw RangeError
  /\ Forall (fun c => close c = price_50000_1)
            (minuteCandles 99 price_50000_1)
  /\ exists out v,
      calculateEMA (minuteCandles 99 price_50000_1) 99 = Return out
      /\ nth_error out 98 = Some (Some v)
      /\ v = arithmeticMean (map close (minuteCandles 99 price_50000_1))
      /\ v <> price_50000_1.
Proof.
  split; [reflexivity |]. split.
  - apply Forall_forall. intros c Hin. unfold minuteCandles in Hin.
    apply in_map_iff in Hin. destruct Hin as [i [<- _]]. reflexivity.
  - eexists. eexists.
    split; [vm_compute; reflexivity |].
    split; [reflexivity |].
    split; [vm_compute; reflexivity | float_differs].
Qed.

(* ===================================================================== *)
(** ** The latency gauge *)
(* ===================================================================== *)

(** The Coinbase handler clamps: whenever the ticker carries a date, the
    gauge it publishes is a number of milliseconds that is not negative. *)
Lemma coinbaseLatency_clamped (now serverTime : Z) (latency : Gauge) :
  exists ms, coinbaseLatency now (DateAt serverTime) latency = Millis ms
             /\ (0 <= ms)%Z.
Proof. exists (Z.max 0 (now - serverTime)). split; [reflexivity | lia]. Qed.

(** The Binance handler publishes the bare difference. *)
Lemma binanceLatency_difference (now e : Z) (latency : Gauge) :
  e <> 0%Z -> binanceLatency now (Some e) latency = Millis (now - e).
Proof.
  intros He. unfold binanceLatency.
  destruct (Z.eqb_spec e 0); [contradiction | reflexivity].
Qed.

(** C8 at a failing input.  A Binance message whose event time is 250 ms
    ahead of the local clock publishes a latency of -250, where the Coinbase
    handler publishes 0 for the same two times. *)
Theorem binanceLatency_not_clamped :
  binanceLatency 1700000000000 (Some 1700000000250%Z) (Millis 0)
  = Millis (-250)
  /\ coinbaseLatency 1700000000000 (DateAt 1700000000250) (Millis 0)
     = Millis 0.
Proof. split; reflexivity. Qed.

(* ===================================================================== *)
(** ** The start-up trigger *)
(* ===================================================================== *)

(** The start-up effect asks for an analysis exactly when no result has
    been produced yet and the window holds more than ten candles. *)
Lemma startupCondition_threshold (st : AppState) :
  startupCondition st = true
  <-> analysis st = None /\ 11 <= length (candleData st).
Proof.
  unfold startupCondition. destruct (analysis st) as [r |].
  - split; [discriminate | intros [H _]; discriminate].
  - rewrite Nat.ltb_lt. split; [intros H; split; [reflexivity | lia] |].
    intros [_ H]. lia.
Qed.

(** C5 at a failing input.  From the empty window, ten klines for ten
    consecutive minutes leave ten candles and no call at all: the start-up
    effect has not asked for [runAnalysis].  The eleventh kline makes it
    ask, and [runAnalysis] takes the guard and calls the collaborator. *)
Theorem startup_trigger_fires_at_eleven :
  (exists st,
      run (klineFeed 10) (initialState []) = Return (st, [])
      /\ length (candleData st) = 10
      /\ analysis st = None
      /\ startupCondition st = false)
  /\ (exists st current candles,
         run (klineFeed 11) (initialState [])
         = Return (st, [StartupCallsRunAnalysis;
                        CallAnalyzeMarketStrategy current candles []])
         /\ length (candleData st) = 11
         /\ analysisInProgressRef st = true).
Proof.
  split.
  - eexists. split; [vm_compute; reflexivity |]. repeat split.
  - eexists. eexists. eexists.
    split; [vm_compute; reflexivity |]. split; reflexivity.
Qed.

(* ===================================================================== *)
(** ** The single-flight guard *)
(* ===================================================================== *)

(** A call that finds the guard taken returns at once and changes nothing. *)
Lemma runAnalysis_guarded (st : AppState) :
  analysisInProgressRef st = true -> runAnalysis st = (st, []).
Proof. intros H. unfold runAnalysis. now rewrite H. Qed.

(** A call that finds the guard free and ten candles takes it and suspends
    on the collaborator. *)
Lemma runAnalysis_starts (st : AppState) :
  analysisInProgressRef st = false ->
  10 <= length (candleDataRef st) ->
  exists st1,
    runAnalysis st
    = (st1, [CallAnalyzeMarketStrategy (currentPriceRef st)
                                       (sliceLast 15 (candleDataRef st))
                                       (memoryStream st)])
    /\ analysisInProgressRef st1 = true
    /\ inFlight st1 = inFlight st ++ [AwaitAnalysis].
Proof.
  intros Hfree Hlen. unfold runAnalysis. rewrite Hfree.
  destruct (Nat.ltb_spec (length (candleDataRef st)) 10) as [Hlt | _];
    [lia |].
  cbn [orb]. eexists. split; [reflexivity |]. split; reflexivity.
Qed.

Lemma runAnalysis_singleFlight (st : AppState) :
  singleFlight st -> singleFlight (fst (runAnalysis st)).
Proof.
  intros Hsf. unfold runAnalysis.
  destruct (analysisInProgressRef st) eqn:Hg; cbn [orb]; [exact Hsf |].
  destruct (length (candleDataRef st) <? 10); [exact Hsf |].
  destruct Hsf as [[_ Hnone] | [Habs _]]; [| congruence].
  right. cbn. rewrite Hnone. split; [reflexivity | now exists AwaitAnalysis].
Qed.

Lemma commit_singleFlight (prevLength : nat) (st : AppState) :
  singleFlight st -> singleFlight (fst (commit prevLength st)).
Proof.
  intros Hsf. unfold commit.
  destruct (negb (prevLength =? length (candleData (syncRefs st)))
            && startupCondition (syncRefs st)).
  - pose proof (runAnalysis_singleFlight (syncRefs st) Hsf) as H.
    destruct (runAnalysis (syncRefs st)) as [st' calls]. exact H.
  - exact Hsf.
Qed.

Lemma awaiting_single (a b : Await) :
  awaiting a [b] = true -> b = a /\ removeFirst a [b] = [].
Proof. destruct a, b; cbn; intros H; (discriminate || now split). Qed.

Lemma resumeAfterAnalysis_singleFlight
      (outcome : completion MarketAnalysis) (st : AppState) :
  analysisInProgressRef st = true ->
  inFlight st = [AwaitAnalysis] ->
  singleFlight (fst (resumeAfterAnalysis outcome st)).
Proof.
  intros Hg Hfl. unfold resumeAfterAnalysis. rewrite Hfl. cbn [removeFirst].
  destruct outcome as [result | e]; cbn [fst].
  - right. unfold archiveLesson.
    destruct (worthArchiving result); cbn;
      (split; [exact Hg | now exists AwaitHotspots]).
  - left. now split.
Qed.

Lemma resumeAfterHotspots_released
      (outcome : completion Hotspots) (st : AppState) :
  analysisInProgressRef (resumeAfterHotspots outcome st) = false.
Proof. destruct outcome; reflexivity. Qed.

Lemma resumeAfterAnalysis_released (e : JsError) (st : AppState) :
  analysisInProgressRef (fst (resumeAfterAnalysis (Throw e) st)) = false
  /\ snd (resumeAfterAnalysis (Throw e) st) = [].
Proof. split; reflexivity. Qed.

(** Every event keeps the discipline, and no event makes a handler raise. *)
Lemma step_singleFlight (e : Event) (st : AppState) :
  singleFlight st ->
  exists st' calls, step e st = Return (st', calls) /\ singleFlight st'.
Proof.
  intros Hsf. destruct e as [ev | | | outcome | outcome]; cbn [step].
  - destruct (applyEvent_length ev (candleData st)) as [w [-> _]].
    cbn [bind].
    pose proof (commit_singleFlight
                  (length (candleData st))
                  (setCandleData w (setCurrentPrice (priceOf ev) st)) Hsf)
      as H.
    destruct (commit _ _) as [st' calls]. now exists st', calls.
  - pose proof (runAnalysis_singleFlight st Hsf) as H.
    destruct (runAnalysis st) as [st' calls]. now exists st', calls.
  - pose proof (runAnalysis_singleFlight st Hsf) as H.
    destruct (runAnalysis st) as [st' calls]. now exists st', calls.
  - destruct (awaiting AwaitAnalysis (inFlight st)) eqn:Haw;
      [| now exists st, []].
    destruct Hsf as [[_ Hnone] | [Hg [a Ha]]];
      [rewrite Hnone in Haw; discriminate |].
    rewrite Ha in Haw. destruct (awaiting_single _ _ Haw) as [-> _].
    pose proof (resumeAfterAnalysis_singleFlight outcome st Hg Ha) as H.
    destruct (resumeAfterAnalysis outcome st) as [st1 calls1].
    pose proof (commit_singleFlight (length (candleData st)) st1 H) as H'.
    destruct (commit _ st1) as [st2 calls2]. now exists st2, (calls1 ++ calls2).
  - destruct (awaiting AwaitHotspots (inFlight st)) eqn:Haw;
      [| now exists st, []].
    destruct Hsf as [[_ Hnone] | [Hg [a Ha]]];
      [rewrite Hnone in Haw; discriminate |].
    rewrite Ha in Haw. destruct (awaiting_single _ _ Haw) as [-> _].
    eexists. eexists. split; [reflexivity |].
    left. unfold resumeAfterHotspots. rewrite Ha.
    destruct outcome; now split.
Qed.

Lemma run_singleFlight (es : list Event) : forall st,
  singleFlight st ->
  exists st' calls, run es st = Return (st', calls) /\ singleFlight st'.
Proof.
  induction es as [| e es IH]; intros st Hsf; cbn [run].
  - now exists st, [].
  - destruct (step_singleFlight e st Hsf) as [st1 [calls1 [-> Hsf1]]].
    cbn [bind fst snd].
    destruct (IH st1 Hsf1) as [st2 [calls2 [-> Hsf2]]].
    cbn [bind fst snd]. now exists st2, (calls1 ++ calls2).
Qed.

(** While the guard is taken, a trigger or a feed message reaches no
    collaborator and leaves the guard, the result, the memory and the
    suspended invocation as they are. *)
Lemma step_while_pending (e : Event) (st : AppState) :
  analysisInProgressRef st = true ->
  isSettlement e = false ->
  exists st' calls,
    step e st = Return (st', calls)
    /\ existsb isCollaboratorCall calls = false
    /\ analysisInProgressRef st' = true
    /\ analysis st' = analysis st
    /\ memoryStream st' = memoryStream st
    /\ inFlight st' = inFlight st.
Proof.
  intros Hg Hset. destruct e as [ev | | | outcome | outcome];
    try discriminate; cbn [step].
  - destruct (applyEvent_length ev (candleData st)) as [w [-> _]].
    cbn [bind]. unfold commit.
    set (st1 := syncRefs (setCandleData w (setCurrentPrice (priceOf ev) st))).
    assert (Hg1 : analysisInProgressRef st1 = true) by exact Hg.
    destruct (negb (length (candleData st) =? length (candleData st1))
              && startupCondition st1).
    + rewrite (runAnalysis_guarded st1 Hg1).
      exists st1, [StartupCallsRunAnalysis]. now repeat split.
    + exists st1, []. now repeat split.
  - rewrite (runAnalysis_guarded st Hg). exists st, []. now repeat split.
  - rewrite (runAnalysis_guarded st Hg). exists st, []. now repeat split.
Qed.

Lemma run_while_pending (es : list Event) : forall st,
  analysisInProgressRef st = true ->
  existsb isSettlement es = false ->
  exists st' calls,
    run es st = Return (st', calls)
    /\ existsb isCollaboratorCall calls = false
    /\ analysisInProgressRef st' = true
    /\ analysis st' = analysis st
    /\ memoryStream st' = memoryStream st
    /\ inFlight st' = inFlight st.
Proof.
  induction es as [| e es IH]; intros st Hg Hes; cbn [run].
  - exists st, []. now repeat split.
  - cbn [existsb] in Hes. apply orb_false_iff in Hes. destruct Hes as [He Hes].
    destruct (step_while_pending e st Hg He)
      as [st1 [calls1 [-> [Hc1 [Hg1 [Ha1 [Hm1 Hf1]]]]]]].
    cbn [bind fst snd].
    destruct (IH st1 Hg1 Hes) as [st2 [calls2 [-> [Hc2 [Hg2 [Ha2 [Hm2 Hf2]]]]]]].
    cbn [bind fst snd]. exists st2, (calls1 ++ calls2).
    split; [reflexivity |]. split; [| repeat split; congruence].
    rewrite existsb_app, Hc1, Hc2. reflexivity.
Qed.

(** Runs compose. *)
Lemma run_cons_returns (e : Event) (es : list Event)
      (st st1 st2 : AppState) (calls1 calls2 : list Call) :
  step e st = Return (st1, calls1) ->
  run es st1 = Return (st2, calls2) ->
  run (e :: es) st = Return (st2, calls1 ++ calls2).
Proof. intros H1 H2. cbn [run]. rewrite H1. cbn [bind fst snd]. now rewrite H2. Qed.

Lemma run_app_returns (es1 es2 : list Event) : forall st st1 st2 calls1 calls2,
  run es1 st = Return (st1, calls1) ->
  run es2 st1 = Return (st2, calls2) ->
  run (es1 ++ es2) st = Return (st2, calls1 ++ calls2).
Proof.
  induction es1 as [| e es1 IH]; intros st st1 st2 calls1 calls2 H1 H2.
  - cbn in H1. injection H1 as <- <-. exact H2.
  - cbn [run] in H1. destruct (step e st) as [[sa ca] | err] eqn:He;
      [| discriminate].
    cbn [bind fst snd] in H1.
    destruct (run es1 sa) as [[sb cb] | err] eqn:Hr; [| discriminate].
    cbn [bind fst snd] in H1. injection H1 as <- <-.
    cbn [app]. rewrite <- app_assoc.
    apply run_cons_returns with (st1 := sa); [exact He |].
    now apply IH with (st1 := sb).
Qed.

Lemma filter_none {A : Type} (f : A -> bool) (l : list A) :
  existsb f l = false -> filter f l = [].
Proof.
  induction l as [| a l IH]; cbn; [reflexivity |].
  intros H. apply orb_false_iff in H. destruct H as [-> H]. now apply IH.
Qed.

(** The first [await] settles with a result: the result is stored, the
    hot-spot scan is requested, and the guard stays taken. *)
Lemma step_analysis_returned (result : MarketAnalysis) (st : AppState) :
  inFlight st = [AwaitAnalysis] ->
  exists st1,
    step (OnAnalysisSettled (Return result)) st
    = Return (st1, [CallFetchMarketHotspots])
    /\ analysis st1 = Some result
    /\ analysisInProgressRef st1 = analysisInProgressRef st
    /\ inFlight st1 = [AwaitHotspots].
Proof.
  intros Hfl. cbn [step]. rewrite Hfl. cbn [awaiting existsb orb].
  unfold resumeAfterAnalysis. rewrite Hfl. cbn [removeFirst].
  unfold commit, startupCondition, archiveLesson.
  destruct (worthArchiving result); cbn; rewrite andb_false_r;
    eexists; (split; [reflexivity |]); now repeat split.
Qed.

(** The first [await] settles with an exception: nothing is stored, nothing
    is requested, and the [finally] block releases the guard. *)
Lemma step_analysis_failed (e : JsError) (st : AppState) :
  inFlight st = [AwaitAnalysis] ->
  exists st1,
    step (OnAnalysisSettled (Throw e)) st = Return (st1, [])
    /\ analysis st1 = analysis st
    /\ analysisInProgressRef st1 = false
    /\ inFlight st1 = [].
Proof.
  intros Hfl. cbn [step]. rewrite Hfl. cbn [awaiting existsb orb].
  unfold resumeAfterAnalysis. rewrite Hfl. cbn [removeFirst].
  unfold commit. cbn. rewrite Nat.eqb_refl. cbn.
  eexists. split; [reflexivity |]. now repeat split.
Qed.

(** The second [await] settles, either way: the [finally] block releases
    the guard, and the stored result stays. *)
Lemma step_hotspots_settled (outcome : completion Hotspots) (st : AppState) :
  inFlight st = [AwaitHotspots] ->
  exists st1,
    step (OnHotspotsSettled outcome) st = Return (st1, [])
    /\ analysis st1 = analysis st
    /\ analysisInProgressRef st1 = false
    /\ inFlight st1 = [].
Proof.
  intros Hfl. cbn [step]. rewrite Hfl. cbn [awaiting existsb orb].
  unfold resumeAfterHotspots. rewrite Hfl. cbn [removeFirst].
  eexists. split; [reflexivity |]. destruct outcome; now repeat split.
Qed.

(** A window of ten candles or more never falls below ten. *)
Lemma stampSignal_length (result : MarketAnalysis) (w : list CandleData) :
  length (stampSignal result w) = length w.
Proof.
  unfold stampSignal.
  destruct (snoc_cases w) as [-> | [b [l ->]]]; [reflexivity |].
  rewrite lastOf_snoc. destruct (classify (sentiment result)); [| reflexivity].
  now rewrite setLast_snoc, !length_app.
Qed.

Lemma applyEvent_at_least_ten (ev : FeedEvent) (w : list CandleData) :
  10 <= length w ->
  exists w', applyEvent ev w = Return w' /\ 10 <= length w'.
Proof.
  intros Hw.
  destruct (applyEvent_core ev w) as [w' [Hw' Hcore]].
  exists w'. split; [exact Hw' |].
  rewrite (core_length _ _ Hcore), enforceMaxCandles_length.
  destruct (place_ends ev w) as [b [x [Hp [_ Hb]]]].
  rewrite Hp, length_app. cbn [length]. unfold MAX_CANDLES.
  destruct Hb as [-> | [l [-> _]]]; [lia |].
  rewrite length_app in Hw. cbn [length] in Hw. lia.
Qed.

Lemma runAnalysis_keeps_windows (st : AppState) :
  candleData (fst (runAnalysis st)) = candleData st
  /\ candleDataRef (fst (runAnalysis st)) = candleDataRef st.
Proof.
  unfold runAnalysis.
  destruct (analysisInProgressRef st || (length (candleDataRef st) <? 10));
    now split.
Qed.

Lemma runAnalysis_keeps_analysis (st : AppState) :
  analysis (fst (runAnalysis st)) = analysis st.
Proof.
  unfold runAnalysis.
  destruct (analysisInProgressRef st || (length (candleDataRef st) <? 10));
    reflexivity.
Qed.

Lemma commit_syncs_windows (prevLength : nat) (st : AppState) :
  candleData (fst (commit prevLength st)) = candleData st
  /\ candleDataRef (fst (commit prevLength st)) = candleData st.
Proof.
  unfold commit.
  destruct (negb (prevLength =? length (candleData (syncRefs st)))
            && startupCondition (syncRefs st)); [| now split].
  pose proof (runAnalysis_keeps_windows (syncRefs st)) as H.
  destruct (runAnalysis (syncRefs st)) as [st' calls]. exact H.
Qed.

Lemma step_keeps_ten (e : Event) (st : AppState) :
  10 <= length (candleData st) ->
  10 <= length (candleDataRef st) ->
  exists st' calls,
    step e st = Return (st', calls)
    /\ 10 <= length (candleData st')
    /\ 10 <= length (candleDataRef st').
Proof.
  intros Hc Hr. destruct e as [ev | | | outcome | outcome]; cbn [step].
  - destruct (applyEvent_at_least_ten ev (candleData st) Hc) as [w [-> Hw]].
    cbn [bind].
    pose proof (commit_syncs_windows
                  (length (candleData st))
                  (setCandleData w (setCurrentPrice (priceOf ev) st)))
      as [H1 H2].
    destruct (commit _ _) as [st' calls]. exists st', calls.
    cbn [fst] in H1, H2. rewrite H1, H2. now repeat split.
  - pose proof (runAnalysis_keeps_windows st) as [H1 H2].
    destruct (runAnalysis st) as [st' calls]. exists st', calls.
    cbn [fst] in H1, H2. rewrite H1, H2. now repeat split.
  - pose proof (runAnalysis_keeps_windows st) as [H1 H2].
    destruct (runAnalysis st) as [st' calls]. exists st', calls.
    cbn [fst] in H1, H2. rewrite H1, H2. now repeat split.
  - destruct (awaiting AwaitAnalysis (inFlight st));
      [| now exists st, []].
    assert (Hres : length (candleData (fst (resumeAfterAnalysis outcome st)))
                   = length (candleData st)).
    { unfold resumeAfterAnalysis. destruct outcome as [result | err];
        [| reflexivity].
      unfold archiveLesson. destruct (worthArchiving result); cbn;
        apply stampSignal_length. }
    destruct (resumeAfterAnalysis outcome st) as [st1 calls1].
    cbn [fst] in Hres.
    pose proof (commit_syncs_windows (length (candleData st)) st1) as [H1 H2].
    destruct (commit _ st1) as [st2 calls2]. exists st2, (calls1 ++ calls2).
    cbn [fst] in H1, H2. rewrite H1, H2, Hres. now repeat split.
  - destruct (awaiting AwaitHotspots (inFlight st));
      [| now exists st, []].
    eexists. eexists. split; [reflexivity |].
    destruct outcome; now split.
Qed.

Lemma run_keeps_ten (es : list Event) : forall st,
  10 <= length (candleData st) ->
  10 <= length (candleDataRef st) ->
  exists st' calls,
    run es st = Return (st', calls)
    /\ 10 <= length (candleData st')
    /\ 10 <= length (candleDataRef st').
Proof.
  induction es as [| e es IH]; intros st Hc Hr.
  - now exists st, [].
  - destruct (step_keeps_ten e st Hc Hr) as [st1 [calls1 [H1 [Hc1 Hr1]]]].
    destruct (IH st1 Hc1 Hr1) as [st2 [calls2 [H2 [Hc2 Hr2]]]].
    exists st2, (calls1 ++ calls2).
    split; [now apply run_cons_returns with (st1 := st1) | now split].
Qed.

(** A whole cycle.  A trigger finds the guard free: one analysis request
    leaves.  Whatever triggers and feed messages arrive while it is pending,
    it settles with an exception (nothing is stored, the guard is released)
    or with a result: the result is stored, one hot-spot request leaves and,
    whatever arrives before that request settles and however it settles,
    the guard is released. *)
Lemma cycle_that_fails
      (trigger : Event) (mid : list Event) (e : JsError) (st : AppState) :
  isTrigger trigger = true ->
  analysisInProgressRef st = false ->
  inFlight st = [] ->
  10 <= length (candleDataRef st) ->
  existsb isSettlement mid = false ->
  exists st' calls,
    run (trigger :: mid ++ [OnAnalysisSettled (Throw e)]) st
    = Return (st', calls)
    /\ filter isCollaboratorCall calls
       = [CallAnalyzeMarketStrategy (currentPriceRef st)
                                    (sliceLast 15 (candleDataRef st))
                                    (memoryStream st)]
    /\ analysis st' = analysis st
    /\ analysisInProgressRef st' = false
    /\ inFlight st' = [].
Proof.
  intros Ht Hfree Hnone Hlen Hmid.
  destruct (runAnalysis_starts st Hfree Hlen) as [st1 [H1 [Hg1 Hf1]]].
  rewrite Hnone in Hf1. cbn [app] in Hf1.
  assert (Ha1 : analysis st1 = analysis st).
  { pose proof (runAnalysis_keeps_analysis st) as H. now rewrite H1 in H. }
  assert (Hs1 : step trigger st = Return (st1, [CallAnalyzeMarketStrategy
                                                  (currentPriceRef st)
                                                  (sliceLast 15 (candleDataRef st))
                                                  (memoryStream st)])).
  { destruct trigger; try discriminate; cbn [step]; now rewrite H1. }
  destruct (run_while_pending mid st1 Hg1 Hmid)
    as [st2 [calls2 [H2 [Hc2 [Hg2 [Ha2 [_ Hf2]]]]]]].
  rewrite Hf1 in Hf2.
  destruct (step_analysis_failed e st2 Hf2) as [st3 [H3 [Ha3 [Hg3 Hf3]]]].
  exists st3, ([CallAnalyzeMarketStrategy (currentPriceRef st)
                                          (sliceLast 15 (candleDataRef st))
                                          (memoryStream st)]
               ++ calls2 ++ [] ++ []).
  split.
  - apply run_cons_returns with (st1 := st1); [exact Hs1 |].
    apply run_app_returns with (st1 := st2); [exact H2 |].
    apply run_cons_returns with (st1 := st3); [exact H3 | reflexivity].
  - split; [| repeat split; congruence].
    rewrite !filter_app, (filter_none _ _ Hc2). reflexivity.
Qed.

Lemma cycle_that_returns
      (trigger : Event) (mid1 mid2 : list Event) (result : MarketAnalysis)
      (outcome : completion Hotspots) (st : AppState) :
  isTrigger trigger = true ->
  analysisInProgressRef st = false ->
  inFlight st = [] ->
  10 <= length (candleDataRef st) ->
  existsb isSettlement mid1 = false ->
  existsb isSettlement mid2 = false ->
  exists st' calls,
    run (trigger :: mid1 ++ OnAnalysisSettled (Return result)
                 :: mid2 ++ [OnHotspotsSettled outcome]) st
    = Return (st', calls)
    /\ filter isCollaboratorCall calls
       = [CallAnalyzeMarketStrategy (currentPriceRef st)
                                    (sliceLast 15 (candleDataRef st))
                                    (memoryStream st);
          CallFetchMarketHotspots]
    /\ analysis st' = Some result
    /\ analysisInProgressRef st' = false
    /\ inFlight st' = [].
Proof.
  intros Ht Hfree Hnone Hlen Hmid1 Hmid2.
  destruct (runAnalysis_starts st Hfree Hlen) as [st1 [H1 [Hg1 Hf1]]].
  rewrite Hnone in Hf1. cbn [app] in Hf1.
  assert (Hs1 : step trigger st = Return (st1, [CallAnalyzeMarketStrategy
                                                  (currentPriceRef st)
                                                  (sliceLast 15 (candleDataRef st))
                                                  (memoryStream st)])).
  { destruct trigger; try discriminate; cbn [step]; now rewrite H1. }
  destruct (run_while_pending mid1 st1 Hg1 Hmid1)
    as [st2 [calls2 [H2 [Hc2 [Hg2 [_ [_ Hf2]]]]]]].
  rewrite Hf1 in Hf2.
  destruct (step_analysis_returned result st2 Hf2)
    as [st3 [H3 [Ha3 [Hg3 Hf3]]]].
  rewrite Hg2 in Hg3.
  destruct (run_while_pending mid2 st3 Hg3 Hmid2)
    as [st4 [calls4 [H4 [Hc4 [Hg4 [Ha4 [_ Hf4]]]]]]].
  rewrite Hf3 in Hf4.
  destruct (step_hotspots_settled outcome st4 Hf4)
    as [st5 [H5 [Ha5 [Hg5 Hf5]]]].
  exists st5, ([CallAnalyzeMarketStrategy (currentPriceRef st)
                                          (sliceLast 15 (candleDataRef st))
                                          (memoryStream st)]
               ++ calls2 ++ [CallFetchMarketHotspots]
               ++ calls4 ++ [] ++ []).
  split.
  - apply run_cons_returns with (st1 := st1); [exact Hs1 |].
    apply run_app_returns with (st1 := st2); [exact H2 |].
    apply run_cons_returns with (st1 := st3); [exact H3 |].
    apply run_app_returns with (st1 := st4); [exact H4 |].
    apply run_cons_returns with (st1 := st5); [exact H5 | reflexivity].
  - split; [| repeat split; congruence].
    rewrite !filter_app, (filter_none _ _ Hc2), (filter_none _ _ Hc4).
    reflexivity.
Qed.

(** C6.  A [runAnalysis] call issued while a cycle is pending returns at
    the guard: no state changes and no collaborator is called, whatever
    triggers and feed messages arrive before the pending cycle settles.
    A whole cycle, from a trigger that finds the guard free, therefore makes
    exactly one analysis request, however many triggers follow the first;
    when the analysis returns, that one result is stored, exactly one
    hot-spot request follows, and the guard is released once that request
    settles, either way; when the analysis fails, nothing is stored and the
    guard is released at once.  After either cycle the next trigger finds
    the guard free and starts a new cycle.  Along every run at most one
    invocation is suspended. *)
Theorem runAnalysis_single_flight (st : AppState) (es : list Event) :
  (analysisInProgressRef st = true -> runAnalysis st = (st, []))
  /\ (analysisInProgressRef st = true ->
      existsb isSettlement es = false ->
      exists st' calls,
        run es st = Return (st', calls)
        /\ existsb isCollaboratorCall calls = false
        /\ analysisInProgressRef st' = true
        /\ analysis st' = analysis st
        /\ memoryStream st' = memoryStream st
        /\ inFlight st' = inFlight st)
  /\ (analysisInProgressRef st = false ->
      10 <= length (candleDataRef st) ->
      exists st1,
        runAnalysis st
        = (st1, [CallAnalyzeMarketStrategy (currentPriceRef st)
                                           (sliceLast 15 (candleDataRef st))
                                           (memoryStream st)])
        /\ analysisInProgressRef st1 = true
        /\ runAnalysis st1 = (st1, []))
  /\ (forall e,
         analysisInProgressRef (fst (resumeAfterAnalysis (Throw e) st)) = false
         /\ snd (resumeAfterAnalysis (Throw e) st) = [])
  /\ (forall outcome,
         analysisInProgressRef (resumeAfterHotspots outcome st) = false)
  /\ (singleFlight st ->
      exists st' calls, run es st = Return (st', calls) /\ singleFlight st')
  /\ (forall trigger mid1 mid2 result outcome,
         isTrigger trigger = true ->
         analysisInProgressRef st = false ->
         inFlight st = [] ->
         10 <= length (candleData st) ->
         10 <= length (candleDataRef st) ->
         existsb isSettlement mid1 = false ->
         existsb isSettlement mid2 = false ->
         exists st' calls,
           run (trigger :: mid1 ++ OnAnalysisSettled (Return result)
                        :: mid2 ++ [OnHotspotsSettled outcome]) st
           = Return (st', calls)
           /\ filter isCollaboratorCall calls
              = [CallAnalyzeMarketStrategy (currentPriceRef st)
                                           (sliceLast 15 (candleDataRef st))
                                           (memoryStream st);
                 CallFetchMarketHotspots]
           /\ analysis st' = Some result
           /\ analysisInProgressRef st' = false
           /\ inFlight st' = []
           /\ exists st2,
               runAnalysis st'
               = (st2, [CallAnalyzeMarketStrategy
                          (currentPriceRef st')
                          (sliceLast 15 (candleDataRef st'))
                          (memoryStream st')]))
  /\ (forall trigger mid e,
         isTrigger trigger = true ->
         analysisInProgressRef st = false ->
         inFlight st = [] ->
         10 <= length (candleData st) ->
         10 <= length (candleDataRef st) ->
         existsb isSettlement mid = false ->
         exists st' calls,
           run (trigger :: mid ++ [OnAnalysisSettled (Throw e)]) st
           = Return (st', calls)
           /\ filter isCollaboratorCall calls
              = [CallAnalyzeMarketStrategy (currentPriceRef st)
                                           (sliceLast 15 (candleDataRef st))
                                           (memoryStream st)]
           /\ analysis st' = analysis st
           /\ analysisInProgressRef st' = false
           /\ inFlight st' = []
           /\ exists st2,
               runAnalysis st'
               = (st2, [CallAnalyzeMarketStrategy
                          (currentPriceRef st')
                          (sliceLast 15 (candleDataRef st'))
                          (memoryStream st')])).
Proof.
  split; [apply runAnalysis_guarded |].
  split; [apply run_while_pending |].
  split.
  { intros Hfree Hlen.
    destruct (runAnalysis_starts st Hfree Hlen) as [st1 [H1 [H2 _]]].
    exists st1. split; [exact H1 |]. split; [exact H2 |].
    now apply runAnalysis_guarded. }
  split; [intros e; apply resumeAfterAnalysis_released |].
  split; [intros outcome; apply resumeAfterHotspots_released |].
  split; [apply run_singleFlight |].
  split.
  - intros trigger mid1 mid2 result outcome Ht Hfree Hnone Hc Hr Hm1 Hm2.
    destruct (cycle_that_returns trigger mid1 mid2 result outcome st
                                 Ht Hfree Hnone Hr Hm1 Hm2)
      as [st' [calls [Hrun [Hcalls [Ha [Hg Hf]]]]]].
    destruct (run_keeps_ten
                (trigger :: mid1 ++ OnAnalysisSettled (Return result)
                         :: mid2 ++ [OnHotspotsSettled outcome]) st Hc Hr)
      as [st'' [calls'' [Hrun' [_ Hr']]]].
    assert (Hsame : st'' = st') by congruence. subst st''.
    destruct (runAnalysis_starts st' Hg Hr') as [st2 [H2 _]].
    exists st', calls. repeat (split; [assumption |]). now exists st2.
  - intros trigger mid e Ht Hfree Hnone Hc Hr Hm.
    destruct (cycle_that_fails trigger mid e st Ht Hfree Hnone Hr Hm)
      as [st' [calls [Hrun [Hcalls [Ha [Hg Hf]]]]]].
    destruct (run_keeps_ten
                (trigger :: mid ++ [OnAnalysisSettled (Throw e)]) st Hc Hr)
      as [st'' [calls'' [Hrun' [_ Hr']]]].
    assert (Hsame : st'' = st') by congruence. subst st''.
    destruct (runAnalysis_starts st' Hg Hr') as [st2 [H2 _]].
    exists st', calls. repeat (split; [assumption |]). now exists st2.
Qed.

Lemma runAnalysis_single_flight_witness :
  analysisInProgressRef pendingState = true
  /\ existsb isSettlement
             [OnClick; OnTimer; OnFeed (Kline (flatCandle 600000 (num 101)))]
     = false
  /\ analysisInProgressRef tenCandleState = false
  /\ 10 <= length (candleDataRef tenCandleState)
  /\ singleFlight tenCandleState
  /\ isTrigger OnClick = true
  /\ inFlight tenCandleState = []
  /\ 10 <= length (candleData tenCandleState)
  /\ existsb isSettlement [OnTimer] = false
  /\ runAnalysis pendingState = (pendingState, [])
  /\ (exists st' calls,
         run [OnClick; OnTimer; OnFeed (Kline (flatCandle 600000 (num 101)))]
             pendingState = Return (st', calls)
         /\ existsb isCollaboratorCall calls = false
         /\ analysisInProgressRef st' = true
         /\ analysis st' = analysis pendingState
         /\ memoryStream st' = memoryStream pendingState
         /\ inFlight st' = inFlight pendingState)
  /\ (exists st1,
         runAnalysis tenCandleState
         = (st1, [CallAnalyzeMarketStrategy
                    (currentPriceRef tenCandleState)
                    (sliceLast 15 (candleDataRef tenCandleState))
                    (memoryStream tenCandleState)])
         /\ analysisInProgressRef st1 = true
         /\ runAnalysis st1 = (st1, []))
  /\ (exists st' calls,
         run [OnClick; OnClick;
              OnAnalysisSettled (Return (connectionFallback 0));
              OnTimer;
              OnHotspotsSettled (Throw NetworkError);
              OnClick]
             tenCandleState = Return (st', calls)
         /\ singleFlight st')
  /\ (exists st' calls,
         run (OnClick
              :: [OnClick; OnTimer;
                  OnFeed (Kline (flatCandle 600000 (num 101)))]
              ++ OnAnalysisSettled
                   (Return (mkAnalysis "看涨 (BULLISH)" "观察" "观察" "观察"
                                       "量价背离时减仓" 0))
              :: [OnTimer] ++ [OnHotspotsSettled (Throw NetworkError)])
             tenCandleState = Return (st', calls)
         /\ filter isCollaboratorCall calls
            = [CallAnalyzeMarketStrategy
                 (currentPriceRef tenCandleState)
                 (sliceLast 15 (candleDataRef tenCandleState))
                 (memoryStream tenCandleState);
               CallFetchMarketHotspots]
         /\ analysis st'
            = Some (mkAnalysis "看涨 (BULLISH)" "观察" "观察" "观察"
                               "量价背离时减仓" 0)
         /\ analysisInProgressRef st' = false
         /\ inFlight st' = []
         /\ exists st2,
             runAnalysis st'
             = (st2, [CallAnalyzeMarketStrategy
                        (currentPriceRef st')
                        (sliceLast 15 (candleDataRef st'))
                        (memoryStream st')]))
  /\ (exists st' calls,
         run (OnClick :: [OnTimer] ++ [OnAnalysisSettled (Throw NetworkError)])
             tenCandleState = Return (st', calls)
         /\ filter isCollaboratorCall calls
            = [CallAnalyzeMarketStrategy
                 (currentPriceRef tenCandleState)
                 (sliceLast 15 (candleDataRef tenCandleState))
                 (memoryStream tenCandleState)]
         /\ analysis st' = analysis tenCandleState
         /\ analysisInProgressRef st' = false
         /\ inFlight st' = []
         /\ exists st2,
             runAnalysis st'
             = (st2, [CallAnalyzeMarketStrategy
                        (currentPriceRef st')
                        (sliceLast 15 (candleDataRef st'))
                        (memoryStream st')])).
Proof.
  assert (H1 : analysisInProgressRef pendingState = true) by reflexivity.
  assert (H2 : existsb isSettlement
                       [OnClick; OnTimer;
                        OnFeed (Kline (flatCandle 600000 (num 101)))]
               = false) by reflexivity.
  assert (H3 : analysisInProgressRef tenCandleState = false) by reflexivity.
  assert (H4 : 10 <= length (candleDataRef tenCandleState))
    by (vm_compute; lia).
  assert (H5 : singleFlight tenCandleState) by (left; split; reflexivity).
  assert (H6 : isTrigger OnClick = true) by reflexivity.
  assert (H7 : inFlight tenCandleState = []) by reflexivity.
  assert (H8 : 10 <= length (candleData tenCandleState))
    by (vm_compute; lia).
  assert (H9 : existsb isSettlement [OnTimer] = false) by reflexivity.
  destruct (runAnalysis_single_flight
              pendingState
              [OnClick; OnTimer; OnFeed (Kline (flatCandle 600000 (num 101)))])
    as [A [B _]].
  destruct (runAnalysis_single_flight
              tenCandleState
              [OnClick; OnClick;
               OnAnalysisSettled (Return (connectionFallback 0));
               OnTimer;
               OnHotspotsSettled (Throw NetworkError);
               OnClick])
    as [_ [_ [C [_ [_ [D [E F]]]]]]].
  repeat (split; [assumption |]).
  split; [exact (A H1) |]. split; [exact (B H1 H2) |].
  split; [exact (C H3 H4) |]. split; [exact (D H5) |].
  split.
  - exact (E OnClick
             [OnClick; OnTimer; OnFeed (Kline (flatCandle 600000 (num 101)))]
             [OnTimer]
             (mkAnalysis "看涨 (BULLISH)" "观察" "观察" "观察"
                         "量价背离时减仓" 0)
             (Throw NetworkError) H6 H3 H7 H8 H4 H2 H9).
  - exact (F OnClick [OnTimer] NetworkError H6 H3 H7 H8 H4 H9).
Defined.

(** One trigger, a second trigger while the first is pending, then the two
    settlements: one analysis call and one hot-spot call leave the
    component, and the guard ends up free. *)
Lemma one_cycle_for_two_triggers :
  exists st',
    run [OnClick; OnTimer;
         OnAnalysisSettled (Return (parseFallback 0));
         OnHotspotsSettled (Return (mkHotspots "" []))]
        tenCandleState
    = Return (st', [CallAnalyzeMarketStrategy
                      (currentPriceRef tenCandleState)
                      (sliceLast 15 (candleDataRef tenCandleState)) [];
                    CallFetchMarketHotspots])
    /\ analysis st' = Some (parseFallback 0)
    /\ analysisInProgressRef st' = false
    /\ inFlight st' = [].
Proof.
  eexists. split; [vm_compute; reflexivity |]. repeat split.
Qed.

(* ===================================================================== *)
(** ** The collaborator wrapper *)
(* ===================================================================== *)

Lemma analyzeMarketStrategy_rejected
      (JSON_parse : string -> completion JsonValue)
      (generateContent : Prompt -> GenerateOutcome)
      (now : Z) (price : float) (trend : string) (memory : list string)
      (e : JsError) :
  generateContent (mkPrompt price trend (memoryContext memory)) = Rejected e ->
  analyzeMarketStrategy JSON_parse generateContent now price trend memory
  = Return (connectionFallback now).
Proof.
  intros H. unfold analyzeMarketStrategy, awaitGenerate.
  rewrite H. reflexivity.
Qed.

Lemma analyzeMarketStrategy_unparsable
      (JSON_parse : string -> completion JsonValue)
      (generateContent : Prompt -> GenerateOutcome)
      (now : Z) (price : float) (trend : string) (memory : list string)
      (text_ : option string) (e : JsError) :
  generateContent (mkPrompt price trend (memoryContext memory))
  = Fulfilled text_ ->
  JSON_parse (cleanJsonString (orElse text_ "{}")) = Throw e ->
  analyzeMarketStrategy JSON_parse generateContent now price trend memory
  = Return (parseFallback now).
Proof.
  intros Hg Hp. unfold analyzeMarketStrategy, awaitGenerate.
  rewrite Hg. cbn [bind]. rewrite Hp. reflexivity.
Qed.

(** What a parsed answer yields: the connection fallback on [null] (the
    property read raises inside the outer [try]), and otherwise the five
    fields with their defaults. *)
Lemma analyzeMarketStrategy_parsed
      (JSON_parse : string -> completion JsonValue)
      (generateContent : Prompt -> GenerateOutcome)
      (now : Z) (price : float) (trend : string) (memory : list string)
      (text_ : option string) (v : JsonValue) :
  generateContent (mkPrompt price trend (memoryContext memory))
  = Fulfilled text_ ->
  JSON_parse (cleanJsonString (orElse text_ "{}")) = Return v ->
  analyzeMarketStrategy JSON_parse generateContent now price trend memory
  = Return match v with
           | JsonNull => connectionFallback now
           | JsonObject props =>
               mkAnalysis (orElse (props "sentiment"%string) "中性 (NEUTRAL)")
                          (orElse (props "entryPoint"%string) "观察")
                          (orElse (props "exitPoint"%string) "观察")
                          (orElse (props "reasoning"%string)
                                  "市场波动异常，建议保持观望。")
                          (orElse (props "learningNode"%string)
                                  "数据积累中...")
                          now
           | JsonOther =>
               mkAnalysis "中性 (NEUTRAL)" "观察" "观察"
                          "市场波动异常，建议保持观望。" "数据积累中..." now
           end.
Proof.
  intros Hg Hp. unfold analyzeMarketStrategy, awaitGenerate.
  rewrite Hg. cbn [bind]. rewrite Hp.
  destruct v; reflexivity.
Qed.

Lemma analyzeMarketStrategy_returns
      (JSON_parse : string -> completion JsonValue)
      (generateContent : Prompt -> GenerateOutcome)
      (now : Z) (price : float) (trend : string) (memory : list string) :
  exists r,
    analyzeMarketStrategy JSON_parse generateContent now price trend memory
    = Return r.
Proof.
  destruct (generateContent (mkPrompt price trend (memoryContext memory)))
    as [e | text_] eqn:Hg.
  - eexists. eapply analyzeMarketStrategy_rejected; eassumption.
  - destruct (JSON_parse (cleanJsonString (orElse text_ "{}")))
      as [v | e] eqn:Hp.
    + eexists. eapply analyzeMarketStrategy_parsed; eassumption.
    + eexists. eapply analyzeMarketStrategy_unparsable; eassumption.
Qed.

(** C7.  [analyzeMarketStrategy] always returns a result, whatever the
    endpoint and the parser do.  When the request is rejected, the result is
    the connection fallback, whose sentiment is the signal-interference text
    and whose reasoning announces the retry.  When the endpoint answers and
    the cleaned answer is not JSON, the result is the parse fallback, whose
    sentiment is the neutral text.  The two fallbacks differ. *)
Theorem analyzeMarketStrategy_recovers
        (JSON_parse : string -> completion JsonValue)
        (generateContent : Prompt -> GenerateOutcome)
        (now : Z) (price : float) (trend : string) (memory : list string) :
  (exists r,
      analyzeMarketStrategy JSON_parse generateContent now price trend memory
      = Return r)
  /\ (forall e,
         generateContent (mkPrompt price trend (memoryContext memory))
         = Rejected e ->
         analyzeMarketStrategy JSON_parse generateContent now price trend
                               memory
         = Return (connectionFallback now))
  /\ (forall text_ e,
         generateContent (mkPrompt price trend (memoryContext memory))
         = Fulfilled text_ ->
         JSON_parse (cleanJsonString (orElse text_ "{}")) = Throw e ->
         analyzeMarketStrategy JSON_parse generateContent now price trend
                               memory
         = Return (parseFallback now))
  /\ sentiment (connectionFallback now) = "信号干扰"%string
  /\ reasoning (connectionFallback now)
     = "无法连接至神经网络核心，正在重试链路。"%string
  /\ sentiment (parseFallback now) = "中性 (NEUTRAL)"%string
  /\ sentiment (connectionFallback now) <> sentiment (parseFallback now).
Proof.
  split; [apply analyzeMarketStrategy_returns |].
  split; [intros e; apply analyzeMarketStrategy_rejected |].
  split; [intros text_ e; apply analyzeMarketStrategy_unparsable |].
  repeat split. cbn. discriminate.
Qed.

Lemma analyzeMarketStrategy_recovers_witness :
  unreachable (mkPrompt (num 50000) "" (memoryContext [])) = Rejected NetworkError
  /\ answersProse (mkPrompt (num 50000) "" (memoryContext []))
     = Fulfilled (Some "BTC looks strong today."%string)
  /\ parseBraces (cleanJsonString
                    (orElse (Some "BTC looks strong today."%string) "{}"))
     = Throw SyntaxError
  /\ analyzeMarketStrategy parseBraces unreachable 1700000000000
                           (num 50000) "" []
     = Return (connectionFallback 1700000000000)
  /\ analyzeMarketStrategy parseBraces answersProse 1700000000000
                           (num 50000) "" []
     = Return (parseFallback 1700000000000).
Proof.
  assert (H1 : unreachable (mkPrompt (num 50000) "" (memoryContext []))
               = Rejected NetworkError) by reflexivity.
  assert (H2 : answersProse (mkPrompt (num 50000) "" (memoryContext []))
               = Fulfilled (Some "BTC looks strong today."%string))
    by reflexivity.
  assert (H3 : parseBraces
                 (cleanJsonString
                    (orElse (Some "BTC looks strong today."%string) "{}"))
               = Throw SyntaxError) by (vm_compute; reflexivity).
  destruct (analyzeMarketStrategy_recovers
              parseBraces unreachable 1700000000000 (num 50000) "" [])
    as [_ [A _]].
  destruct (analyzeMarketStrategy_recovers
              parseBraces answersProse 1700000000000 (num 50000) "" [])
    as [_ [_ [B _]]].
  repeat (split; [assumption |]).
  split; [exact (A _ H1) | exact (B _ _ H2 H3)].
Defined.

(* ===================================================================== *)
(** ** The memory stream and the fallbacks *)
(* ===================================================================== *)

Lemma archiveLesson_skipped (result : MarketAnalysis) (st : AppState) :
  worthArchiving result = false -> archiveLesson result st = st.
Proof. intros H. unfold archiveLesson. now rewrite H. Qed.

Lemma runAnalysis_memoryStream (st : AppState) :
  memoryStream (fst (runAnalysis st)) = memoryStream st.
Proof.
  unfold runAnalysis.
  destruct (analysisInProgressRef st || (length (candleDataRef st) <? 10));
    reflexivity.
Qed.

Lemma commit_memoryStream (prevLength : nat) (st : AppState) :
  memoryStream (fst (commit prevLength st)) = memoryStream st.
Proof.
  unfold commit.
  destruct (negb (prevLength =? length (candleData (syncRefs st)))
            && startupCondition (syncRefs st)); [| reflexivity].
  pose proof (runAnalysis_memoryStream (syncRefs st)) as H.
  destruct (runAnalysis (syncRefs st)) as [st' calls]. exact H.
Qed.

Lemma resumeAfterAnalysis_memoryStream
      (outcome : completion MarketAnalysis) (st : AppState) :
  match outcome with
  | Return result => worthArchiving result = false
  | Throw _ => True
  end ->
  memoryStream (fst (resumeAfterAnalysis outcome st)) = memoryStream st.
Proof.
  intros H. unfold resumeAfterAnalysis. destruct outcome as [result | e].
  - rewrite (archiveLesson_skipped _ _ H). reflexivity.
  - reflexivity.
Qed.

(** Only a settled analysis whose lesson is worth archiving changes the
    memory stream. *)
Lemma step_memoryStream (e : Event) (st : AppState) :
  archives e = false ->
  exists st' calls,
    step e st = Return (st', calls) /\ memoryStream st' = memoryStream st.
Proof.
  intros Ha. destruct e as [ev | | | outcome | outcome]; cbn [step].
  - destruct (applyEvent_length ev (candleData st)) as [w [-> _]].
    cbn [bind].
    pose proof (commit_memoryStream
                  (length (candleData st))
                  (setCandleData w (setCurrentPrice (priceOf ev) st))) as H.
    destruct (commit _ _) as [st' calls]. now exists st', calls.
  - pose proof (runAnalysis_memoryStream st) as H.
    destruct (runAnalysis st) as [st' calls]. now exists st', calls.
  - pose proof (runAnalysis_memoryStream st) as H.
    destruct (runAnalysis st) as [st' calls]. now exists st', calls.
  - destruct (awaiting AwaitAnalysis (inFlight st)); [| now exists st, []].
    assert (Ho : match outcome with
                 | Return result => worthArchiving result = false
                 | Throw _ => True
                 end) by (destruct outcome; [exact Ha | exact I]).
    pose proof (resumeAfterAnalysis_memoryStream outcome st Ho) as H1.
    destruct (resumeAfterAnalysis outcome st) as [st1 calls1].
    pose proof (commit_memoryStream (length (candleData st)) st1) as H2.
    destruct (commit _ st1) as [st2 calls2].
    exists st2, (calls1 ++ calls2). split; [reflexivity |].
    cbn [fst] in H1, H2. congruence.
  - destruct (awaiting AwaitHotspots (inFlight st)); [| now exists st, []].
    eexists. eexists. split; [reflexivity |]. destruct outcome; reflexivity.
Qed.

Lemma run_memoryStream (es : list Event) : forall st,
  existsb archives es = false ->
  exists st' calls,
    run es st = Return (st', calls) /\ memoryStream st' = memoryStream st.
Proof.
  induction es as [| e es IH]; intros st Hes; cbn [run].
  - now exists st, [].
  - cbn [existsb] in Hes. apply orb_false_iff in Hes. destruct Hes as [He Hes].
    destruct (step_memoryStream e st He) as [st1 [calls1 [-> Hm1]]].
    cbn [bind fst snd].
    destruct (IH st1 Hes) as [st2 [calls2 [-> Hm2]]].
    cbn [bind fst snd]. exists st2, (calls1 ++ calls2).
    split; [reflexivity | congruence].
Qed.

(** C10.  Both fallback results carry a [learningNode] of four UTF-16 code
    units, which the archive test ([length > 5]) rejects; a settled analysis
    that fails the test leaves the memory stream as it is, and so does every
    run of events in which no settled analysis passes it; and a result of
    [analyzeMarketStrategy] that passes the test comes from an answer that
    the endpoint gave and that parsed as JSON (other than [null]). *)
Theorem fallbacks_never_archived
        (JSON_parse : string -> completion JsonValue)
        (generateContent : Prompt -> GenerateOutcome)
        (now : Z) (price : float) (trend : string) (memory : list string)
        (st : AppState) (es : list Event) :
  utf16Length (learningNode (connectionFallback now)) = 4
  /\ utf16Length (learningNode (parseFallback now)) = 4
  /\ worthArchiving (connectionFallback now) = false
  /\ worthArchiving (parseFallback now) = false
  /\ memoryStream (fst (resumeAfterAnalysis
                          (Return (connectionFallback now)) st))
     = memoryStream st
  /\ memoryStream (fst (resumeAfterAnalysis (Return (parseFallback now)) st))
     = memoryStream st
  /\ (existsb archives es = false ->
      exists st' calls,
        run es st = Return (st', calls) /\ memoryStream st' = memoryStream st)
  /\ (forall r,
         analyzeMarketStrategy JSON_parse generateContent now price trend
                               memory = Return r ->
         worthArchiving r = true ->
         exists text_ v,
           generateContent (mkPrompt price trend (memoryContext memory))
           = Fulfilled text_
           /\ JSON_parse (cleanJsonString (orElse text_ "{}")) = Return v
           /\ v <> JsonNull).
Proof.
  split; [reflexivity |]. split; [reflexivity |].
  split; [reflexivity |]. split; [reflexivity |].
  split; [now apply resumeAfterAnalysis_memoryStream |].
  split; [now apply resumeAfterAnalysis_memoryStream |].
  split; [apply run_memoryStream |].
  intros r Hr Hw.
  destruct (generateContent (mkPrompt price trend (memoryContext memory)))
    as [e | text_] eqn:Hg.
  - rewrite (analyzeMarketStrategy_rejected
               JSON_parse generateContent now price trend memory e Hg) in Hr.
    injection Hr as <-. discriminate Hw.
  - destruct (JSON_parse (cleanJsonString (orElse text_ "{}")))
      as [v | e] eqn:Hp.
    + exists text_, v. split; [reflexivity |]. split; [exact Hp |].
      intros ->.
      rewrite (analyzeMarketStrategy_parsed
                 JSON_parse generateContent now price trend memory
                 text_ JsonNull Hg Hp) in Hr.
      injection Hr as <-. discriminate Hw.
    + rewrite (analyzeMarketStrategy_unparsable
                 JSON_parse generateContent now price trend memory
                 text_ e Hg Hp) in Hr.
      injection Hr as <-. discriminate Hw.
Qed.

Lemma fallbacks_never_archived_witness :
  existsb archives
          [OnClick;
           OnAnalysisSettled (Return (connectionFallback 1700000000000));
           OnHotspotsSettled (Return (mkHotspots "" []))] = false
  /\ (exists r,
         analyzeMarketStrategy parseBraces answersEmptyObject 1700000000000
                               (num 50000) "" [] = Return r
         /\ worthArchiving r = true
         /\ learningNode r = "数据积累中..."%string)
  /\ (exists st' calls,
         run [OnClick;
              OnAnalysisSettled (Return (connectionFallback 1700000000000));
              OnHotspotsSettled (Return (mkHotspots "" []))]
             tenCandleState = Return (st', calls)
         /\ memoryStream st' = memoryStream tenCandleState)
  /\ (exists text_ v,
         answersEmptyObject (mkPrompt (num 50000) "" (memoryContext []))
         = Fulfilled text_
         /\ parseBraces (cleanJsonString (orElse text_ "{}")) = Return v
         /\ v <> JsonNull).
Proof.
  assert (H1 : existsb archives
                 [OnClick;
                  OnAnalysisSettled
                    (Return (connectionFallback 1700000000000));
                  OnHotspotsSettled (Return (mkHotspots "" []))] = false)
    by reflexivity.
  assert (H2 : analyzeMarketStrategy parseBraces answersEmptyObject
                 1700000000000 (num 50000) "" []
               = Return (mkAnalysis "中性 (NEUTRAL)" "观察" "观察"
                                    "市场波动异常，建议保持观望。"
                                    "数据积累中..." 1700000000000))
    by (vm_compute; reflexivity).
  assert (H3 : worthArchiving
                 (mkAnalysis "中性 (NEUTRAL)" "观察" "观察"
                             "市场波动异常，建议保持观望。"
                             "数据积累中..." 1700000000000) = true)
    by reflexivity.
  destruct (fallbacks_never_archived
              parseBraces answersEmptyObject 1700000000000 (num 50000) "" []
              tenCandleState
              [OnClick;
               OnAnalysisSettled (Return (connectionFallback 1700000000000));
               OnHotspotsSettled (Return (mkHotspots "" []))])
    as [_ [_ [_ [_ [_ [_ [A B]]]]]]].
  split; [exact H1 |].
  split; [eexists; split; [exact H2 | split; [exact H3 | reflexivity]] |].
  split; [exact (A H1) | exact (B _ H2 H3)].
Defined.

(* ===================================================================== *)
(** ** More on the indicator *)
(* ===================================================================== *)

Lemma emaLoop_closes (k : float) (r1 : list CandleData) :
  forall r2 ema result,
    map close r1 = map close r2 ->
    emaLoop k r1 ema result = emaLoop k r2 ema result.
Proof.
  induction r1 as [| c1 r1 IH]; intros [| c2 r2] ema result H;
    try discriminate; [reflexivity |].
  cbn [map] in H. injection H as Hc Hr. cbn [emaLoop]. rewrite Hc.
  now apply IH.
Qed.

Lemma calculateEMA_closes (d1 d2 : list CandleData) (period : Z) :
  map close d1 = map close d2 ->
  calculateEMA d1 period = calculateEMA d2 period.
Proof.
  intros H. unfold calculateEMA.
  assert (Hlen : length d1 = length d2).
  { apply (f_equal (@length _)) in H. now rewrite !length_map in H. }
  rewrite Hlen.
  destruct (Z.of_nat (length d2) <? period)%Z; [reflexivity |].
  assert (Hsum : sumCloses d1 period = sumCloses d2 period).
  { unfold sumCloses. rewrite !fold_left_close, <- !firstn_map. now rewrite H. }
  rewrite Hsum.
  destruct (Array_fill (period - 1) (@None float)) as [result | e];
    [| reflexivity].
  cbn [bind]. f_equal. apply emaLoop_closes.
  rewrite <- !skipn_map. now rewrite H.
Qed.

(** X1.  [calculateEMA] reads nothing of a candle but its close: on two candle
    sequences with the same closes, in the same order, it gives the same
    result (the same values, or the same exception), whatever the times, the
    other prices, the volumes, the stored indicators and the signals are. *)
Theorem calculateEMA_reads_closes (d1 d2 : list CandleData) (period : Z) :
  map close d1 = map close d2 ->
  calculateEMA d1 period = calculateEMA d2 period.
Proof. apply calculateEMA_closes. Qed.

Lemma calculateEMA_reads_closes_witness :
  map close (minuteCandles 9 (num 100)) = map close (map core taggedWindow
                                                     ++ skipn 3 (minuteCandles 9 (num 100)))
  /\ calculateEMA (minuteCandles 9 (num 100)) 7
     = calculateEMA (map core taggedWindow
                     ++ skipn 3 (minuteCandles 9 (num 100))) 7.
Proof.
  assert (H : map close (minuteCandles 9 (num 100))
              = map close (map core taggedWindow
                           ++ skipn 3 (minuteCandles 9 (num 100))))
    by reflexivity.
  split; [exact H |].
  exact (calculateEMA_reads_closes _ _ 7 H).
Defined.

Lemma emaTail_app (k : float) (r1 r2 : list CandleData) : forall ema,
  exists ema', emaTail k (r1 ++ r2) ema = emaTail k r1 ema ++ emaTail k r2 ema'.
Proof.
  induction r1 as [| c r1 IH]; intros ema; cbn [app emaTail].
  - now exists ema.
  - destruct (IH (smooth k c ema)) as [ema' ->]. now exists ema'.
Qed.

Lemma firstn_repeat {A : Type} (v : A) (n m : nat) :
  n <= m -> firstn n (repeat v m) = repeat v n.
Proof.
  revert m. induction n as [| n IH]; intros m H; [reflexivity |].
  destruct m as [| m]; [lia |]. cbn. f_equal. apply IH. lia.
Qed.

(** X2.  Appending candles never changes the indicator values already computed:
    the result on the longer sequence starts with the result on the shorter
    one. *)
Theorem calculateEMA_prefix_stable
        (data more : list CandleData) (period : Z) :
  (1 <= period)%Z ->
  exists out out',
    calculateEMA data period = Return out
    /\ calculateEMA (data ++ more) period = Return out'
    /\ firstn (length data) out' = out.
Proof.
  intros Hp.
  destruct (Z.ltb_spec (Z.of_nat (length data)) period) as [Hshort | Hlong].
  - rewrite (calculateEMA_short data period Hshort).
    destruct (Z.ltb_spec (Z.of_nat (length (data ++ more))) period)
      as [Hshort' | Hlong'].
    + rewrite (calculateEMA_short _ period Hshort').
      eexists. eexists. split; [reflexivity |]. split; [reflexivity |].
      apply firstn_repeat. rewrite length_app. lia.
    + rewrite (calculateEMA_long _ period Hp Hlong').
      eexists. eexists. split; [reflexivity |]. split; [reflexivity |].
      rewrite firstn_app, repeat_length.
      replace (length data - Z.to_nat (period - 1)) with 0 by lia.
      cbn [firstn]. rewrite app_nil_r. apply firstn_repeat. lia.
  - assert (Hlong' : (period <= Z.of_nat (length (data ++ more)))%Z)
      by (rewrite length_app; lia).
    rewrite (calculateEMA_long data period Hp Hlong).
    rewrite (calculateEMA_long _ period Hp Hlong').
    eexists. eexists. split; [reflexivity |]. split; [reflexivity |].
    assert (Hfirst : firstn (Z.to_nat period) (data ++ more)
                     = firstn (Z.to_nat period) data).
    { rewrite firstn_app.
      replace (Z.to_nat period - length data) with 0 by lia.
      cbn [firstn]. apply app_nil_r. }
    rewrite Hfirst, skipn_app.
    replace (Z.to_nat period - length data) with 0 by lia. cbn [skipn].
    set (seed := arithmeticMean (map close (firstn (Z.to_nat period) data))).
    destruct (emaTail_app (smoothing period)
                          (skipn (Z.to_nat period) data) more seed)
      as [ema' ->].
    rewrite firstn_app, repeat_length.
    rewrite firstn_all2 by (rewrite repeat_length; lia).
    f_equal.
    replace (length data - Z.to_nat (period - 1))
      with (S (length (emaTail (smoothing period)
                               (skipn (Z.to_nat period) data) seed)))
      by (rewrite emaTail_length, length_skipn; lia).
    cbn [firstn]. f_equal.
    rewrite firstn_app, Nat.sub_diag, firstn_all. cbn [firstn].
    now rewrite app_nil_r.
Qed.

Lemma calculateEMA_prefix_stable_witness :
  (1 <= 7)%Z
  /\ exists out out',
      calculateEMA (minuteCandles 9 (num 100)) 7 = Return out
      /\ calculateEMA (minuteCandles 9 (num 100)
                       ++ [flatCandle 540000 (num 250)]) 7 = Return out'
      /\ firstn (length (minuteCandles 9 (num 100))) out' = out.
Proof.
  assert (H : (1 <= 7)%Z) by lia.
  split; [exact H |].
  exact (calculateEMA_prefix_stable
           (minuteCandles 9 (num 100)) [flatCandle 540000 (num 250)] 7 H).
Defined.

(* ===================================================================== *)
(** ** The window and its indicator fields *)
(* ===================================================================== *)

Lemma core_closes (a b : list CandleData) :
  map core a = map core b -> map close a = map close b.
Proof.
  intros H.
  assert (Ht : forall l, map close l = map close (map core l)).
  { intros l. rewrite map_map. reflexivity. }
  now rewrite (Ht a), (Ht b), H.
Qed.

Lemma decorate_core (f7 f25 f99 : nat -> option float) (a : list CandleData) :
  forall b i,
    map core a = map core b ->
    mapFrom (fun c j => withIndicators c (f7 j) (f25 j) (f99 j)) i a
    = mapFrom (fun c j => withIndicators c (f7 j) (f25 j) (f99 j)) i b.
Proof.
  induction a as [| x a IH]; intros [| y b] i H; try discriminate;
    [reflexivity |].
  cbn [map] in H.
  assert (Hx : core x = core y) by congruence.
  assert (Hr : map core a = map core b) by congruence.
  cbn [mapFrom]. f_equal; [| now apply IH].
  destruct (core_fields _ _ Hx) as [H1 [H2 [H3 [H4 [H5 [H6 H7]]]]]].
  unfold withIndicators. congruence.
Qed.

(** The indicator pass depends on the candles only through what [core]
    keeps. *)
Lemma recalculateEMAs_core_eq (a b : list CandleData) :
  map core a = map core b -> recalculateEMAs a = recalculateEMAs b.
Proof.
  intros H. unfold recalculateEMAs.
  rewrite !(calculateEMA_closes a b _ (core_closes _ _ H)).
  destruct (calculateEMA b 7) as [e7 |]; [| reflexivity].
  destruct (calculateEMA b 25) as [e25 |]; [| reflexivity].
  destruct (calculateEMA b 99) as [e99 |]; [| reflexivity].
  cbn [bind]. f_equal. unfold mapIndexed.
  now apply (decorate_core (at_ e7) (at_ e25) (at_ e99)).
Qed.

Lemma recalculateEMAs_current (u w : list CandleData) :
  recalculateEMAs u = Return w -> indicatorsCurrent w.
Proof.
  intros H. unfold indicatorsCurrent.
  destruct (recalculateEMAs_core u) as [w' [Hw' Hcore]].
  assert (w' = w) by congruence. subst w'.
  now rewrite (recalculateEMAs_core_eq w u Hcore).
Qed.

Lemma mapFrom_nth_error {A B : Type} (f : A -> nat -> B) (a : list A) :
  forall n i,
    nth_error (mapFrom f n a) i
    = option_map (fun c => f c (n + i)) (nth_error a i).
Proof.
  induction a as [| x a IH]; intros n i; [destruct i; reflexivity |].
  destruct i as [| i]; cbn [mapFrom nth_error option_map].
  - now rewrite Nat.add_0_r.
  - rewrite IH. now rewrite Nat.add_succ_comm.
Qed.

(** What [indicatorsCurrent] says, field by field. *)
Lemma indicatorsCurrent_fields (w : list CandleData) :
  indicatorsCurrent w ->
  exists e7 e25 e99,
    calculateEMA w 7 = Return e7
    /\ calculateEMA w 25 = Return e25
    /\ calculateEMA w 99 = Return e99
    /\ forall i c,
        nth_error w i = Some c ->
        ema7 c = at_ e7 i /\ ema25 c = at_ e25 i /\ ema99 c = at_ e99 i.
Proof.
  unfold indicatorsCurrent, recalculateEMAs. intros H.
  destruct (calculateEMA_returns w 7) as [e7 [H7 _]]; [lia |].
  destruct (calculateEMA_returns w 25) as [e25 [H25 _]]; [lia |].
  destruct (calculateEMA_returns w 99) as [e99 [H99 _]]; [lia |].
  rewrite H7, H25, H99 in H. cbn [bind] in H.
  assert (Hw : mapIndexed
                 (fun c i => withIndicators c (at_ e7 i) (at_ e25 i)
                                            (at_ e99 i)) w = w)
    by congruence.
  exists e7, e25, e99. split; [exact H7 |]. split; [exact H25 |].
  split; [exact H99 |]. intros i c Hi.
  assert (Hc : nth_error
                 (mapIndexed
                    (fun c i => withIndicators c (at_ e7 i) (at_ e25 i)
                                               (at_ e99 i)) w) i
               = Some c) by now rewrite Hw.
  unfold mapIndexed in Hc. rewrite mapFrom_nth_error, Hi in Hc.
  cbn in Hc. injection Hc as Hc.
  repeat split;
    [ apply (f_equal ema7) in Hc | apply (f_equal ema25) in Hc
    | apply (f_equal ema99) in Hc ]; cbn in Hc; now symmetry.
Qed.

Lemma applyEvent_current_fields (ev : FeedEvent) (w : list CandleData) :
  exists w' e7 e25 e99,
    applyEvent ev w = Return w'
    /\ calculateEMA w' 7 = Return e7
    /\ calculateEMA w' 25 = Return e25
    /\ calculateEMA w' 99 = Return e99
    /\ forall i c,
        nth_error w' i = Some c ->
        ema7 c = at_ e7 i /\ ema25 c = at_ e25 i /\ ema99 c = at_ e99 i.
Proof.
  destruct (applyEvent_core ev w) as [w' [Hw' _]].
  assert (Hcur : indicatorsCurrent w').
  { rewrite applyEvent_place in Hw'. now apply recalculateEMAs_current in Hw'. }
  destruct (indicatorsCurrent_fields w' Hcur)
    as [e7 [e25 [e99 [H7 [H25 [H99 H]]]]]].
  now exists w', e7, e25, e99.
Qed.

(** X3.  After every feed event, kline or tick, on any window, the three
    indicator fields of every candle are what [calculateEMA] yields on the
    resulting window, at the candle's index: no stored indicator is stale. *)
Theorem applyEvent_indicators_current (ev : FeedEvent) (w : list CandleData) :
  exists w' e7 e25 e99,
    applyEvent ev w = Return w'
    /\ calculateEMA w' 7 = Return e7
    /\ calculateEMA w' 25 = Return e25
    /\ calculateEMA w' 99 = Return e99
    /\ forall i c,
        nth_error w' i = Some c ->
        ema7 c = at_ e7 i /\ ema25 c = at_ e25 i /\ ema99 c = at_ e99 i.
Proof. apply applyEvent_current_fields. Qed.

Lemma emaTail_defined (k : float) (rest : list CandleData) :
  forall ema i, i < length rest -> nth i (emaTail k rest ema) None <> None.
Proof.
  induction rest as [| c rest IH]; intros ema i Hi; [cbn in Hi; lia |].
  destruct i as [| i]; cbn; [discriminate | apply IH; cbn in Hi; lia].
Qed.

Lemma nth_repeat_None {A : Type} (n i : nat) :
  nth i (repeat (@None A) n) None = None.
Proof.
  revert i. induction n as [| n IH]; intros [| i]; cbn; auto.
Qed.

(** An indicator value is undefined exactly before index [period - 1]. *)
Lemma calculateEMA_defined (data : list CandleData) (period : Z)
      (out : list (option float)) (i : nat) :
  (1 <= period)%Z ->
  calculateEMA data period = Return out ->
  i < length data ->
  (at_ out i = None <-> (Z.of_nat i < period - 1)%Z).
Proof.
  intros Hp Hout Hi. unfold at_.
  destruct (Z.ltb_spec (Z.of_nat (length data)) period) as [Hshort | Hlong].
  - rewrite (calculateEMA_short data period Hshort) in Hout.
    injection Hout as <-. rewrite nth_repeat_None. split; [lia | reflexivity].
  - rewrite (calculateEMA_long data period Hp Hlong) in Hout.
    injection Hout as <-.
    destruct (Z.ltb_spec (Z.of_nat i) (period - 1)) as [Hlt | Hge].
    + rewrite app_nth1 by (rewrite repeat_length; lia).
      rewrite nth_repeat_None. split; [lia | reflexivity].
    + rewrite app_nth2 by (rewrite repeat_length; lia).
      rewrite repeat_length. split; [| lia]. intros Habs. exfalso.
      destruct (i - Z.to_nat (period - 1)) as [| j] eqn:Hj;
        [discriminate Habs |].
      cbn [nth] in Habs. revert Habs. apply emaTail_defined.
      rewrite length_skipn. lia.
Qed.

(** X4.  After every feed event, [ema7] is defined exactly from the 7th candle
    of the window on, [ema25] from the 25th and [ema99] from the 99th. *)
Theorem applyEvent_indicator_presence (ev : FeedEvent) (w : list CandleData) :
  exists w',
    applyEvent ev w = Return w'
    /\ forall i c,
        nth_error w' i = Some c ->
        (ema7 c = None <-> i < 6)
        /\ (ema25 c = None <-> i < 24)
        /\ (ema99 c = None <-> i < 98).
Proof.
  destruct (applyEvent_current_fields ev w)
    as [w' [e7 [e25 [e99 [Hw' [H7 [H25 [H99 H]]]]]]]].
  exists w'. split; [exact Hw' |]. intros i c Hi.
  destruct (H i c Hi) as [-> [-> ->]].
  assert (Hlt : i < length w') by (apply nth_error_Some; congruence).
  rewrite (calculateEMA_defined w' 7 e7 i), (calculateEMA_defined w' 25 e25 i),
    (calculateEMA_defined w' 99 e99 i) by (assumption || lia).
  repeat split; lia.
Qed.

Lemma applyEvent_indicator_presence_witness :
  exists w' c,
    applyEvent (Kline (flatCandle 420000 (num 101)))
               (minuteCandles 7 (num 100)) = Return w'
    /\ nth_error w' 6 = Some c
    /\ (ema7 c = None <-> 6 < 6)
    /\ (ema25 c = None <-> 6 < 24)
    /\ (ema99 c = None <-> 6 < 98).
Proof.
  destruct (applyEvent_indicator_presence
              (Kline (flatCandle 420000 (num 101)))
              (minuteCandles 7 (num 100))) as [w' [Hw' H]].
  assert (Hc : exists c, nth_error w' 6 = Some c).
  { vm_compute in Hw'. injection Hw' as <-. eexists. reflexivity. }
  destruct Hc as [c Hc].
  exists w', c. split; [exact Hw' |]. split; [exact Hc |].
  exact (H 6 c Hc).
Defined.

(* ===================================================================== *)
(** ** Replaying a kline; closed candles *)
(* ===================================================================== *)

Lemma place_last (ev : FeedEvent) (w : list CandleData) :
  exists b x,
    place ev w = b ++ [x]
    /\ (x = freshOf ev \/ exists l, x = mergeInto ev l).
Proof.
  destruct (snoc_cases w) as [-> | [b [l ->]]].
  - exists [], (freshOf ev). split; [reflexivity | now left].
  - destruct (Z.eq_dec (time l) (keyOf ev)) as [Heq | Hne].
    + exists b, (mergeInto ev l). rewrite place_same by exact Heq.
      split; [reflexivity | right; now exists l].
    + exists (b ++ [l]), (freshOf ev). rewrite place_new by exact Hne.
      split; [reflexivity | now left].
Qed.

(** X5.  [updateCandles] is idempotent: delivering the same kline a second time
    leaves the window exactly as the first delivery left it. *)
Theorem updateCandles_idempotent (c : CandleData) (w : list CandleData) :
  exists w1,
    updateCandles c w = Return w1 /\ updateCandles c w1 = Return w1.
Proof.
  destruct (place_last (Kline c) w) as [b [x [Hp Hx]]].
  destruct (applyEvent_after_place (Kline c) w b x Hp)
    as [b1 [x1 [Hw1 [Hx1 Hb1]]]].
  exists (b1 ++ [x1]). split; [exact Hw1 |].
  change (applyEvent (Kline c) (b1 ++ [x1]) = Return (b1 ++ [x1])).
  destruct (core_fields _ _ Hx1) as [Ht1 [_ [_ [_ [_ [_ Hs1]]]]]].
  assert (Htx : time x = time c).
  { destruct Hx as [-> | [l ->]]; reflexivity. }
  assert (Hcx : core (withSignal c (aiSignal x1)) = core x).
  { rewrite Hs1. destruct Hx as [-> | [l ->]]; destruct c; reflexivity. }
  rewrite applyEvent_place, place_same by (cbn; congruence).
  cbn [mergeInto].
  assert (Hlen : length (b1 ++ [withSignal c (aiSignal x1)]) <= MAX_CANDLES).
  { rewrite length_app, (core_length _ _ Hb1), length_skipn. cbn [length].
    unfold MAX_CANDLES. lia. }
  rewrite enforceMaxCandles_skipn.
  replace (length (b1 ++ [withSignal c (aiSignal x1)]) - MAX_CANDLES) with 0
    by lia.
  cbn [skipn].
  assert (Hcore : map core (b1 ++ [withSignal c (aiSignal x1)])
                  = map core (b1 ++ [x1])).
  { rewrite !map_app. cbn [map]. now rewrite Hcx, Hx1. }
  rewrite (recalculateEMAs_core_eq _ _ Hcore).
  rewrite applyEvent_place in Hw1.
  apply recalculateEMAs_current in Hw1. exact Hw1.
Qed.

(** X6.  A feed event never rewrites a closed candle.  Of the candles [b] before
    the last one, those that the bound does not evict from the front keep
    their time, prices, volume and signal, and move up by the number [n] of
    evicted candles. *)
Theorem applyEvent_keeps_closed_candles
        (ev : FeedEvent) (b : list CandleData) (l : CandleData) :
  exists w' n,
    applyEvent ev (b ++ [l]) = Return w'
    /\ n = length (place ev (b ++ [l])) - MAX_CANDLES
    /\ forall i c,
        nth_error b i = Some c ->
        n <= i ->
        exists c', nth_error w' (i - n) = Some c' /\ core c' = core c.
Proof.
  destruct (applyEvent_core ev (b ++ [l])) as [w' [Hw' Hcore]].
  exists w', (length (place ev (b ++ [l])) - MAX_CANDLES).
  split; [exact Hw' |]. split; [reflexivity |].
  intros i c Hi Hn.
  rewrite enforceMaxCandles_skipn in Hcore.
  set (n := length (place ev (b ++ [l])) - MAX_CANDLES) in *.
  assert (Hplaced : nth_error (place ev (b ++ [l])) i = Some c).
  { assert (Hib : i < length b) by (apply nth_error_Some; congruence).
    destruct (Z.eq_dec (time l) (keyOf ev)) as [Heq | Hne].
    - rewrite place_same by exact Heq. now rewrite nth_error_app1.
    - rewrite place_new by exact Hne.
      rewrite nth_error_app1 by (rewrite length_app; lia).
      now rewrite nth_error_app1. }
  assert (Hcut : nth_error (map core (skipn n (place ev (b ++ [l])))) (i - n)
                 = Some (core c)).
  { rewrite nth_error_map, nth_error_skipn.
    replace (n + (i - n)) with i by lia. now rewrite Hplaced. }
  rewrite <- Hcore, nth_error_map in Hcut.
  destruct (nth_error w' (i - n)) as [c' |]; [| discriminate].
  exists c'. split; [reflexivity |]. cbn in Hcut. congruence.
Qed.

Lemma applyEvent_keeps_closed_candles_witness :
  exists w' n,
    applyEvent (Kline (flatCandle 7200000 (num 101)))
               (removelast (minuteCandles 120 (num 100))
                ++ [flatCandle 7140000 (num 100)]) = Return w'
    /\ n = length (place (Kline (flatCandle 7200000 (num 101)))
                         (removelast (minuteCandles 120 (num 100))
                          ++ [flatCandle 7140000 (num 100)]))
           - MAX_CANDLES
    /\ nth_error (removelast (minuteCandles 120 (num 100))) 5
       = Some (flatCandle 300000 (num 100))
    /\ n <= 5
    /\ exists c', nth_error w' (5 - n) = Some c'
                  /\ core c' = core (flatCandle 300000 (num 100)).
Proof.
  destruct (applyEvent_keeps_closed_candles
              (Kline (flatCandle 7200000 (num 101)))
              (removelast (minuteCandles 120 (num 100)))
              (flatCandle 7140000 (num 100))) as [w' [n [Hw' [Hn H]]]].
  assert (H1 : nth_error (removelast (minuteCandles 120 (num 100))) 5
               = Some (flatCandle 300000 (num 100))) by reflexivity.
  assert (H2 : n <= 5) by (rewrite Hn; vm_compute; lia).
  exists w', n. split; [exact Hw' |]. split; [exact Hn |].
  split; [exact H1 |]. split; [exact H2 |].
  exact (H 5 _ H1 H2).
Defined.

(* ===================================================================== *)
(** ** Stamping a signal *)
(* ===================================================================== *)

Lemma mapFrom_app {A B : Type} (f : A -> nat -> B) (a b : list A) :
  forall n, mapFrom f n (a ++ b) = mapFrom f n a ++ mapFrom f (n + length a) b.
Proof.
  induction a as [| x a IH]; intros n; cbn [app mapFrom length].
  - now rewrite Nat.add_0_r.
  - rewrite IH. now rewrite Nat.add_succ_comm.
Qed.

(** The shape of a stamped window. *)
Lemma stampSignal_cases (result : MarketAnalysis) (w : list CandleData) :
  stampSignal result w = w
  \/ exists b l s,
      w = b ++ [l]
      /\ classify (sentiment result) = Some s
      /\ stampSignal result w = b ++ [withSignal l (Some s)].
Proof.
  unfold stampSignal.
  destruct (snoc_cases w) as [-> | [b [l ->]]]; [now left |].
  rewrite lastOf_snoc.
  destruct (classify (sentiment result)) as [s |]; [| now left].
  right. exists b, l, s. now rewrite setLast_snoc.
Qed.

Lemma stampSignal_shape (result : MarketAnalysis) (w : list CandleData) :
  length (stampSignal result w) = length w
  /\ removelast (stampSignal result w) = removelast w
  /\ map (fun c => withSignal c None) (stampSignal result w)
     = map (fun c => withSignal c None) w
  /\ (classify (sentiment result) = None -> stampSignal result w = w)
  /\ (forall l s,
         lastOf w = Some l ->
         classify (sentiment result) = Some s ->
         lastOf (stampSignal result w) = Some (withSignal l (Some s))).
Proof.
  destruct (stampSignal_cases result w) as [Hsame | [b [l [s [-> [Hs Hst]]]]]].
  - rewrite Hsame. repeat split; try reflexivity.
    intros l s Hl Hs. unfold stampSignal in Hsame. rewrite Hl, Hs in Hsame.
    destruct (snoc_cases w) as [-> | [b [l0 ->]]]; [discriminate |].
    rewrite lastOf_snoc in Hl. injection Hl as ->.
    rewrite setLast_snoc in Hsame. apply app_inv_head in Hsame.
    rewrite lastOf_snoc. congruence.
  - rewrite Hst. split; [now rewrite !length_app |].
    split; [now rewrite !removelast_last |].
    split; [now rewrite !map_app |].
    split; [congruence |].
    intros l0 s0 Hl Hs0. rewrite lastOf_snoc in *. congruence.
Qed.

(** X7.  Stamping changes nothing but the signal of the last candle: the
    window keeps its length, every candle before the last is untouched, and
    every candle keeps its time, prices, volume and indicators.  The last
    candle, when there is one, is tagged bullish when the sentiment contains
    看涨 or BULLISH (whatever else it contains), and bearish when it contains
    neither of these but 看跌 or BEARISH; a sentiment that contains none of
    the four leaves the window as it is. *)
Theorem stampSignal_touches_signal_only
        (result : MarketAnalysis) (w : list CandleData) :
  length (stampSignal result w) = length w
  /\ removelast (stampSignal result w) = removelast w
  /\ map (fun c => withSignal c None) (stampSignal result w)
     = map (fun c => withSignal c None) w
  /\ (forall l,
         lastOf w = Some l ->
         includes (sentiment result) "看涨"
         || includes (sentiment result) "BULLISH" = true ->
         lastOf (stampSignal result w) = Some (withSignal l (Some bullish)))
  /\ (forall l,
         lastOf w = Some l ->
         includes (sentiment result) "看涨"
         || includes (sentiment result) "BULLISH" = false ->
         includes (sentiment result) "看跌"
         || includes (sentiment result) "BEARISH" = true ->
         lastOf (stampSignal result w) = Some (withSignal l (Some bearish)))
  /\ (includes (sentiment result) "看涨"
      || includes (sentiment result) "BULLISH" = false ->
      includes (sentiment result) "看跌"
      || includes (sentiment result) "BEARISH" = false ->
      stampSignal result w = w).
Proof.
  destruct (stampSignal_shape result w) as [H1 [H2 [H3 [H4 H5]]]].
  split; [exact H1 |]. split; [exact H2 |]. split; [exact H3 |].
  split; [| split].
  - intros l Hl Hb. apply H5; [exact Hl |].
    unfold classify. now rewrite Hb.
  - intros l Hl Hb Hr. apply H5; [exact Hl |].
    unfold classify. now rewrite Hb, Hr.
  - intros Hb Hr. apply H4. unfold classify. now rewrite Hb, Hr.
Qed.

Lemma stampSignal_touches_signal_only_witness :
  lastOf (minuteCandles 3 (num 100)) = Some (flatCandle 120000 (num 100))
  /\ includes "BEARISH? 看涨" "看涨" || includes "BEARISH? 看涨" "BULLISH" = true
  /\ includes "看跌 (BEARISH)" "看涨" || includes "看跌 (BEARISH)" "BULLISH"
     = false
  /\ includes "看跌 (BEARISH)" "看跌" || includes "看跌 (BEARISH)" "BEARISH"
     = true
  /\ includes "中性 (NEUTRAL)" "看涨" || includes "中性 (NEUTRAL)" "BULLISH"
     = false
  /\ includes "中性 (NEUTRAL)" "看跌" || includes "中性 (NEUTRAL)" "BEARISH"
     = false
  /\ lastOf (stampSignal (mkAnalysis "BEARISH? 看涨" "" "" "" "" 0)
                         (minuteCandles 3 (num 100)))
     = Some (withSignal (flatCandle 120000 (num 100)) (Some bullish))
  /\ lastOf (stampSignal (mkAnalysis "看跌 (BEARISH)" "" "" "" "" 0)
                         (minuteCandles 3 (num 100)))
     = Some (withSignal (flatCandle 120000 (num 100)) (Some bearish))
  /\ stampSignal (mkAnalysis "中性 (NEUTRAL)" "" "" "" "" 0)
                 (minuteCandles 3 (num 100))
     = minuteCandles 3 (num 100).
Proof.
  assert (H1 : lastOf (minuteCandles 3 (num 100))
               = Some (flatCandle 120000 (num 100))) by reflexivity.
  assert (H2 : includes "BEARISH? 看涨" "看涨"
               || includes "BEARISH? 看涨" "BULLISH" = true)
    by (vm_compute; reflexivity).
  assert (H3 : includes "看跌 (BEARISH)" "看涨"
               || includes "看跌 (BEARISH)" "BULLISH" = false)
    by (vm_compute; reflexivity).
  assert (H4 : includes "看跌 (BEARISH)" "看跌"
               || includes "看跌 (BEARISH)" "BEARISH" = true)
    by (vm_compute; reflexivity).
  assert (H5 : includes "中性 (NEUTRAL)" "看涨"
               || includes "中性 (NEUTRAL)" "BULLISH" = false)
    by (vm_compute; reflexivity).
  assert (H6 : includes "中性 (NEUTRAL)" "看跌"
               || includes "中性 (NEUTRAL)" "BEARISH" = false)
    by (vm_compute; reflexivity).
  destruct (stampSignal_touches_signal_only
              (mkAnalysis "BEARISH? 看涨" "" "" "" "" 0)
              (minuteCandles 3 (num 100))) as [_ [_ [_ [A _]]]].
  destruct (stampSignal_touches_signal_only
              (mkAnalysis "看跌 (BEARISH)" "" "" "" "" 0)
              (minuteCandles 3 (num 100))) as [_ [_ [_ [_ [B _]]]]].
  destruct (stampSignal_touches_signal_only
              (mkAnalysis "中性 (NEUTRAL)" "" "" "" "" 0)
              (minuteCandles 3 (num 100))) as [_ [_ [_ [_ [_ C]]]]].
  repeat (split; [assumption |]).
  split; [exact (A _ H1 H2) |].
  split; [exact (B _ H1 H3 H4) | exact (C H5 H6)].
Defined.

(** Stamping keeps the indicator fields current. *)
Lemma stampSignal_indicators_current
      (result : MarketAnalysis) (w : list CandleData) :
  indicatorsCurrent w -> indicatorsCurrent (stampSignal result w).
Proof.
  intros Hcur.
  destruct (stampSignal_cases result w) as [-> | [b [l [s [-> [_ ->]]]]]];
    [exact Hcur |].
  unfold indicatorsCurrent, recalculateEMAs in *.
  assert (Hcl : map close (b ++ [withSignal l (Some s)])
                = map close (b ++ [l])) by now rewrite !map_app.
  rewrite !(calculateEMA_closes _ _ _ Hcl).
  destruct (calculateEMA (b ++ [l]) 7) as [e7 |]; [| discriminate].
  destruct (calculateEMA (b ++ [l]) 25) as [e25 |]; [| discriminate].
  destruct (calculateEMA (b ++ [l]) 99) as [e99 |]; [| discriminate].
  cbn [bind] in *. f_equal. injection Hcur as Hcur.
  unfold mapIndexed in *. rewrite mapFrom_app in *. cbn [mapFrom] in *.
  apply app_inj_tail in Hcur. destruct Hcur as [Hb Hl].
  rewrite Hb. f_equal. f_equal.
  rewrite <- Hl at 2. reflexivity.
Qed.

(** X8.  Neither fallback result stamps a signal: its sentiment is classified
    as neither bullish nor bearish, so a failed analysis leaves every candle
    of the window as it is, in the stamp itself and in the state that
    [runAnalysis] resumes into. *)
Theorem fallbacks_never_stamp (now : Z) (w : list CandleData) (st : AppState) :
  stampSignal (connectionFallback now) w = w
  /\ stampSignal (parseFallback now) w = w
  /\ candleData (fst (resumeAfterAnalysis
                        (Return (connectionFallback now)) st))
     = candleData st
  /\ candleData (fst (resumeAfterAnalysis (Return (parseFallback now)) st))
     = candleData st.
Proof.
  assert (H1 : stampSignal (connectionFallback now) w = w).
  { apply stampSignal_shape. reflexivity. }
  assert (H2 : stampSignal (parseFallback now) w = w).
  { apply stampSignal_shape. reflexivity. }
  split; [exact H1 |]. split; [exact H2 |].
  split.
  - unfold resumeAfterAnalysis. cbn [fst].
    rewrite archiveLesson_skipped by reflexivity. cbn.
    apply stampSignal_shape. reflexivity.
  - unfold resumeAfterAnalysis. cbn [fst].
    rewrite archiveLesson_skipped by reflexivity. cbn.
    apply stampSignal_shape. reflexivity.
Qed.

(** X9.  A feed event that lands on the key of the last candle keeps that
    candle's signal, whether it is a kline or a tick. *)
Theorem applyEvent_keeps_signal
        (ev : FeedEvent) (w : list CandleData) (l : CandleData) :
  lastOf w = Some l ->
  time l = keyOf ev ->
  exists w' l',
    applyEvent ev w = Return w'
    /\ length w' = Nat.min (length w) MAX_CANDLES
    /\ lastOf w' = Some l'
    /\ time l' = time l
    /\ aiSignal l' = aiSignal l.
Proof.
  intros Hl Hk.
  destruct (snoc_cases w) as [-> | [b [l0 ->]]]; [discriminate |].
  rewrite lastOf_snoc in Hl. injection Hl as ->.
  pose proof (place_same ev b l Hk) as Hp.
  destruct (applyEvent_after_place _ _ _ _ Hp) as [b1 [x1 [Hw1 [Hx1 Hb1]]]].
  destruct (core_fields _ _ Hx1) as [Ht [_ [_ [_ [_ [_ Hs]]]]]].
  exists (b1 ++ [x1]), x1. split; [exact Hw1 |].
  split.
  - rewrite !length_app, (core_length _ _ Hb1), length_skipn. cbn [length].
    unfold MAX_CANDLES. lia.
  - rewrite lastOf_snoc. split; [reflexivity |].
    rewrite Ht, Hs. destruct ev; cbn in *; split; congruence.
Qed.

Lemma applyEvent_keeps_signal_witness :
  lastOf taggedWindow
  = Some (withSignal (flatCandle 120000 (num 100)) (Some bullish))
  /\ time (withSignal (flatCandle 120000 (num 100)) (Some bullish))
     = keyOf (Tick (num 102) 150000 (num 60))
  /\ exists w' l',
      applyEvent (Tick (num 102) 150000 (num 60)) taggedWindow = Return w'
      /\ length w' = Nat.min (length taggedWindow) MAX_CANDLES
      /\ lastOf w' = Some l'
      /\ time l'
         = time (withSignal (flatCandle 120000 (num 100)) (Some bullish))
      /\ aiSignal l'
         = aiSignal (withSignal (flatCandle 120000 (num 100)) (Some bullish)).
Proof.
  assert (H1 : lastOf taggedWindow
               = Some (withSignal (flatCandle 120000 (num 100))
                                  (Some bullish))) by reflexivity.
  assert (H2 : time (withSignal (flatCandle 120000 (num 100)) (Some bullish))
               = keyOf (Tick (num 102) 150000 (num 60))) by reflexivity.
  split; [exact H1 |]. split; [exact H2 |].
  exact (applyEvent_keeps_signal _ _ _ H1 H2).
Defined.

(* ===================================================================== *)
(** ** Invariants of the mounted component *)
(* ===================================================================== *)

(** A property of the state and a property of the calls that the building
    blocks of [step] keep are kept by every event. *)
Lemma step_preserves (P : AppState -> Prop) (Q : Call -> Prop) :
  (forall st, P st ->
     P (fst (runAnalysis st)) /\ Forall Q (snd (runAnalysis st))) ->
  (forall st n, P st ->
     P (fst (commit n st)) /\ Forall Q (snd (commit n st))) ->
  (forall st ev w, P st -> applyEvent ev (candleData st) = Return w ->
     P (setCandleData w (setCurrentPrice (priceOf ev) st))) ->
  (forall st o, P st ->
     P (fst (resumeAfterAnalysis o st))
     /\ Forall Q (snd (resumeAfterAnalysis o st))) ->
  (forall st o, P st -> P (resumeAfterHotspots o st)) ->
  forall e st, P st ->
    exists st' calls, step e st = Return (st', calls) /\ P st' /\ Forall Q calls.
Proof.
  intros Hrun Hcommit Hfeed Hres Hhot e st HP.
  destruct e as [ev | | | outcome | outcome]; cbn [step].
  - destruct (applyEvent_length ev (candleData st)) as [w [Hw _]].
    rewrite Hw. cbn [bind].
    destruct (Hcommit _ (length (candleData st)) (Hfeed st ev w HP Hw))
      as [H1 H2].
    destruct (commit _ _) as [st' calls]. now exists st', calls.
  - destruct (Hrun st HP) as [H1 H2].
    destruct (runAnalysis st) as [st' calls]. now exists st', calls.
  - destruct (Hrun st HP) as [H1 H2].
    destruct (runAnalysis st) as [st' calls]. now exists st', calls.
  - destruct (awaiting AwaitAnalysis (inFlight st));
      [| exists st, []; now repeat split].
    destruct (Hres st outcome HP) as [H1 H2].
    destruct (resumeAfterAnalysis outcome st) as [st1 calls1].
    destruct (Hcommit st1 (length (candleData st)) H1) as [H3 H4].
    destruct (commit _ st1) as [st2 calls2].
    exists st2, (calls1 ++ calls2). split; [reflexivity |].
    split; [exact H3 | apply Forall_app; now split].
  - destruct (awaiting AwaitHotspots (inFlight st));
      [| exists st, []; now repeat split].
    eexists. eexists. split; [reflexivity |].
    split; [now apply Hhot | constructor].
Qed.

Lemma run_preserves (P : AppState -> Prop) (Q : Call -> Prop) :
  (forall e st, P st ->
     exists st' calls,
       step e st = Return (st', calls) /\ P st' /\ Forall Q calls) ->
  forall es st, P st ->
    exists st' calls, run es st = Return (st', calls) /\ P st' /\ Forall Q calls.
Proof.
  intros Hstep es. induction es as [| e es IH]; intros st HP; cbn [run].
  - exists st, []. now repeat split.
  - destruct (Hstep e st HP) as [st1 [calls1 [-> [HP1 HQ1]]]].
    cbn [bind fst snd].
    destruct (IH st1 HP1) as [st2 [calls2 [-> [HP2 HQ2]]]].
    cbn [bind fst snd]. exists st2, (calls1 ++ calls2).
    split; [reflexivity |]. split; [exact HP2 | apply Forall_app; now split].
Qed.

(** What [runAnalysis] and [commit] leave alone. *)
Lemma runAnalysis_keeps (st : AppState) :
  candleData (fst (runAnalysis st)) = candleData st
  /\ analysis (fst (runAnalysis st)) = analysis st
  /\ memoryStream (fst (runAnalysis st)) = memoryStream st
  /\ messages (fst (runAnalysis st)) = messages st.
Proof.
  unfold runAnalysis.
  destruct (analysisInProgressRef st || (length (candleDataRef st) <? 10));
    repeat split.
Qed.

Lemma commit_keeps (n : nat) (st : AppState) :
  candleData (fst (commit n st)) = candleData st
  /\ analysis (fst (commit n st)) = analysis st
  /\ memoryStream (fst (commit n st)) = memoryStream st
  /\ messages (fst (commit n st)) = messages st.
Proof.
  unfold commit.
  destruct (negb (n =? length (candleData (syncRefs st)))
            && startupCondition (syncRefs st)); [| repeat split].
  pose proof (runAnalysis_keeps (syncRefs st)) as H.
  destruct (runAnalysis (syncRefs st)) as [st' calls]. exact H.
Qed.

(** X10.  The learning indicator is on exactly while the guard is taken. *)
Theorem isLearning_tracks_guard (es : list Event) (st : AppState) :
  isLearning st = analysisInProgressRef st ->
  exists st' calls,
    run es st = Return (st', calls)
    /\ isLearning st' = analysisInProgressRef st'.
Proof.
  intros H0.
  assert (Hrun : forall s, isLearning s = analysisInProgressRef s ->
                   isLearning (fst (runAnalysis s))
                   = analysisInProgressRef (fst (runAnalysis s))).
  { intros s Hs. unfold runAnalysis.
    destruct (analysisInProgressRef s || (length (candleDataRef s) <? 10));
      [exact Hs | reflexivity]. }
  destruct (run_preserves
              (fun s => isLearning s = analysisInProgressRef s)
              (fun _ => True)) with (es := es) (st := st)
    as [st' [calls [Hr [HP _]]]]; [| exact H0 | now exists st', calls].
  apply step_preserves.
  - intros s Hs. split; [now apply Hrun | apply Forall_forall; trivial].
  - intros s n Hs. split; [| apply Forall_forall; trivial].
    unfold commit.
    destruct (negb (n =? length (candleData (syncRefs s)))
              && startupCondition (syncRefs s)); [| exact Hs].
    pose proof (Hrun (syncRefs s) Hs) as H.
    destruct (runAnalysis (syncRefs s)) as [s' calls]. exact H.
  - intros s ev w Hs _. exact Hs.
  - intros s o Hs. split; [| apply Forall_forall; trivial].
    unfold resumeAfterAnalysis. destruct o as [result | e]; cbn [fst].
    + unfold archiveLesson. destruct (worthArchiving result); exact Hs.
    + reflexivity.
  - intros s o Hs. destruct o; reflexivity.
Qed.

Lemma isLearning_tracks_guard_witness :
  isLearning tenCandleState = analysisInProgressRef tenCandleState
  /\ exists st' calls,
      run [OnClick; OnFeed (Tick (num 101) 600000 (num 60));
           OnAnalysisSettled (Throw NetworkError)]
          tenCandleState = Return (st', calls)
      /\ isLearning st' = analysisInProgressRef st'.
Proof.
  assert (H : isLearning tenCandleState = analysisInProgressRef tenCandleState)
    by reflexivity.
  split; [exact H |].
  exact (isLearning_tracks_guard _ _ H).
Defined.

Lemma sliceLast_length {A : Type} (n : nat) (a : list A) :
  length (sliceLast n a) = Nat.min n (length a).
Proof. unfold sliceLast. rewrite length_skipn. lia. Qed.

(** X11.  Every analysis request that leaves the component, along any run from
    any state, carries between 10 and 15 candles; and the request a call
    makes carries the last 15 candles that the ref holds, the price of the
    ref and the memory stream. *)
Theorem analysis_request_digest (es : list Event) (st : AppState) :
  (exists st' calls,
      run es st = Return (st', calls) /\ Forall digestInRange calls)
  /\ (forall current candles memory,
         In (CallAnalyzeMarketStrategy current candles memory)
            (snd (runAnalysis st)) ->
         candles = sliceLast 15 (candleDataRef st)
         /\ current = currentPriceRef st
         /\ memory = memoryStream st).
Proof.
  assert (Hrun : forall s, Forall digestInRange (snd (runAnalysis s))).
  { intros s. unfold runAnalysis.
    destruct (analysisInProgressRef s); cbn [orb]; [constructor |].
    destruct (Nat.ltb_spec (length (candleDataRef s)) 10); [constructor |].
    constructor; [| constructor]. unfold digestInRange.
    cbn [candleDataRef setIsLearning setSystemState setAnalysisInProgress].
    rewrite sliceLast_length. lia. }
  split.
  - destruct (run_preserves (fun _ => True) digestInRange)
      with (es := es) (st := st) as [st' [calls [Hr [_ HQ]]]];
      [| exact I | now exists st', calls].
    apply step_preserves.
    + intros s _. split; [exact I | apply Hrun].
    + intros s n _. split; [exact I |]. unfold commit.
      destruct (negb (n =? length (candleData (syncRefs s)))
                && startupCondition (syncRefs s)); [| constructor].
      pose proof (Hrun (syncRefs s)) as H.
      destruct (runAnalysis (syncRefs s)) as [s' calls].
      constructor; [exact I | exact H].
    + trivial.
    + intros s o _. split; [exact I |].
      unfold resumeAfterAnalysis. destruct o; cbn [snd];
        repeat constructor.
    + trivial.
  - intros current candles memory Hin. unfold runAnalysis in Hin.
    destruct (analysisInProgressRef st || (length (candleDataRef st) <? 10));
      cbn in Hin; [contradiction |].
    destruct Hin as [Heq | []]. injection Heq as <- <- <-. now repeat split.
Qed.

Lemma analysis_request_digest_witness :
  In (CallAnalyzeMarketStrategy (currentPriceRef tenCandleState)
                                (sliceLast 15 (candleDataRef tenCandleState))
                                [])
     (snd (runAnalysis tenCandleState))
  /\ sliceLast 15 (candleDataRef tenCandleState)
     = sliceLast 15 (candleDataRef tenCandleState)
  /\ currentPriceRef tenCandleState = currentPriceRef tenCandleState
  /\ @nil string = memoryStream tenCandleState.
Proof.
  assert (H : In (CallAnalyzeMarketStrategy
                    (currentPriceRef tenCandleState)
                    (sliceLast 15 (candleDataRef tenCandleState)) [])
                 (snd (runAnalysis tenCandleState)))
    by (left; reflexivity).
  split; [exact H |].
  exact (proj2 (analysis_request_digest [] tenCandleState) _ _ _ H).
Defined.

(* ===================================================================== *)
(** ** The memory stream *)
(* ===================================================================== *)

Lemma sliceLast_snoc_below {A : Type} (n : nat) (a : list A) (x : A) :
  length a < n -> sliceLast n (a ++ [x]) = a ++ [x].
Proof.
  intros H. unfold sliceLast. rewrite length_app. cbn [length].
  replace (length a + 1 - n) with 0 by lia. reflexivity.
Qed.

Lemma sliceLast_snoc_full {A : Type} (n : nat) (a : list A) (x : A) :
  length a = n -> 0 < n -> sliceLast n (a ++ [x]) = tl a ++ [x].
Proof.
  intros H Hn. unfold sliceLast. rewrite length_app. cbn [length].
  replace (length a + 1 - n) with 1 by lia.
  destruct a as [| y a]; [cbn in H; lia | reflexivity].
Qed.

Lemma archive_step (result : MarketAnalysis) (st : AppState) :
  worthArchiving result = true ->
  lastOf (memoryStream (fst (resumeAfterAnalysis (Return result) st)))
  = Some (learningNode result)
  /\ length (memoryStream (fst (resumeAfterAnalysis (Return result) st)))
     <= 20
  /\ (length (memoryStream st) < 20 ->
      memoryStream (fst (resumeAfterAnalysis (Return result) st))
      = memoryStream st ++ [learningNode result])
  /\ (length (memoryStream st) = 20 ->
      memoryStream (fst (resumeAfterAnalysis (Return result) st))
      = tl (memoryStream st) ++ [learningNode result]).
Proof.
  intros Hw.
  assert (Hm : memoryStream (fst (resumeAfterAnalysis (Return result) st))
               = sliceLast 20 (memoryStream st ++ [learningNode result])).
  { unfold resumeAfterAnalysis, archiveLesson. rewrite Hw. reflexivity. }
  rewrite Hm. split.
  - unfold sliceLast. rewrite length_app. cbn [length].
    rewrite skipn_snoc by lia. apply lastOf_snoc.
  - split; [rewrite sliceLast_length; lia |].
    split; [apply sliceLast_snoc_below |].
    intros H. apply sliceLast_snoc_full; [exact H | lia].
Qed.

(** X12.  Archiving a lesson.  A result that passes the archive test puts its
    lesson at the end of the memory stream; below 20 entries nothing is
    dropped, at 20 entries the oldest one is; the stream never holds more
    than 20 entries afterwards, whatever it held before. *)
Theorem archive_is_bounded_fifo (result : MarketAnalysis) (st : AppState) :
  worthArchiving result = true ->
  lastOf (memoryStream (fst (resumeAfterAnalysis (Return result) st)))
  = Some (learningNode result)
  /\ length (memoryStream (fst (resumeAfterAnalysis (Return result) st)))
     <= 20
  /\ (length (memoryStream st) < 20 ->
      memoryStream (fst (resumeAfterAnalysis (Return result) st))
      = memoryStream st ++ [learningNode result])
  /\ (length (memoryStream st) = 20 ->
      memoryStream (fst (resumeAfterAnalysis (Return result) st))
      = tl (memoryStream st) ++ [learningNode result]).
Proof. apply archive_step. Qed.

Lemma archive_is_bounded_fifo_witness :
  worthArchiving (mkAnalysis "中性 (NEUTRAL)" "观察" "观察" "观察"
                             "量价背离时减仓" 0) = true
  /\ length (memoryStream (initialState (repeat "旧的交易铁律一条"%string 20)))
     = 20
  /\ memoryStream
       (fst (resumeAfterAnalysis
               (Return (mkAnalysis "中性 (NEUTRAL)" "观察" "观察" "观察"
                                   "量价背离时减仓" 0))
               (initialState (repeat "旧的交易铁律一条"%string 20))))
     = tl (memoryStream (initialState (repeat "旧的交易铁律一条"%string 20)))
       ++ ["量价背离时减仓"%string].
Proof.
  assert (H1 : worthArchiving (mkAnalysis "中性 (NEUTRAL)" "观察" "观察" "观察"
                                          "量价背离时减仓" 0) = true)
    by reflexivity.
  assert (H2 : length (memoryStream
                         (initialState (repeat "旧的交易铁律一条"%string 20)))
               = 20) by reflexivity.
  split; [exact H1 |]. split; [exact H2 |].
  destruct (archive_is_bounded_fifo
              (mkAnalysis "中性 (NEUTRAL)" "观察" "观察" "观察"
                          "量价背离时减仓" 0)
              (initialState (repeat "旧的交易铁律一条"%string 20)) H1)
    as [_ [_ [_ A]]].
  exact (A H2).
Defined.

(** X13.  Along every run, a memory stream of at most 20 entries stays at most 20
    entries long. *)
Theorem memoryStream_bounded (es : list Event) (st : AppState) :
  length (memoryStream st) <= 20 ->
  exists st' calls,
    run es st = Return (st', calls) /\ length (memoryStream st') <= 20.
Proof.
  intros H0.
  destruct (run_preserves (fun s => length (memoryStream s) <= 20)
                          (fun _ => True))
    with (es := es) (st := st) as [st' [calls [Hr [HP _]]]];
    [| exact H0 | now exists st', calls].
  apply step_preserves.
  - intros s Hs. split; [| apply Forall_forall; trivial].
    now rewrite (proj1 (proj2 (proj2 (runAnalysis_keeps s)))).
  - intros s n Hs. split; [| apply Forall_forall; trivial].
    now rewrite (proj1 (proj2 (proj2 (commit_keeps n s)))).
  - intros s ev w Hs _. exact Hs.
  - intros s o Hs. split; [| apply Forall_forall; trivial].
    destruct o as [result | e]; [| exact Hs].
    destruct (worthArchiving result) eqn:Hw.
    + apply (archive_step result s Hw).
    + now rewrite resumeAfterAnalysis_memoryStream.
  - intros s o Hs. destruct o; exact Hs.
Qed.

Lemma memoryStream_bounded_witness :
  length (memoryStream tenCandleState) <= 20
  /\ exists st' calls,
      run [OnClick;
           OnAnalysisSettled
             (Return (mkAnalysis "中性 (NEUTRAL)" "观察" "观察" "观察"
                                 "量价背离时减仓" 0))]
          tenCandleState = Return (st', calls)
      /\ length (memoryStream st') <= 20.
Proof.
  assert (H : length (memoryStream tenCandleState) <= 20) by (cbn; lia).
  split; [exact H |].
  exact (memoryStream_bounded _ _ H).
Defined.

(* ===================================================================== *)
(** ** The window along a run; the start-up trigger once a result exists *)
(* ===================================================================== *)

(** X14.  Along every run of the component, the window stays within the bound
    and its indicator fields stay current, also after a signal is stamped
    (which recomputes nothing). *)
Theorem window_sound_along_run (es : list Event) (st : AppState) :
  length (candleData st) <= MAX_CANDLES ->
  indicatorsCurrent (candleData st) ->
  exists st' calls,
    run es st = Return (st', calls)
    /\ length (candleData st') <= MAX_CANDLES
    /\ indicatorsCurrent (candleData st').
Proof.
  intros H1 H2.
  destruct (run_preserves
              (fun s => length (candleData s) <= MAX_CANDLES
                        /\ indicatorsCurrent (candleData s))
              (fun _ => True))
    with (es := es) (st := st) as [st' [calls [Hr [[HP1 HP2] _]]]];
    [| now split | now exists st', calls].
  apply step_preserves.
  - intros s Hs. split; [| apply Forall_forall; trivial].
    now rewrite (proj1 (runAnalysis_keeps s)).
  - intros s n Hs. split; [| apply Forall_forall; trivial].
    now rewrite (proj1 (commit_keeps n s)).
  - intros s ev w _ Hw. cbn [candleData setCandleData]. split.
    + destruct (applyEvent_length ev (candleData s)) as [w' [Hw' Hlen]].
      congruence.
    + rewrite applyEvent_place in Hw. now apply recalculateEMAs_current in Hw.
  - intros s o [Hs1 Hs2]. split; [| apply Forall_forall; trivial].
    destruct o as [result | e]; [| now split].
    assert (Hc : candleData (fst (resumeAfterAnalysis (Return result) s))
                 = stampSignal result (candleData s)).
    { unfold resumeAfterAnalysis, archiveLesson.
      destruct (worthArchiving result); reflexivity. }
    rewrite Hc. split.
    + now rewrite (proj1 (stampSignal_shape result _)).
    + now apply stampSignal_indicators_current.
  - intros s o Hs. destruct o; exact Hs.
Qed.

Lemma window_sound_along_run_witness :
  length (candleData (initialState [])) <= MAX_CANDLES
  /\ indicatorsCurrent (candleData (initialState []))
  /\ exists st' calls,
      run (klineFeed 11
           ++ [OnAnalysisSettled
                 (Return (mkAnalysis "看涨 (BULLISH)" "观察" "观察" "观察"
                                     "量价背离时减仓" 0))])
          (initialState []) = Return (st', calls)
      /\ length (candleData st') <= MAX_CANDLES
      /\ indicatorsCurrent (candleData st').
Proof.
  assert (H1 : length (candleData (initialState [])) <= MAX_CANDLES)
    by (cbn; lia).
  assert (H2 : indicatorsCurrent (candleData (initialState [])))
    by reflexivity.
  split; [exact H1 |]. split; [exact H2 |].
  exact (window_sound_along_run _ _ H1 H2).
Defined.

(** X15.  Once a result has arrived, be it a fallback, the start-up effect never
    asks for an analysis again: along every later run no call comes from
    it, and the result cell stays filled. *)
Theorem startup_trigger_spent (es : list Event) (st : AppState) :
  analysis st <> None ->
  exists st' calls,
    run es st = Return (st', calls)
    /\ analysis st' <> None
    /\ existsb isStartupCall calls = false.
Proof.
  intros H0.
  destruct (run_preserves (fun s => analysis s <> None)
                          (fun c => isStartupCall c = false))
    with (es := es) (st := st) as [st' [calls [Hr [HP HQ]]]];
    [| exact H0 |].
  - apply step_preserves.
    + intros s Hs. split; [now rewrite (proj1 (proj2 (runAnalysis_keeps s))) |].
      unfold runAnalysis.
      destruct (analysisInProgressRef s || (length (candleDataRef s) <? 10));
        repeat constructor.
    + intros s n Hs. unfold commit, startupCondition.
      cbn [analysis syncRefs].
      destruct (analysis s) as [r |] eqn:Ha; [| contradiction].
      rewrite andb_false_r. cbn [fst snd analysis syncRefs].
      rewrite Ha. split; [discriminate | constructor].
    + intros s ev w Hs _. exact Hs.
    + intros s o Hs. unfold resumeAfterAnalysis.
      destruct o as [result | e]; cbn [fst snd].
      * split; [| repeat constructor].
        unfold archiveLesson. destruct (worthArchiving result); discriminate.
      * split; [exact Hs | constructor].
    + intros s o Hs. destruct o; exact Hs.
  - exists st', calls. split; [exact Hr |]. split; [exact HP |].
    clear Hr. induction HQ as [| c calls Hc _ IH]; [reflexivity |].
    cbn [existsb]. now rewrite Hc, IH.
Qed.

Lemma startup_trigger_spent_witness :
  analysis (fst (resumeAfterAnalysis (Return (connectionFallback 0))
                                     pendingState)) <> None
  /\ exists st' calls,
      run (OnHotspotsSettled (Return (mkHotspots "" []))
           :: map (fun c => OnFeed (Kline c))
                  (skipn 10 (minuteCandles 13 (num 100))))
          (fst (resumeAfterAnalysis (Return (connectionFallback 0))
                                    pendingState))
      = Return (st', calls)
      /\ analysis st' <> None
      /\ existsb isStartupCall calls = false.
Proof.
  assert (H : analysis (fst (resumeAfterAnalysis
                               (Return (connectionFallback 0)) pendingState))
              <> None) by (cbn; discriminate).
  split; [exact H |].
  exact (startup_trigger_spent _ _ H).
Defined.

(* ===================================================================== *)
(** ** What the collaborator wrapper returns *)
(* ===================================================================== *)

Lemma orElse_filled (v : option string) (d : string) :
  d <> ""%string -> orElse v d <> ""%string.
Proof.
  intros Hd. destruct v as [[| c s] |]; cbn; [exact Hd | discriminate | exact Hd].
Qed.

Lemma orDefault_truthy (v : JsValue) (d : string) :
  d <> ""%string -> truthy (orDefault v d) = true.
Proof.
  intros Hd. unfold orDefault. destruct (truthy v) eqn:Hv; [exact Hv |].
  cbn. apply negb_true_iff. now apply String.eqb_neq.
Qed.

Lemma truthy_string (s : string) :
  truthy (VString s) = true -> s <> ""%string.
Proof.
  cbn. intros H. apply negb_true_iff in H. now apply String.eqb_neq.
Qed.

(** On an answer in the shape the prompt asks for, the embedding on
    JavaScript values and the typed embedding agree. *)
Lemma orDefault_typed (v : JsValue) (d : string) :
  (truthy v = true -> exists s, v = VString s) ->
  orDefault v d = VString (orElse (stringOf v) d).
Proof.
  intros H. unfold orDefault. destruct (truthy v) eqn:Hv.
  - destruct (H eq_refl) as [s ->]. cbn [stringOf].
    destruct s as [| c s]; [discriminate Hv | reflexivity].
  - destruct v as [| | b | x | s | props]; try reflexivity.
    destruct s as [| c s]; [reflexivity | discriminate Hv].
Qed.

Lemma analyzeMarketStrategyJs_refines
      (JSON_parse : string -> completion JsValue)
      (generateContent : Prompt -> GenerateOutcome)
      (now : Z) (price : float) (trend : string) (memory : list string) :
  (forall text v, JSON_parse text = Return v -> stringFields v) ->
  analyzeMarketStrategyJs JSON_parse generateContent now price trend memory
  = mapReturn objectOf
      (analyzeMarketStrategy
         (fun text => mapReturn typedJson (JSON_parse text))
         generateContent now price trend memory).
Proof.
  intros Hshape. unfold analyzeMarketStrategyJs, analyzeMarketStrategy.
  destruct (awaitGenerate generateContent
                          (mkPrompt price trend (memoryContext memory)))
    as [text_ | e]; [| reflexivity].
  cbn [bind].
  destruct (JSON_parse (cleanJsonString (orElse text_ "{}")))
    as [v | e] eqn:Hp; [| reflexivity].
  pose proof (Hshape _ _ Hp) as Hv.
  destruct v as [| | b | x | s | props]; try reflexivity.
  cbn [mapReturn typedJson readProp getProp bind tryCatch objectOf
       sentiment entryPoint exitPoint reasoning learningNode timestamp].
  cbn [stringFields] in Hv.
  rewrite !orDefault_typed; [reflexivity | | | | |];
    apply Hv; unfold analysisFields; cbn [In]; tauto.
Qed.

(** X16.  Whatever the endpoint answers and whatever [JSON.parse] does with
    the cleaned text (raise, or return [null], a boolean, a number, a
    string, an array or an object whose properties hold values of any kind),
    [analyzeMarketStrategy] returns a result whose five fields are all
    truthy: none of them is [undefined], [null], [false], [0], [NaN] or the
    empty string, so a field that is a string is never empty.  Its time
    stamp is the clock reading. *)
Theorem analyzeMarketStrategy_fields_filled
        (JSON_parse : string -> completion JsValue)
        (generateContent : Prompt -> GenerateOutcome)
        (now : Z) (price : float) (trend : string) (memory : list string) :
  exists r,
    analyzeMarketStrategyJs JSON_parse generateContent now price trend memory
    = Return r
    /\ truthy (sentimentValue r) = true
    /\ truthy (entryPointValue r) = true
    /\ truthy (exitPointValue r) = true
    /\ truthy (reasoningValue r) = true
    /\ truthy (learningNodeValue r) = true
    /\ (forall v s,
           In v [sentimentValue r; entryPointValue r; exitPointValue r;
                 reasoningValue r; learningNodeValue r] ->
           v = VString s -> s <> ""%string)
    /\ timestampValue r = now.
Proof.
  assert (Hall : forall r,
             truthy (sentimentValue r) = true ->
             truthy (entryPointValue r) = true ->
             truthy (exitPointValue r) = true ->
             truthy (reasoningValue r) = true ->
             truthy (learningNodeValue r) = true ->
             forall v s,
               In v [sentimentValue r; entryPointValue r; exitPointValue r;
                     reasoningValue r; learningNodeValue r] ->
               v = VString s -> s <> ""%string).
  { intros r H1 H2 H3 H4 H5 v s Hin ->. apply truthy_string.
    cbn [In] in Hin.
    destruct Hin as [<- | [<- | [<- | [<- | [<- | []]]]]]; assumption. }
  assert (Hfilled : forall s en ex r l,
             let o := mkAnalysisObject
                        (orDefault s "中性 (NEUTRAL)") (orDefault en "观察")
                        (orDefault ex "观察")
                        (orDefault r "市场波动异常，建议保持观望。")
                        (orDefault l "数据积累中...") now in
             truthy (sentimentValue o) = true
             /\ truthy (entryPointValue o) = true
             /\ truthy (exitPointValue o) = true
             /\ truthy (reasoningValue o) = true
             /\ truthy (learningNodeValue o) = true).
  { intros s en ex r l. cbn.
    repeat split; apply orDefault_truthy; discriminate. }
  unfold analyzeMarketStrategyJs.
  destruct (awaitGenerate generateContent
                          (mkPrompt price trend (memoryContext memory)))
    as [text_ | e]; cbn [bind tryCatch].
  - destruct (JSON_parse (cleanJsonString (orElse text_ "{}")))
      as [v | e].
    + destruct v as [| | b | x | s | props];
        cbn [readProp bind tryCatch];
        eexists; (split; [reflexivity |]);
        try (repeat split; try reflexivity;
             apply Hall; reflexivity);
        match goal with
        | |- context [mkAnalysisObject (orDefault ?s _) (orDefault ?en _)
                                       (orDefault ?ex _) (orDefault ?r _)
                                       (orDefault ?l _) _] =>
            destruct (Hfilled s en ex r l) as [H1 [H2 [H3 [H4 H5]]]]
        end;
        repeat (split; [assumption |]);
        (split; [now apply Hall | reflexivity]).
    + eexists. split; [reflexivity |].
      repeat split; try reflexivity. apply Hall; reflexivity.
  - eexists. split; [reflexivity |].
    repeat split; try reflexivity. apply Hall; reflexivity.
Qed.

(** An answer whose [entryPoint] is the number 67000 keeps it, as a
    number. *)
Lemma analyzeMarketStrategyJs_keeps_number :
  exists r,
    analyzeMarketStrategyJs
      (fun _ => Return (VObject (fun name =>
                                   if String.eqb name "entryPoint"
                                   then VNumber (num 67000)
                                   else VUndefined)))
      (fun _ => Fulfilled (Some "{}"%string)) 0 (num 50000) "" []
    = Return r
    /\ entryPointValue r = VNumber (num 67000)
    /\ sentimentValue r = VString "中性 (NEUTRAL)".
Proof. eexists. split; [vm_compute; reflexivity |]. split; reflexivity. Qed.

(** X17.  An answer that parses (to something other than [null]) but carries no
    [learningNode], or an empty one, yields the placeholder lesson; the
    placeholder passes the archive test, so it is appended to the memory
    stream like a lesson. *)
Theorem placeholder_lesson_is_archived
        (JSON_parse : string -> completion JsonValue)
        (generateContent : Prompt -> GenerateOutcome)
        (now : Z) (price : float) (trend : string) (memory : list string)
        (text_ : option string) (v : JsonValue) (st : AppState) :
  generateContent (mkPrompt price trend (memoryContext memory))
  = Fulfilled text_ ->
  JSON_parse (cleanJsonString (orElse text_ "{}")) = Return v ->
  v <> JsonNull ->
  lessonOf v = None \/ lessonOf v = Some ""%string ->
  exists r,
    analyzeMarketStrategy JSON_parse generateContent now price trend memory
    = Return r
    /\ learningNode r = "数据积累中..."%string
    /\ worthArchiving r = true
    /\ memoryStream (fst (resumeAfterAnalysis (Return r) st))
       = sliceLast 20 (memoryStream st ++ ["数据积累中..."%string]).
Proof.
  intros Hg Hp Hv Hl.
  rewrite (analyzeMarketStrategy_parsed _ _ now price trend memory
                                        text_ v Hg Hp).
  eexists. split; [reflexivity |].
  assert (Hnode : learningNode
                    match v with
                    | JsonNull => connectionFallback now
                    | JsonObject props =>
                        mkAnalysis
                          (orElse (props "sentiment"%string) "中性 (NEUTRAL)")
                          (orElse (props "entryPoint"%string) "观察")
                          (orElse (props "exitPoint"%string) "观察")
                          (orElse (props "reasoning"%string)
                                  "市场波动异常，建议保持观望。")
                          (orElse (props "learningNode"%string)
                                  "数据积累中...")
                          now
                    | JsonOther =>
                        mkAnalysis "中性 (NEUTRAL)" "观察" "观察"
                                   "市场波动异常，建议保持观望。"
                                   "数据积累中..." now
                    end = "数据积累中..."%string).
  { destruct v as [| props |]; [contradiction | | reflexivity].
    cbn [lessonOf] in Hl. cbn [learningNode].
    destruct Hl as [-> | ->]; reflexivity. }
  split; [exact Hnode |].
  assert (Hw : forall r, learningNode r = "数据积累中..."%string ->
                         worthArchiving r = true).
  { intros r Hr. unfold worthArchiving. now rewrite Hr. }
  split; [now apply Hw |].
  unfold resumeAfterAnalysis, archiveLesson. rewrite (Hw _ Hnode).
  cbn [fst]. cbn [memoryStream setInFlight setSystemState setMessages
                  setMemoryStream setCandleData setAnalysis].
  now rewrite Hnode.
Qed.

Lemma placeholder_lesson_is_archived_witness :
  answersEmptyObject (mkPrompt (num 50000) "" (memoryContext []))
  = Fulfilled (Some "```json{}```"%string)
  /\ parseBraces (cleanJsonString (orElse (Some "```json{}```"%string) "{}"))
     = Return (JsonObject (fun _ => None))
  /\ JsonObject (fun _ => None) <> JsonNull
  /\ (lessonOf (JsonObject (fun _ => None)) = None
      \/ lessonOf (JsonObject (fun _ => None)) = Some ""%string)
  /\ exists r,
      analyzeMarketStrategy parseBraces answersEmptyObject 0 (num 50000) "" []
      = Return r
      /\ learningNode r = "数据积累中..."%string
      /\ worthArchiving r = true
      /\ memoryStream (fst (resumeAfterAnalysis (Return r) pendingState))
         = sliceLast 20 (memoryStream pendingState ++ ["数据积累中..."%string]).
Proof.
  assert (H1 : answersEmptyObject (mkPrompt (num 50000) "" (memoryContext []))
               = Fulfilled (Some "```json{}```"%string)) by reflexivity.
  assert (H2 : parseBraces
                 (cleanJsonString (orElse (Some "```json{}```"%string) "{}"))
               = Return (JsonObject (fun _ => None)))
    by (vm_compute; reflexivity).
  assert (H3 : JsonObject (fun _ => None) <> JsonNull) by discriminate.
  assert (H4 : lessonOf (JsonObject (fun _ => None)) = None
               \/ lessonOf (JsonObject (fun _ => None)) = Some ""%string)
    by (left; reflexivity).
  repeat (split; [assumption |]).
  exact (placeholder_lesson_is_archived
           parseBraces answersEmptyObject 0 (num 50000) "" []
           _ _ pendingState H1 H2 H3 H4).
Defined.

(** X18.  The memory context of the prompt is built from the last three entries
    of the memory stream only. *)
Theorem memoryContext_last_three (older recent : list string) :
  length recent = 3 ->
  memoryContext (older ++ recent) = memoryContext recent.
Proof.
  intros H.
  assert (H1 : sliceLast 3 (older ++ recent) = recent).
  { unfold sliceLast. rewrite length_app, H.
    replace (length older + 3 - 3) with (length older) by lia.
    now rewrite skipn_app, skipn_all, Nat.sub_diag. }
  assert (H2 : sliceLast 3 recent = recent).
  { unfold sliceLast. now rewrite H. }
  unfold memoryContext. rewrite H1, H2, length_app, H.
  destruct (Nat.ltb_spec 0 (length older + 3)); [reflexivity | lia].
Qed.

Lemma memoryContext_last_three_witness :
  length ["b"; "c"; "d"]%string = 3
  /\ memoryContext (["a"]%string ++ ["b"; "c"; "d"]%string)
     = memoryContext ["b"; "c"; "d"]%string.
Proof.
  assert (H : length ["b"; "c"; "d"]%string = 3) by reflexivity.
  split; [exact H |].
  exact (memoryContext_last_three ["a"%string] _ H).
Defined.

(* ===================================================================== *)
(** ** The hot-spot scan *)
(* ===================================================================== *)

Lemma pushChunk_keeps (P : NewsItem -> Prop) (cs : list GroundingChunk) :
  (forall u t, u <> ""%string -> t <> ""%string ->
               P (mkNews t u "JARVIS NET")) ->
  forall acc, Forall P acc -> Forall P (fold_left pushChunk cs acc).
Proof.
  intros HP. induction cs as [| c cs IH]; intros acc Hacc; [exact Hacc |].
  cbn [fold_left]. apply IH. unfold pushChunk.
  destruct (web c) as [[[[| a u] |] [[| b t] |]] |]; try exact Hacc.
  apply Forall_app. split; [exact Hacc |].
  constructor; [| constructor]. apply HP; discriminate.
Qed.

(** X19.  [fetchMarketHotspots] always returns.  Its summary is never empty; it
    lists at most three news items, each with a title and a url that are
    not empty and the source JARVIS NET; a rejected request yields the
    restricted-link summary and no news. *)
Theorem fetchMarketHotspots_result (outcome : SearchOutcome) :
  exists h,
    fetchMarketHotspots outcome = Return h
    /\ summary h <> ""%string
    /\ length (news h) <= 3
    /\ Forall (fun n => title n <> ""%string /\ url n <> ""%string
                        /\ source n = "JARVIS NET"%string) (news h)
    /\ (forall e, outcome = SearchRejected e ->
                  h = mkHotspots "外部数据链路受限。" []).
Proof.
  destruct outcome as [e | text_ chunks]; cbn [fetchMarketHotspots tryCatch].
  - eexists. split; [reflexivity |]. cbn [summary news length].
    split; [discriminate |]. split; [lia |]. split; [constructor |].
    reflexivity.
  - eexists. split; [reflexivity |]. cbn [summary news].
    split; [apply orElse_filled; discriminate |].
    split; [rewrite length_firstn; lia |].
    split; [| discriminate].
    apply Forall_forall. intros n Hn.
    assert (Hall : Forall (fun n => title n <> ""%string /\ url n <> ""%string
                                    /\ source n = "JARVIS NET"%string)
                          match chunks with
                          | Some cs => fold_left pushChunk cs []
                          | None => []
                          end).
    { destruct chunks as [cs |]; [| constructor].
      apply pushChunk_keeps; [| constructor].
      intros u t Hu Ht. now repeat split. }
    rewrite Forall_forall in Hall. apply Hall.
    rewrite <- (firstn_skipn 3). apply in_or_app. now left.
Qed.

Lemma fetchMarketHotspots_result_witness :
  SearchRejected NetworkError = SearchRejected NetworkError
  /\ exists h,
      fetchMarketHotspots (SearchRejected NetworkError) = Return h
      /\ h = mkHotspots "外部数据链路受限。" [].
Proof.
  split; [reflexivity |].
  destruct (fetchMarketHotspots_result (SearchRejected NetworkError))
    as [h [H1 [_ [_ [_ H2]]]]].
  exists h. split; [exact H1 | exact (H2 _ eq_refl)].
Defined.

(* ===================================================================== *)
(** ** The chat *)
(* ===================================================================== *)

(** [chatWithJarvis] always returns a reply: the apology when the call is
    rejected, the calibration notice when the answer has no text or an empty
    one, the text of the answer otherwise.  The reply is never empty. *)
Lemma chatWithJarvis_replies (outcome : GenerateOutcome) :
  exists reply,
    chatWithJarvis outcome = Return reply
    /\ reply <> ""%string
    /\ (forall e, outcome = Rejected e ->
          reply = "抱歉先生，处理该请求时遇到了一些干扰。"%string)
    /\ (outcome = Fulfilled None \/ outcome = Fulfilled (Some ""%string) ->
        reply = "语音模块校准中..."%string)
    /\ (forall t, outcome = Fulfilled (Some t) -> t <> ""%string -> reply = t).
Proof.
  destruct outcome as [e | [[| c t] |]]; cbn; eexists;
    (split; [reflexivity |]); (split; [discriminate |]);
    (split; [intros e' He'; (discriminate He' || reflexivity) |]);
    (split; [intros [Ho | Ho]; (discriminate Ho || reflexivity) |]);
    intros t' Ht' Hne; try discriminate Ht'.
  - injection Ht' as <-. now contradiction Hne.
  - now injection Ht' as <-.
Qed.

(** X20.  One chat exchange.  An input that is blank once trimmed changes
    nothing and sends nothing.  Any other input is sent as typed, with the
    price and the analysis of the render.  The collaborator always replies:
    with the apology when the call is rejected, with the calibration notice
    when the answer has no text or an empty one, with the text of the answer
    otherwise.  When the handler resumes in the state the send left, the
    message list has grown by exactly the user's message followed by that
    reply, the input box is empty, the status is IDLE, and the window, the
    analysis result, the memory stream, the guard and the suspended analysis
    are as they were. *)
Theorem chat_exchange
        (inputMessage : string) (outcome : GenerateOutcome) (st : AppState) :
  (trim inputMessage = ""%string ->
   handleSendMessage inputMessage st = (st, inputMessage, None))
  /\ (trim inputMessage <> ""%string ->
      exists st1 reply st2,
        handleSendMessage inputMessage st
        = (st1, ""%string,
           Some (mkChatRequest inputMessage (currentPrice st) (analysis st)))
        /\ systemState st1 = PROCESSING
        /\ chatWithJarvis outcome = Return reply
        /\ reply <> ""%string
        /\ (forall e, outcome = Rejected e ->
              reply = "抱歉先生，处理该请求时遇到了一些干扰。"%string)
        /\ (outcome = Fulfilled None \/ outcome = Fulfilled (Some ""%string) ->
            reply = "语音模块校准中..."%string)
        /\ (forall t, outcome = Fulfilled (Some t) -> t <> ""%string ->
              reply = t)
        /\ st2 = resumeSendMessage reply st1
        /\ messages st2
           = messages st ++ [mkMessage USER inputMessage;
                             mkMessage MODEL reply]
        /\ systemState st2 = IDLE
        /\ candleData st2 = candleData st
        /\ analysis st2 = analysis st
        /\ memoryStream st2 = memoryStream st
        /\ analysisInProgressRef st2 = analysisInProgressRef st
        /\ inFlight st2 = inFlight st).
Proof.
  unfold handleSendMessage. split.
  - intros H. now rewrite H.
  - intros H. apply String.eqb_neq in H. rewrite H.
    destruct (chatWithJarvis_replies outcome)
      as [reply [Hr [Hne [Hrej [Hcal Htext]]]]].
    eexists. exists reply. eexists.
    split; [reflexivity |]. split; [reflexivity |].
    split; [exact Hr |]. split; [exact Hne |].
    split; [exact Hrej |]. split; [exact Hcal |]. split; [exact Htext |].
    split; [reflexivity |].
    cbn. rewrite <- app_assoc. now repeat split.
Qed.

Lemma chat_exchange_witness :
  trim "   "%string = ""%string
  /\ trim " status? "%string <> ""%string
  /\ handleSendMessage "   " pendingState = (pendingState, "   "%string, None)
  /\ (exists st1 reply st2,
        handleSendMessage " status? " pendingState
        = (st1, ""%string,
           Some (mkChatRequest " status? " (currentPrice pendingState) (analysis pendingState)))
        /\ systemState st1 = PROCESSING
        /\ chatWithJarvis (Fulfilled (Some "Online."%string)) = Return reply
        /\ reply <> ""%string
        /\ (forall e, (Fulfilled (Some "Online."%string)) = Rejected e ->
              reply = "抱歉先生，处理该请求时遇到了一些干扰。"%string)
        /\ ((Fulfilled (Some "Online."%string)) = Fulfilled None \/ (Fulfilled (Some "Online."%string)) = Fulfilled (Some ""%string) ->
            reply = "语音模块校准中..."%string)
        /\ (forall t, (Fulfilled (Some "Online."%string)) = Fulfilled (Some t) -> t <> ""%string ->
              reply = t)
        /\ st2 = resumeSendMessage reply st1
        /\ messages st2
           = messages pendingState ++ [mkMessage USER " status? ";
                             mkMessage MODEL reply]
        /\ systemState st2 = IDLE
        /\ candleData st2 = candleData pendingState
        /\ analysis st2 = analysis pendingState
        /\ memoryStream st2 = memoryStream pendingState
        /\ analysisInProgressRef st2 = analysisInProgressRef pendingState
        /\ inFlight st2 = inFlight pendingState)
  /\ exists reply,
      chatWithJarvis (Rejected NetworkError) = Return reply
      /\ reply = "抱歉先生，处理该请求时遇到了一些干扰。"%string.
Proof.
  assert (H1 : trim "   "%string = ""%string) by (vm_compute; reflexivity).
  assert (H2 : trim " status? "%string <> ""%string)
    by (vm_compute; discriminate).
  split; [exact H1 |]. split; [exact H2 |].
  split; [| split].
  - exact (proj1 (chat_exchange "   " (Rejected NetworkError) pendingState) H1).
  - exact (proj2 (chat_exchange " status? " (Fulfilled (Some "Online."%string))
                                pendingState) H2).
  - destruct (proj2 (chat_exchange " status? " (Rejected NetworkError)
                                   pendingState) H2)
      as [_ [reply [_ [_ [_ [Hr [_ [Hrej _]]]]]]]].
    exists reply. split; [exact Hr | exact (Hrej _ eq_refl)].
Defined.

(* ===================================================================== *)
(** ** Strings: append, prefix, removal, search, substring *)
(* ===================================================================== *)

Lemma append_assoc (a b c : string) :
  ((a ++ b) ++ c = a ++ (b ++ c))%string.
Proof. induction a as [| x a IH]; cbn; [reflexivity | now rewrite IH]. Qed.

Lemma length_append (a b : string) :
  String.length (a ++ b) = String.length a + String.length b.
Proof. induction a as [| x a IH]; cbn; [reflexivity | now rewrite IH]. Qed.

Lemma occurs_append (c : ascii) (a b : string) :
  occurs c (a ++ b) = occurs c a || occurs c b.
Proof.
  induction a as [| x a IH]; cbn; [reflexivity |].
  now rewrite IH, orb_assoc.
Qed.

Lemma prefix_split (c : ascii) (P : string) : forall x y,
  occurs c P = false ->
  String.prefix P (x ++ String c y) = String.prefix P x.
Proof.
  induction P as [| p P IH]; intros x y Hc; [destruct x; reflexivity |].
  cbn [occurs] in Hc. apply orb_false_iff in Hc. destruct Hc as [Hp HP].
  destruct x as [| d x]; cbn.
  - destruct (ascii_dec p c) as [-> | _]; [| reflexivity].
    rewrite Ascii.eqb_refl in Hp. discriminate.
  - destruct (ascii_dec p d); [now apply IH | reflexivity].
Qed.

Lemma prefix_length (P : string) : forall x,
  String.prefix P x = true -> String.length P <= String.length x.
Proof.
  induction P as [| p P IH]; intros x H; [cbn; lia |].
  destruct x as [| d x]; [discriminate |]. cbn in H.
  destruct (ascii_dec p d); [| discriminate].
  cbn. apply IH in H. lia.
Qed.

(** Removal works on either side of a byte that the pattern does not
    hold. *)
Lemma removeAllFrom_split (c : ascii) (P : string) (y : string) :
  occurs c P = false ->
  forall x k,
    k <= String.length x ->
    removeAllFrom P (x ++ String c y) k
    = (removeAllFrom P x k ++ removeAllFrom P (String c y) 0)%string.
Proof.
  intros Hc. induction x as [| d x IH]; intros k Hk.
  - cbn in Hk. replace k with 0 by lia. reflexivity.
  - destruct k as [| n].
    + cbn [append removeAllFrom].
      change (String d (x ++ String c y)) with (String d x ++ String c y)%string.
      rewrite (prefix_split c P (String d x) y Hc).
      destruct (String.prefix P (String d x)) eqn:Hpre.
      * apply prefix_length in Hpre. cbn in Hpre. apply IH. lia.
      * cbn [append]. now rewrite IH by lia.
    + cbn [append removeAllFrom]. apply IH. cbn in Hk. lia.
Qed.

(** Text without a backtick passes a pattern that starts with one. *)
Lemma removeAllFrom_passes (P' : string) (r : string) : forall x,
  occurs "`" x = false ->
  removeAllFrom (String "`" P') (x ++ r) 0
  = (x ++ removeAllFrom (String "`" P') r 0)%string.
Proof.
  induction x as [| d x IH]; intros Hx; [reflexivity |].
  cbn [occurs] in Hx. apply orb_false_iff in Hx. destruct Hx as [Hd Hx].
  cbn [append removeAllFrom String.prefix].
  destruct (ascii_dec "`" d) as [Heq | _].
  - rewrite <- Heq, Ascii.eqb_refl in Hd. discriminate.
  - now rewrite IH.
Qed.

(** Removal only deletes. *)
Lemma removeAllFrom_occurs (c : ascii) (P : string) : forall x k,
  occurs c x = false -> occurs c (removeAllFrom P x k) = false.
Proof.
  induction x as [| d x IH]; intros k Hx; [reflexivity |].
  cbn [occurs] in Hx. apply orb_false_iff in Hx. destruct Hx as [Hd Hx].
  cbn [removeAllFrom]. destruct k as [| n]; [| now apply IH].
  destruct (String.prefix P (String d x)); [now apply IH |].
  cbn. rewrite Hd. now apply IH.
Qed.

(** One removal pass over text in which a stretch [mid] without backticks
    sits between two bytes [x] and [y] that are not backticks, [x] not
    being in the pattern either: only what lies outside is worked on. *)
Lemma removeAll_around (P' pre mid post : string) (x y : ascii) :
  occurs x (String "`" P') = false ->
  occurs "`" (String x (mid ++ String y "")) = false ->
  removeAll (String "`" P') (pre ++ String x (mid ++ String y post))
  = (removeAll (String "`" P') pre
     ++ String x (mid ++ String y (removeAll (String "`" P') post)))%string.
Proof.
  intros HP Hmid. unfold removeAll.
  rewrite (removeAllFrom_split x (String "`" P') _ HP pre 0) by lia.
  f_equal.
  replace (String x (mid ++ String y post))
    with ((String x (mid ++ String y "")) ++ post)%string
    by (cbn [append]; now rewrite append_assoc).
  rewrite removeAllFrom_passes by exact Hmid.
  cbn [append]. now rewrite append_assoc.
Qed.

Lemma indexOfFrom_first (c : ascii) (y : string) : forall x i,
  occurs c x = false ->
  indexOfFrom c (x ++ String c y) i = Some (i + String.length x).
Proof.
  induction x as [| d x IH]; intros i Hx; cbn.
  - now rewrite Ascii.eqb_refl, Nat.add_0_r.
  - cbn [occurs] in Hx. apply orb_false_iff in Hx. destruct Hx as [Hd Hx].
    rewrite Hd, IH by exact Hx. f_equal. lia.
Qed.

Lemma indexOfFrom_none (c : ascii) : forall x i,
  occurs c x = false -> indexOfFrom c x i = None.
Proof.
  induction x as [| d x IH]; intros i Hx; [reflexivity |].
  cbn [occurs] in Hx. apply orb_false_iff in Hx. destruct Hx as [Hd Hx].
  cbn. now rewrite Hd, IH.
Qed.

Lemma lastIndexOfFrom_append (c : ascii) (s : string) : forall x i found,
  lastIndexOfFrom c (x ++ s) i found
  = lastIndexOfFrom c s (i + String.length x) (lastIndexOfFrom c x i found).
Proof.
  induction x as [| d x IH]; intros i found; cbn.
  - now rewrite Nat.add_0_r.
  - rewrite IH. f_equal. lia.
Qed.

Lemma lastIndexOfFrom_none (c : ascii) : forall x i found,
  occurs c x = false -> lastIndexOfFrom c x i found = found.
Proof.
  induction x as [| d x IH]; intros i found Hx; [reflexivity |].
  cbn [occurs] in Hx. apply orb_false_iff in Hx. destruct Hx as [Hd Hx].
  cbn. now rewrite Hd, IH.
Qed.

Lemma lastIndexOfFrom_last (c : ascii) (x y : string) (i : nat)
      (found : option nat) :
  occurs c y = false ->
  lastIndexOfFrom c (x ++ String c y) i found = Some (i + String.length x).
Proof.
  intros Hy. rewrite lastIndexOfFrom_append. cbn.
  now rewrite Ascii.eqb_refl, lastIndexOfFrom_none.
Qed.

Lemma substring_skip (n : nat) (y : string) : forall x,
  String.substring (String.length x) n (x ++ y) = String.substring 0 n y.
Proof. induction x as [| d x IH]; cbn; [reflexivity | exact IH]. Qed.

Lemma substring_take (z : string) : forall y,
  String.substring 0 (String.length y) (y ++ z) = y.
Proof.
  induction y as [| d y IH]; cbn; [destruct z; reflexivity | now rewrite IH].
Qed.

Lemma list_ascii_of_append (a b : string) :
  list_ascii_of_string (a ++ b)
  = list_ascii_of_string a ++ list_ascii_of_string b.
Proof. induction a as [| x a IH]; cbn; [reflexivity | now rewrite IH]. Qed.

Lemma string_of_list_app (l1 l2 : list ascii) :
  string_of_list_ascii (l1 ++ l2)
  = (string_of_list_ascii l1 ++ string_of_list_ascii l2)%string.
Proof. induction l1 as [| x l1 IH]; cbn; [reflexivity | now rewrite IH]. Qed.

Lemma occurs_In (c : ascii) (s : string) :
  occurs c s = false <-> ~ In c (list_ascii_of_string s).
Proof.
  induction s as [| d s IH]; cbn [occurs list_ascii_of_string In].
  - tauto.
  - rewrite orb_false_iff, IH. destruct (Ascii.eqb_spec c d); intuition congruence.
Qed.

(* ===================================================================== *)
(** ** Trimming keeps what lies between two bytes that are not white space *)
(* ===================================================================== *)

Lemma stripPrefix_keeps (x : ascii) (r : list ascii) : forall w a l',
  ~ In x w ->
  stripPrefix w (a ++ x :: r) = Some l' ->
  exists a2, a = w ++ a2 /\ l' = a2 ++ x :: r.
Proof.
  induction w as [| c w IH]; intros a l' Hx H.
  - cbn in H. injection H as <-. now exists a.
  - destruct a as [| d a]; cbn [app stripPrefix] in H.
    + destruct (Ascii.eqb_spec c x) as [-> | _]; [| discriminate].
      exfalso. apply Hx. now left.
    + destruct (Ascii.eqb_spec c d) as [-> | _]; [| discriminate].
      destruct (IH a l' (fun Hin => Hx (or_intror Hin)) H) as [a2 [-> ->]].
      now exists a2.
Qed.

Lemma stripOne_keeps (x : ascii) (r : list ascii) (ws : list (list ascii)) :
  Forall (fun w => ~ In x w) ws ->
  forall a l',
    stripOne ws (a ++ x :: r) = Some l' ->
    exists p a2, a = p ++ a2 /\ l' = a2 ++ x :: r.
Proof.
  induction 1 as [| w ws Hw _ IH]; intros a l' H; [discriminate |].
  cbn [stripOne] in H.
  destruct (stripPrefix w (a ++ x :: r)) as [l1 |] eqn:Hs.
  - injection H as <-.
    destruct (stripPrefix_keeps x r w a l1 Hw Hs) as [a2 [-> ->]].
    now exists w, a2.
  - now apply IH.
Qed.

Lemma stripAll_keeps (x : ascii) (r : list ascii) (ws : list (list ascii)) :
  Forall (fun w => ~ In x w) ws ->
  forall fuel a,
    exists p a', a = p ++ a' /\ stripAll fuel ws (a ++ x :: r) = a' ++ x :: r.
Proof.
  intros Hws. induction fuel as [| n IH]; intros a.
  - now exists [], a.
  - cbn [stripAll].
    destruct (stripOne ws (a ++ x :: r)) as [l1 |] eqn:Hs; [| now exists [], a].
    destruct (stripOne_keeps x r ws Hws a l1 Hs) as [p [a2 [-> ->]]].
    destruct (IH a2) as [p' [a' [-> ->]]].
    exists (p ++ p'), a'. now rewrite app_assoc.
Qed.

Lemma patterns_without (c : ascii) (ws : list (list ascii)) :
  forallb (fun w => negb (existsb (Ascii.eqb c) w)) ws = true ->
  Forall (fun w => ~ In c w) ws.
Proof.
  rewrite forallb_forall. intros H. apply Forall_forall. intros w Hw Hin.
  specialize (H w Hw). apply negb_true_iff in H.
  assert (Ht : existsb (Ascii.eqb c) w = true).
  { apply existsb_exists. exists c. split; [exact Hin | apply Ascii.eqb_refl]. }
  congruence.
Qed.

(** [trim] takes bytes off the two ends only: between a byte [x] and a
    byte [y] that no white space holds, nothing is lost. *)
Lemma trim_keeps (x y : ascii) (a r p : list ascii) :
  Forall (fun w => ~ In x w) whiteSpace ->
  Forall (fun w => ~ In y w) (map (@rev ascii) whiteSpace) ->
  exists a1 a' p' p1,
    a = a1 ++ a' /\ p = p' ++ p1
    /\ trim (string_of_list_ascii (a ++ x :: r ++ y :: p))
       = string_of_list_ascii (a' ++ x :: r ++ y :: p').
Proof.
  intros Hx Hy. unfold trim.
  rewrite list_ascii_of_string_of_list_ascii.
  destruct (stripAll_keeps x (r ++ y :: p) whiteSpace Hx
                           (length (a ++ x :: r ++ y :: p)) a)
    as [a1 [a' [Ha ->]]].
  assert (Hrev : rev (a' ++ x :: r ++ y :: p)
                 = rev p ++ y :: rev (a' ++ x :: r)).
  { replace (a' ++ x :: r ++ y :: p) with ((a' ++ x :: r) ++ y :: p)
      by (rewrite <- app_assoc; reflexivity).
    rewrite rev_app_distr. cbn [rev]. now rewrite <- app_assoc. }
  rewrite Hrev.
  destruct (stripAll_keeps y (rev (a' ++ x :: r)) (map (@rev ascii) whiteSpace)
                           Hy (length (a' ++ x :: r ++ y :: p)) (rev p))
    as [q [p2 [Hp ->]]].
  exists a1, a', (rev p2), (rev q).
  split; [exact Ha |]. split.
  - rewrite <- rev_app_distr, <- Hp. now rewrite rev_involutive.
  - f_equal. rewrite rev_app_distr. cbn [rev].
    rewrite rev_involutive, <- !app_assoc. reflexivity.
Qed.

Lemma no_white_brace :
  Forall (fun w => ~ In "{"%char w) whiteSpace
  /\ Forall (fun w => ~ In "}"%char w) whiteSpace
  /\ Forall (fun w => ~ In "{"%char w) (map (@rev ascii) whiteSpace)
  /\ Forall (fun w => ~ In "}"%char w) (map (@rev ascii) whiteSpace).
Proof. repeat split; apply patterns_without; vm_compute; reflexivity. Qed.

(** After the two removals and the trim: what was between [x] and [y] is
    still there, between what is left of [pre] and of [post]. *)
Lemma cleaned_around (pre mid post : string) (x y : ascii) :
  occurs x "```json" = false ->
  occurs "`" (String x (mid ++ String y "")) = false ->
  Forall (fun w => ~ In x w) whiteSpace ->
  Forall (fun w => ~ In y w) (map (@rev ascii) whiteSpace) ->
  exists pre' post',
    trim (removeAll "```"
            (removeAll "```json" (pre ++ String x (mid ++ String y post))))
    = (pre' ++ String x (mid ++ String y post'))%string
    /\ (forall c, occurs c pre = false -> occurs c pre' = false)
    /\ (forall c, occurs c post = false -> occurs c post' = false).
Proof.
  intros HP Hmid Hx Hy.
  assert (HP' : occurs x "```" = false).
  { cbn [occurs] in HP |- *.
    destruct (Ascii.eqb x "`"); [discriminate HP | reflexivity]. }
  rewrite (removeAll_around "``json" pre mid post x y HP Hmid).
  rewrite (removeAll_around "``" _ mid _ x y HP' Hmid).
  set (pre2 := removeAll "```" (removeAll "```json" pre)).
  set (post2 := removeAll "```" (removeAll "```json" post)).
  destruct (trim_keeps x y (list_ascii_of_string pre2)
                       (list_ascii_of_string mid)
                       (list_ascii_of_string post2) Hx Hy)
    as [a1 [a' [p' [p1 [Ha [Hp Htrim]]]]]].
  assert (Hs : (pre2 ++ String x (mid ++ String y post2))%string
               = string_of_list_ascii
                   (list_ascii_of_string pre2
                    ++ x :: list_ascii_of_string mid
                    ++ y :: list_ascii_of_string post2)).
  { rewrite string_of_list_app. cbn [string_of_list_ascii].
    rewrite string_of_list_app. cbn [string_of_list_ascii].
    now rewrite !string_of_list_ascii_of_string. }
  rewrite Hs, Htrim.
  exists (string_of_list_ascii a'), (string_of_list_ascii p').
  split.
  - rewrite string_of_list_app. cbn [string_of_list_ascii].
    rewrite string_of_list_app. cbn [string_of_list_ascii].
    now rewrite string_of_list_ascii_of_string.
  - split; intros c Hc.
    + apply occurs_In. rewrite list_ascii_of_string_of_list_ascii.
      assert (H2 : occurs c pre2 = false)
        by (unfold pre2, removeAll; now do 2 apply removeAllFrom_occurs).
      apply occurs_In in H2. rewrite Ha in H2.
      intros Hin. apply H2. apply in_or_app. now right.
    + apply occurs_In. rewrite list_ascii_of_string_of_list_ascii.
      assert (H2 : occurs c post2 = false)
        by (unfold post2, removeAll; now do 2 apply removeAllFrom_occurs).
      apply occurs_In in H2. rewrite Hp in H2.
      intros Hin. apply H2. apply in_or_app. now left.
Qed.

(* ===================================================================== *)
(** ** [cleanJsonString] *)
(* ===================================================================== *)

(** X21.  [cleanJsonString] extracts the object.  When the answer holds an
    opening brace with none before it, a closing brace with none after it,
    and no backtick in between, the result is exactly the text from the one
    brace to the other: code fences, a [json] tag, prose and white space
    around it are dropped, and nothing inside is touched. *)
Theorem cleanJsonString_extracts_object (pre mid post : string) :
  occurs "{" pre = false ->
  occurs "}" post = false ->
  occurs "`" mid = false ->
  cleanJsonString (pre ++ "{" ++ mid ++ "}" ++ post)
  = ("{" ++ mid ++ "}")%string.
Proof.
  intros Hpre Hpost Hmid.
  destruct no_white_brace as [Hw1 [_ [_ Hw2]]].
  destruct (cleaned_around pre mid post "{" "}") as [pre' [post' [Hc [Ha Hb]]]];
    [reflexivity | | exact Hw1 | exact Hw2 |].
  { cbn [occurs]. rewrite occurs_append, Hmid. reflexivity. }
  unfold cleanJsonString.
  change (pre ++ "{" ++ mid ++ "}" ++ post)%string
    with (pre ++ String "{" (mid ++ String "}" post))%string.
  rewrite Hc. unfold indexOf, lastIndexOf.
  rewrite (indexOfFrom_first "{" _ pre' 0 (Ha _ Hpre)).
  replace (pre' ++ String "{" (mid ++ String "}" post'))%string
    with ((pre' ++ String "{" mid) ++ String "}" post')%string
    by (rewrite append_assoc; reflexivity).
  rewrite (lastIndexOfFrom_last "}" _ post' 0 None (Hb _ Hpost)).
  unfold substring_. rewrite length_append. cbn [String.length plus].
  replace (Nat.min (String.length pre') (String.length pre' + S (String.length mid) + 1))
    with (String.length pre') by lia.
  replace (Nat.max (String.length pre') (String.length pre' + S (String.length mid) + 1)
           - String.length pre')
    with (String.length (String "{" (mid ++ "}")))
    by (cbn [String.length]; rewrite length_append; cbn [String.length]; lia).
  replace ((pre' ++ String "{" mid) ++ String "}" post')%string
    with (pre' ++ (String "{" (mid ++ "}") ++ post'))%string
    by (cbn [append]; rewrite !append_assoc; reflexivity).
  rewrite substring_skip, substring_take. reflexivity.
Qed.

Lemma cleanJsonString_extracts_object_witness :
  occurs "{" "Here is the plan: ```json " = false
  /\ occurs "}" " ``` Good luck." = false
  /\ occurs "`" " sentiment: {BULLISH} " = false
  /\ cleanJsonString ("Here is the plan: ```json "
                      ++ "{" ++ " sentiment: {BULLISH} " ++ "}"
                      ++ " ``` Good luck.")
     = ("{" ++ " sentiment: {BULLISH} " ++ "}")%string.
Proof.
  assert (H1 : occurs "{" "Here is the plan: ```json " = false)
    by reflexivity.
  assert (H2 : occurs "}" " ``` Good luck." = false) by reflexivity.
  assert (H3 : occurs "`" " sentiment: {BULLISH} " = false) by reflexivity.
  repeat (split; [assumption |]).
  exact (cleanJsonString_extracts_object _ _ _ H1 H2 H3).
Defined.

(** X22.  When the only closing braces come before the only opening braces,
    [substring] swaps its arguments: the result is the text strictly
    between the last closing brace and the first opening brace, and holds no
    brace at all. *)
Theorem cleanJsonString_reversed_braces (a m c : string) :
  occurs "{" a = false ->
  occurs "{" m = false ->
  occurs "}" m = false ->
  occurs "}" c = false ->
  occurs "`" m = false ->
  cleanJsonString (a ++ "}" ++ m ++ "{" ++ c) = m.
Proof.
  intros Ha Hm1 Hm2 Hc Hm.
  destruct no_white_brace as [_ [Hw1 [Hw2 _]]].
  destruct (cleaned_around a m c "}" "{") as [a' [c' [Hcl [Hpa Hpc]]]];
    [reflexivity | | exact Hw1 | exact Hw2 |].
  { cbn [occurs]. rewrite occurs_append, Hm. reflexivity. }
  unfold cleanJsonString.
  change (a ++ "}" ++ m ++ "{" ++ c)%string
    with (a ++ String "}" (m ++ String "{" c))%string.
  rewrite Hcl. unfold indexOf, lastIndexOf.
  assert (Hfirst : indexOfFrom "{" (a' ++ String "}" (m ++ String "{" c')) 0
                   = Some (String.length a' + S (String.length m))).
  { replace (a' ++ String "}" (m ++ String "{" c'))%string
      with ((a' ++ String "}" m) ++ String "{" c')%string
      by (rewrite append_assoc; reflexivity).
    rewrite indexOfFrom_first.
    - rewrite length_append. reflexivity.
    - rewrite occurs_append, (Hpa _ Ha). cbn [occurs orb]. exact Hm1. }
  assert (Hlast : lastIndexOfFrom "}" (a' ++ String "}" (m ++ String "{" c'))
                                  0 None
                  = Some (String.length a')).
  { rewrite lastIndexOfFrom_last; [reflexivity |].
    rewrite occurs_append, Hm2. cbn [occurs orb]. apply Hpc, Hc. }
  rewrite Hfirst, Hlast. unfold substring_.
  replace (Nat.min (String.length a' + S (String.length m))
                   (String.length a' + 1))
    with (String.length (a' ++ "}")) by (rewrite length_append; cbn; lia).
  replace (Nat.max (String.length a' + S (String.length m))
                   (String.length a' + 1)
           - String.length (a' ++ "}"))
    with (String.length m) by (rewrite length_append; cbn; lia).
  replace (a' ++ String "}" (m ++ String "{" c'))%string
    with ((a' ++ "}") ++ (m ++ String "{" c'))%string
    by (rewrite append_assoc; reflexivity).
  rewrite substring_skip, substring_take. reflexivity.
Qed.

Lemma cleanJsonString_reversed_braces_witness :
  occurs "{" "  done} " = false
  /\ occurs "{" "and then" = false
  /\ occurs "}" "and then" = false
  /\ occurs "}" " {more " = false
  /\ occurs "`" "and then" = false
  /\ cleanJsonString ("  done} " ++ "}" ++ "and then" ++ "{" ++ " {more ")
     = "and then"%string.
Proof.
  assert (H1 : occurs "{" "  done} " = false) by reflexivity.
  assert (H2 : occurs "{" "and then" = false) by reflexivity.
  assert (H3 : occurs "}" "and then" = false) by reflexivity.
  assert (H4 : occurs "}" " {more " = false) by reflexivity.
  assert (H5 : occurs "`" "and then" = false) by reflexivity.
  repeat (split; [assumption |]).
  exact (cleanJsonString_reversed_braces _ _ _ H1 H2 H3 H4 H5).
Defined.

(* ===================================================================== *)
(** ** Where an event lands *)
(* ===================================================================== *)

(** The last candle after an event: at the key of the event, closing at the
    price of the event. *)
Lemma applyEvent_last (ev : FeedEvent) (w : list CandleData) :
  exists w' l,
    applyEvent ev w = Return w'
    /\ lastOf w' = Some l
    /\ time l = keyOf ev
    /\ close l = priceOf ev
    /\ (forall c, ev = Kline c ->
          open l = open c /\ high l = high c /\ low l = low c
          /\ volume l = volume c).
Proof.
  destruct (place_last ev w) as [b [x [Hp Hx]]].
  destruct (applyEvent_after_place ev w b x Hp) as [b1 [x1 [Hw1 [Hx1 _]]]].
  destruct (core_fields _ _ Hx1) as [Ht [Ho [Hh [Hl [Hc [Hv _]]]]]].
  exists (b1 ++ [x1]), x1. split; [exact Hw1 |].
  rewrite lastOf_snoc. split; [reflexivity |].
  destruct (place_ends ev w) as [b' [x' [Hp' [Hkey _]]]].
  assert (x' = x).
  { rewrite Hp in Hp'. apply app_inj_tail in Hp'. now destruct Hp'. }
  subst x'.
  split; [congruence |].
  split.
  - rewrite Hc. destruct Hx as [-> | [l ->]]; destruct ev; reflexivity.
  - intros c ->. rewrite Ho, Hh, Hl, Hv.
    destruct Hx as [-> | [l ->]]; now repeat split.
Qed.

(** X23.  Every kline becomes the last candle of the window, verbatim in time,
    open, high, low, close and volume, whatever the window held. *)
Theorem kline_becomes_last (c : CandleData) (w : list CandleData) :
  exists w' l,
    updateCandles c w = Return w'
    /\ lastOf w' = Some l
    /\ time l = time c
    /\ open l = open c /\ high l = high c /\ low l = low c
    /\ close l = close c /\ volume l = volume c.
Proof.
  destruct (applyEvent_last (Kline c) w) as [w' [l [Hw [Hl [Ht [Hc H]]]]]].
  destruct (H c eq_refl) as [Ho [Hh [Hlo Hv]]].
  exists w', l. now repeat split.
Qed.

(** X24.  Every tick of a ticker that carries a date is booked in the
    candle of its own minute.  The time [ms] of the tick is what the
    Coinbase handler passes, [new Date(data.time).getTime()].  The key of
    the candle is the start of the minute that holds [ms] (a multiple of
    60000 ms, at most [ms] and less than a minute before it); after the call
    it is the last candle of the window and closes at the tick's price.
    (A ticker without a date reaches [aggregateCandleLocally] with NaN for
    a time; no minute holds it, and nothing is said of it here.) *)
Theorem tick_lands_in_its_minute
        (price vol : float) (t : TickerTime) (ev : FeedEvent)
        (w : list CandleData) :
  coinbaseTick price t vol = Some ev ->
  exists ms,
    getTime t = Some ms
    /\ ev = Tick price ms vol
    /\ (candleTimeOf ms mod 60000 = 0)%Z
    /\ (candleTimeOf ms <= ms < candleTimeOf ms + 60000)%Z
    /\ exists w' l,
        aggregateCandleLocally price ms vol w = Return w'
        /\ lastOf w' = Some l
        /\ time l = candleTimeOf ms
        /\ close l = price.
Proof.
  unfold coinbaseTick. intros Hev.
  destruct (getTime t) as [ms |]; [| discriminate].
  injection Hev as <-. exists ms.
  split; [reflexivity |]. split; [reflexivity |].
  unfold candleTimeOf. split; [apply Z.mod_mul; lia |].
  split.
  - pose proof (Z.mod_pos_bound ms 60000 ltac:(lia)) as Hm.
    pose proof (Z.div_mod ms 60000 ltac:(lia)) as Hd. lia.
  - destruct (applyEvent_last (Tick price ms vol) w)
      as [w' [l [Hw [Hl [Ht [Hc _]]]]]].
    now exists w', l.
Qed.

Lemma tick_lands_in_its_minute_witness :
  coinbaseTick (num 101) (DateAt 1700000030500) (num 6)
  = Some (Tick (num 101) 1700000030500 (num 6))
  /\ exists ms,
      getTime (DateAt 1700000030500) = Some ms
      /\ Tick (num 101) 1700000030500 (num 6) = Tick (num 101) ms (num 6)
      /\ (candleTimeOf ms mod 60000 = 0)%Z
      /\ (candleTimeOf ms <= ms < candleTimeOf ms + 60000)%Z
      /\ exists w' l,
          aggregateCandleLocally (num 101) ms (num 6)
                                 (minuteCandles 3 (num 100)) = Return w'
          /\ lastOf w' = Some l
          /\ time l = candleTimeOf ms
          /\ close l = num 101.
Proof.
  assert (H : coinbaseTick (num 101) (DateAt 1700000030500) (num 6)
              = Some (Tick (num 101) 1700000030500 (num 6)))
    by reflexivity.
  split; [exact H |].
  exact (tick_lands_in_its_minute (num 101) (num 6) _ _
                                  (minuteCandles 3 (num 100)) H).
Defined.

(** X25.  After every feed message the price in the header is the close of the
    last candle, and it stays so along every run of the component. *)
Theorem header_price_is_last_close (es : list Event) (st : AppState) :
  priceShown st ->
  exists st' calls, run es st = Return (st', calls) /\ priceShown st'.
Proof.
  intros H0.
  assert (Hrun : forall s, priceShown s -> priceShown (fst (runAnalysis s))).
  { intros s Hs. unfold runAnalysis.
    destruct (analysisInProgressRef s || (length (candleDataRef s) <? 10));
      exact Hs. }
  destruct (run_preserves priceShown (fun _ => True))
    with (es := es) (st := st) as [st' [calls [Hr [HP _]]]];
    [| exact H0 | now exists st', calls].
  apply step_preserves.
  - intros s Hs. split; [now apply Hrun | apply Forall_forall; trivial].
  - intros s n Hs. split; [| apply Forall_forall; trivial].
    unfold commit.
    destruct (negb (n =? length (candleData (syncRefs s)))
              && startupCondition (syncRefs s)); [| exact Hs].
    pose proof (Hrun (syncRefs s) Hs) as H.
    destruct (runAnalysis (syncRefs s)) as [s' calls]. exact H.
  - intros s ev w _ Hw. unfold priceShown.
    cbn [candleData currentPrice setCandleData setCurrentPrice].
    destruct (applyEvent_last ev (candleData s))
      as [w' [l [Hw' [Hl [_ [Hc _]]]]]].
    assert (w' = w) by congruence. subst w'. now rewrite Hl.
  - intros s o Hs. split; [| apply Forall_forall; trivial].
    destruct o as [result | e]; [| exact Hs].
    unfold priceShown in *.
    assert (Hc : candleData (fst (resumeAfterAnalysis (Return result) s))
                 = stampSignal result (candleData s)
                 /\ currentPrice (fst (resumeAfterAnalysis (Return result) s))
                    = currentPrice s).
    { unfold resumeAfterAnalysis, archiveLesson.
      destruct (worthArchiving result); split; reflexivity. }
    destruct Hc as [-> ->].
    destruct (stampSignal_cases result (candleData s))
      as [-> | [b [l [sg [Hw [_ ->]]]]]]; [exact Hs |].
    rewrite Hw, lastOf_snoc in Hs. rewrite lastOf_snoc. exact Hs.
  - intros s o Hs. destruct o; exact Hs.
Qed.

Lemma header_price_is_last_close_witness :
  priceShown (initialState [])
  /\ exists st' calls,
      run (klineFeed 3 ++ [OnFeed (Tick (num 103) 130000 (num 60))])
          (initialState []) = Return (st', calls)
      /\ priceShown st'.
Proof.
  assert (H : priceShown (initialState [])) by exact I.
  split; [exact H |].
  exact (header_price_is_last_close _ _ H).
Defined.

(* ===================================================================== *)
(** ** The order of binary64 numbers *)
(* ===================================================================== *)

(** On numbers, the comparison of the specification is the lexicographic
    comparison of the ranks. *)
Lemma SFcompare_rank (a b : spec_float) :
  a <> S754_nan -> b <> S754_nan ->
  SFcompare a b = Some (lex (rank a) (rank b)).
Proof.
  intros Ha Hb.
  destruct a as [sa | sa | | sa ma ea]; try contradiction;
    destruct b as [sb | sb | | sb mb eb]; try contradiction;
    try destruct sa; try destruct sb; cbn; try reflexivity.
  rewrite Z.compare_opp, (Z.compare_antisym ea eb).
  destruct (ea ?= eb)%Z; cbn; reflexivity.
Qed.

Lemma lex_refl (r : Z * Z * Z) : lex r r = Eq.
Proof. destruct r as [[c e] m]. cbn. now rewrite !Z.compare_refl. Qed.

Lemma lex_antisym (r1 r2 : Z * Z * Z) : lex r2 r1 = CompOpp (lex r1 r2).
Proof.
  destruct r1 as [[c1 e1] m1], r2 as [[c2 e2] m2]. cbn.
  rewrite (Z.compare_antisym c1 c2), (Z.compare_antisym e1 e2),
    (Z.compare_antisym m1 m2).
  destruct (c1 ?= c2)%Z, (e1 ?= e2)%Z, (m1 ?= m2)%Z; reflexivity.
Qed.

Lemma lex_not_Gt (r1 r2 : Z * Z * Z) :
  lex r1 r2 <> Gt <->
  (let '(c1, e1, m1) := r1 in
   let '(c2, e2, m2) := r2 in
   c1 < c2 \/ (c1 = c2 /\ (e1 < e2 \/ (e1 = e2 /\ m1 <= m2))))%Z.
Proof.
  destruct r1 as [[c1 e1] m1], r2 as [[c2 e2] m2]. cbn.
  destruct (Z.compare_spec c1 c2) as [Hc | Hc | Hc],
    (Z.compare_spec e1 e2) as [He | He | He],
    (Z.compare_spec m1 m2) as [Hm | Hm | Hm];
    split; intros Hgt; try lia; try discriminate;
    try (exfalso; now apply Hgt).
Qed.

Lemma lex_trans (r1 r2 r3 : Z * Z * Z) :
  lex r1 r2 <> Gt -> lex r2 r3 <> Gt -> lex r1 r3 <> Gt.
Proof.
  rewrite !lex_not_Gt.
  destruct r1 as [[c1 e1] m1], r2 as [[c2 e2] m2], r3 as [[c3 e3] m3]. lia.
Qed.

(** [x <= y] in terms of ranks. *)
Lemma leb_rank (x y : float) :
  PrimFloat.leb x y = true
  <-> Prim2SF x <> S754_nan /\ Prim2SF y <> S754_nan
      /\ lex (rank (Prim2SF x)) (rank (Prim2SF y)) <> Gt.
Proof.
  rewrite leb_spec. unfold SFleb. split.
  - intros H.
    assert (Hx : Prim2SF x <> S754_nan).
    { intros E. rewrite E in H. discriminate. }
    assert (Hy : Prim2SF y <> S754_nan).
    { intros E. rewrite E in H. destruct (Prim2SF x); discriminate. }
    split; [exact Hx |]. split; [exact Hy |].
    rewrite (SFcompare_rank _ _ Hx Hy) in H.
    destruct (lex _ _); [discriminate | discriminate | discriminate H].
  - intros [Hx [Hy H]]. rewrite (SFcompare_rank _ _ Hx Hy).
    destruct (lex _ _); [reflexivity | reflexivity | now contradiction H].
Qed.

Lemma ltb_rank (x y : float) :
  PrimFloat.ltb x y = true
  <-> Prim2SF x <> S754_nan /\ Prim2SF y <> S754_nan
      /\ lex (rank (Prim2SF x)) (rank (Prim2SF y)) = Lt.
Proof.
  rewrite ltb_spec. unfold SFltb. split.
  - intros H.
    assert (Hx : Prim2SF x <> S754_nan).
    { intros E. rewrite E in H. discriminate. }
    assert (Hy : Prim2SF y <> S754_nan).
    { intros E. rewrite E in H. destruct (Prim2SF x); discriminate. }
    split; [exact Hx |]. split; [exact Hy |].
    rewrite (SFcompare_rank _ _ Hx Hy) in H.
    destruct (lex _ _); [discriminate | reflexivity | discriminate].
  - intros [Hx [Hy H]]. now rewrite (SFcompare_rank _ _ Hx Hy), H.
Qed.

Lemma is_nan_rank (x : float) :
  PrimFloat.is_nan x = false <-> Prim2SF x <> S754_nan.
Proof.
  unfold PrimFloat.is_nan. rewrite negb_false_iff, FloatAxioms.eqb_spec.
  unfold SFeqb. split.
  - intros H E. rewrite E in H. discriminate.
  - intros Hx. now rewrite (SFcompare_rank _ _ Hx Hx), lex_refl.
Qed.

Lemma leb_refl (x : float) :
  PrimFloat.is_nan x = false -> PrimFloat.leb x x = true.
Proof.
  intros H. apply is_nan_rank in H. apply leb_rank.
  split; [exact H |]. split; [exact H |]. now rewrite lex_refl.
Qed.

Lemma leb_trans (x y z : float) :
  PrimFloat.leb x y = true -> PrimFloat.leb y z = true ->
  PrimFloat.leb x z = true.
Proof.
  rewrite !leb_rank. intros [Hx [Hy H1]] [_ [Hz H2]].
  split; [exact Hx |]. split; [exact Hz |]. eapply lex_trans; eassumption.
Qed.

Lemma leb_numbers (x y : float) :
  PrimFloat.leb x y = true ->
  PrimFloat.is_nan x = false /\ PrimFloat.is_nan y = false.
Proof. rewrite leb_rank, !is_nan_rank. tauto. Qed.

(** [Math.max] of two numbers is one of them and bounds both; [Math.min]
    likewise, from below. *)
Lemma Math_max_bounds (x y : float) :
  PrimFloat.is_nan x = false -> PrimFloat.is_nan y = false ->
  (Math_max x y = x \/ Math_max x y = y)
  /\ PrimFloat.leb x (Math_max x y) = true
  /\ PrimFloat.leb y (Math_max x y) = true.
Proof.
  intros Hx Hy. unfold Math_max. rewrite Hx, Hy. cbn [orb].
  pose proof (leb_refl x Hx) as Hxx. pose proof (leb_refl y Hy) as Hyy.
  apply is_nan_rank in Hx, Hy.
  destruct (PrimFloat.ltb x y) eqn:H1.
  - split; [now right |]. split; [| exact Hyy].
    apply ltb_rank in H1. apply leb_rank. destruct H1 as [_ [_ H1]].
    split; [exact Hx |]. split; [exact Hy |]. rewrite H1. discriminate.
  - destruct (PrimFloat.ltb y x) eqn:H2.
    + split; [now left |]. split; [exact Hxx |].
      apply ltb_rank in H2. apply leb_rank. destruct H2 as [_ [_ H2]].
      split; [exact Hy |]. split; [exact Hx |]. rewrite H2. discriminate.
    + assert (Heq : lex (rank (Prim2SF x)) (rank (Prim2SF y)) = Eq).
      { destruct (lex (rank (Prim2SF x)) (rank (Prim2SF y))) eqn:Hl;
          [reflexivity | |].
        - assert (Ht : PrimFloat.ltb x y = true) by now apply ltb_rank.
          congruence.
        - assert (Ht : PrimFloat.ltb y x = true).
          { apply ltb_rank. split; [exact Hy |]. split; [exact Hx |].
            now rewrite lex_antisym, Hl. }
          congruence. }
      assert (Hxy : PrimFloat.leb x y = true).
      { apply leb_rank. split; [exact Hx |]. split; [exact Hy |].
        rewrite Heq. discriminate. }
      assert (Hyx : PrimFloat.leb y x = true).
      { apply leb_rank. split; [exact Hy |]. split; [exact Hx |].
        rewrite lex_antisym, Heq. discriminate. }
      destruct (PrimFloat.get_sign x); [now split; [right |] | now split; [left |]].
Qed.

Lemma Math_min_bounds (x y : float) :
  PrimFloat.is_nan x = false -> PrimFloat.is_nan y = false ->
  (Math_min x y = x \/ Math_min x y = y)
  /\ PrimFloat.leb (Math_min x y) x = true
  /\ PrimFloat.leb (Math_min x y) y = true.
Proof.
  intros Hx Hy. unfold Math_min. rewrite Hx, Hy. cbn [orb].
  pose proof (leb_refl x Hx) as Hxx. pose proof (leb_refl y Hy) as Hyy.
  apply is_nan_rank in Hx, Hy.
  destruct (PrimFloat.ltb x y) eqn:H1.
  - split; [now left |]. split; [exact Hxx |].
    apply ltb_rank in H1. apply leb_rank. destruct H1 as [_ [_ H1]].
    split; [exact Hx |]. split; [exact Hy |]. rewrite H1. discriminate.
  - destruct (PrimFloat.ltb y x) eqn:H2.
    + split; [now right |]. split; [| exact Hyy].
      apply ltb_rank in H2. apply leb_rank. destruct H2 as [_ [_ H2]].
      split; [exact Hy |]. split; [exact Hx |]. rewrite H2. discriminate.
    + assert (Heq : lex (rank (Prim2SF x)) (rank (Prim2SF y)) = Eq).
      { destruct (lex (rank (Prim2SF x)) (rank (Prim2SF y))) eqn:Hl;
          [reflexivity | |].
        - assert (Ht : PrimFloat.ltb x y = true) by now apply ltb_rank.
          congruence.
        - assert (Ht : PrimFloat.ltb y x = true).
          { apply ltb_rank. split; [exact Hy |]. split; [exact Hx |].
            now rewrite lex_antisym, Hl. }
          congruence. }
      assert (Hxy : PrimFloat.leb x y = true).
      { apply leb_rank. split; [exact Hx |]. split; [exact Hy |].
        rewrite Heq. discriminate. }
      assert (Hyx : PrimFloat.leb y x = true).
      { apply leb_rank. split; [exact Hy |]. split; [exact Hx |].
        rewrite lex_antisym, Heq. discriminate. }
      destruct (PrimFloat.get_sign x); [now split; [left |] | now split; [right |]].
Qed.

(* ===================================================================== *)
(** ** Ordered candles *)
(* ===================================================================== *)

Lemma ordered_core (a b : CandleData) :
  core a = core b -> ordered a = ordered b.
Proof.
  intros H.
  destruct (core_fields _ _ H) as [_ [Ho [Hh [Hl [Hc _]]]]].
  unfold ordered. now rewrite Ho, Hh, Hl, Hc.
Qed.

Lemma allOrdered_core (a b : list CandleData) :
  map core a = map core b -> allOrdered a = allOrdered b.
Proof.
  revert b. induction a as [| x a IH]; intros [| y b] H;
    try discriminate; [reflexivity |].
  cbn [map] in H.
  assert (Hx : core x = core y) by congruence.
  assert (Ha : map core a = map core b) by congruence.
  unfold allOrdered in *. cbn [forallb].
  now rewrite (ordered_core _ _ Hx), (IH _ Ha).
Qed.

Lemma allOrdered_app (a b : list CandleData) :
  allOrdered (a ++ b) = allOrdered a && allOrdered b.
Proof. apply forallb_app. Qed.

Lemma allOrdered_skipn (n : nat) (w : list CandleData) :
  allOrdered w = true -> allOrdered (skipn n w) = true.
Proof.
  intros H. rewrite <- (firstn_skipn n w), allOrdered_app in H.
  now apply andb_true_iff in H.
Qed.

(** A tick with a number for a price keeps an ordered candle ordered, and
    opens an ordered candle. *)
Lemma mergeInto_ordered (ev : FeedEvent) (l : CandleData) :
  soundEvent ev = true -> ordered l = true -> ordered (mergeInto ev l) = true.
Proof.
  destruct ev as [c | price t vol]; cbn [soundEvent mergeInto].
  - intros Hc _. exact Hc.
  - intros Hp Hl. apply negb_true_iff in Hp.
    unfold ordered in Hl |- *. cbn [low open high close].
    apply andb_true_iff in Hl. destruct Hl as [Hl Hch].
    apply andb_true_iff in Hl. destruct Hl as [Hl Hlc].
    apply andb_true_iff in Hl. destruct Hl as [Hlo Hoh].
    destruct (leb_numbers _ _ Hlo) as [Hnl _].
    destruct (leb_numbers _ _ Hoh) as [_ Hnh].
    destruct (Math_max_bounds (high l) price Hnh Hp) as [_ [Hm1 Hm2]].
    destruct (Math_min_bounds (low l) price Hnl Hp) as [_ [Hn1 Hn2]].
    rewrite (leb_trans _ _ _ Hn1 Hlo), (leb_trans _ _ _ Hoh Hm1), Hn2, Hm2.
    reflexivity.
Qed.

Lemma freshOf_ordered (ev : FeedEvent) :
  soundEvent ev = true -> ordered (freshOf ev) = true.
Proof.
  destruct ev as [c | price t vol]; cbn [soundEvent freshOf];
    [trivial |].
  intros Hp. apply negb_true_iff in Hp.
  unfold ordered. cbn [low open high close].
  now rewrite (leb_refl price Hp).
Qed.

Lemma place_ordered (ev : FeedEvent) (w : list CandleData) :
  soundEvent ev = true -> allOrdered w = true ->
  allOrdered (place ev w) = true.
Proof.
  intros Hev Hw.
  destruct (snoc_cases w) as [-> | [b [l ->]]].
  - rewrite place_nil. unfold allOrdered. cbn [forallb].
    now rewrite (freshOf_ordered ev Hev).
  - rewrite allOrdered_app in Hw. apply andb_true_iff in Hw.
    destruct Hw as [Hb Hl].
    unfold allOrdered in Hl. cbn [forallb] in Hl.
    rewrite andb_true_r in Hl.
    destruct (Z.eq_dec (time l) (keyOf ev)) as [Heq | Hne].
    + rewrite place_same by exact Heq. rewrite allOrdered_app, Hb.
      unfold allOrdered. cbn [forallb].
      now rewrite (mergeInto_ordered ev l Hev Hl).
    + rewrite place_new by exact Hne. rewrite !allOrdered_app, Hb.
      unfold allOrdered. cbn [forallb].
      now rewrite Hl, (freshOf_ordered ev Hev).
Qed.

Lemma applyEvent_ordered (ev : FeedEvent) (w : list CandleData) :
  soundEvent ev = true -> allOrdered w = true ->
  exists w', applyEvent ev w = Return w' /\ allOrdered w' = true.
Proof.
  intros Hev Hw.
  destruct (applyEvent_core ev w) as [w' [Hw' Hcore]].
  exists w'. split; [exact Hw' |].
  rewrite (allOrdered_core _ _ Hcore), enforceMaxCandles_skipn.
  apply allOrdered_skipn. now apply place_ordered.
Qed.

(** X26.  Fed with sound events (ordered klines, ticks whose price is a
    number), a window of ordered candles stays one: in every candle the low
    is at most the open and the close, and these are at most the high.  In
    particular the max/min bookkeeping of [aggregateCandleLocally] builds
    ordered candles from raw ticks. *)
Theorem window_stays_ordered (evs : list FeedEvent) :
  forall w,
    forallb soundEvent evs = true -> allOrdered w = true ->
    exists w', applyEvents evs w = Return w' /\ allOrdered w' = true.
Proof.
  induction evs as [| ev evs IH]; intros w Hevs Hw; cbn [applyEvents].
  - now exists w.
  - cbn [forallb] in Hevs. apply andb_true_iff in Hevs.
    destruct Hevs as [Hev Hevs].
    destruct (applyEvent_ordered ev w Hev Hw) as [w1 [Hw1 Ho1]].
    rewrite Hw1. cbn [bind]. now apply IH.
Qed.

Lemma window_stays_ordered_witness :
  let evs := [Tick (num 100) 1000 (num 6); Tick (num 90) 2000 (num 6);
              Tick (num 120) 61000 (num 6);
              Kline (flatCandle 120000 (num 100))] in
  forallb soundEvent evs = true /\ allOrdered [] = true
  /\ exists w', applyEvents evs [] = Return w' /\ allOrdered w' = true.
Proof.
  cbv zeta.
  assert (H1 : forallb soundEvent
                 [Tick (num 100) 1000 (num 6); Tick (num 90) 2000 (num 6);
                  Tick (num 120) 61000 (num 6);
                  Kline (flatCandle 120000 (num 100))] = true)
    by (vm_compute; reflexivity).
  assert (H2 : allOrdered [] = true) by reflexivity.
  split; [exact H1 |]. split; [exact H2 |].
  exact (window_stays_ordered _ [] H1 H2).
Defined.

(** The tick that fails the hypothesis: a NaN price leaves a candle that is
    not ordered. *)
Lemma nan_tick_breaks_order :
  exists w', applyEvents [Tick PrimFloat.nan 1000 (num 6)] [] = Return w'
             /\ allOrdered w' = false.
Proof. eexists. split; vm_compute; reflexivity. Qed.
